(** * ChickenTracker: egg-production validation, record store and monthly aggregation

    A shallow embedding of
      - [lib/validations/egg-production.ts]   (the zod schema),
      - the route handlers collected in [app/page.tsx]:
        POST and GET of /api/egg-production, PUT and DELETE of
        /api/egg-production/[id], GET of /api/egg-production/monthly,
        POST of /api/chickens/[id]/mark-deceased,
      - the AddEditEggProductionDialog component ([clientFormSchema],
        [formatErrorMessage], [onSubmit]),
      - the totals row and the empty state of
        [components/monthly-aggregate-table.tsx],
      - the month view of [components/egg-production-calendar.tsx] and
        the fetch and click handlers of the EggProductionClient component,
    together with the parts of the JavaScript runtime they rely on
    (ECMAScript time values and [Date] accessors, numbers, strings,
    [Map], [Array.prototype.sort]) and of zod 4 (the version the
    repository installs, see SETUP_COMPLETE.md: zod@4.1.12).

    Layout: definitions first (one module per layer), then lemmas, then the
    theorems about the specification's claims, then further properties of
    the code (X1 to X21). *)

From Stdlib Require Import ZArith QArith Qround Lia Bool List String Ascii.
From Stdlib Require Import DecimalString Sorted Permutation OrderedTypeEx.
Import ListNotations.

Local Open Scope string_scope.
Local Open Scope list_scope.
Local Open Scope Z_scope.

(* ================================================================== *)
(** * ECMAScript time values and the [Date] methods the routes call    *)
(* ================================================================== *)

Module JSDate.

(** A [Date] holds a time value: milliseconds since 1970-01-01T00:00Z.
    Instants produced by [new Date()] and by the setters below are
    wall-clock instants, far inside the range +-8.64e15 that [TimeClip]
    admits, so they are plain integers here; only a parsed string can be
    an Invalid Date, which is [None] in [Host.Date_parse]. *)
Definition TimeValue := Z.

Definition msPerDay : Z := 86400000.

Definition Day (t : TimeValue) : Z := t / msPerDay.
Definition TimeWithinDay (t : TimeValue) : Z := t mod msPerDay.

Definition InLeapYear (y : Z) : bool :=
  (y mod 4 =? 0) && (negb (y mod 100 =? 0) || (y mod 400 =? 0)).

Definition DaysInYear (y : Z) : Z := if InLeapYear y then 366 else 365.

(** Day number of the first day of year [y] (ECMAScript DayFromYear). *)
Definition DayFromYear (y : Z) : Z :=
  365 * (y - 1970) + (y - 1969) / 4 - (y - 1901) / 100 + (y - 1601) / 400.

(** The largest year whose first day is not after day [d]: an estimate
    from the mean Gregorian year, corrected by at most one. *)
Definition YearFromDay (d : Z) : Z :=
  let y0 := 1970 + (400 * d) / 146097 in
  if DayFromYear (y0 + 1) <=? d then y0 + 1
  else if d <? DayFromYear y0 then y0 - 1
  else y0.

Definition YearFromTime (t : TimeValue) : Z := YearFromDay (Day t).

Definition DayWithinYear (t : TimeValue) : Z :=
  Day t - DayFromYear (YearFromTime t).

(** Day within the year on which month [m] (0 = January) starts. *)
Definition monthStart (leap : bool) (m : Z) : Z :=
  let l := if leap then 1 else 0 in
  match m with
  | 0 => 0
  | 1 => 31
  | 2 => 59 + l
  | 3 => 90 + l
  | 4 => 120 + l
  | 5 => 151 + l
  | 6 => 181 + l
  | 7 => 212 + l
  | 8 => 243 + l
  | 9 => 273 + l
  | 10 => 304 + l
  | 11 => 334 + l
  | _ => 365 + l
  end.

Definition daysInMonth (leap : bool) (m : Z) : Z :=
  monthStart leap (m + 1) - monthStart leap m.

Definition monthOfDayInYear (leap : bool) (dwy : Z) : Z :=
  if dwy <? monthStart leap 1 then 0
  else if dwy <? monthStart leap 2 then 1
  else if dwy <? monthStart leap 3 then 2
  else if dwy <? monthStart leap 4 then 3
  else if dwy <? monthStart leap 5 then 4
  else if dwy <? monthStart leap 6 then 5
  else if dwy <? monthStart leap 7 then 6
  else if dwy <? monthStart leap 8 then 7
  else if dwy <? monthStart leap 9 then 8
  else if dwy <? monthStart leap 10 then 9
  else if dwy <? monthStart leap 11 then 10
  else 11.

Definition MonthFromTime (t : TimeValue) : Z :=
  monthOfDayInYear (InLeapYear (YearFromTime t)) (DayWithinYear t).

Definition DateFromTime (t : TimeValue) : Z :=
  DayWithinYear t + 1
  - monthStart (InLeapYear (YearFromTime t)) (MonthFromTime t).

(** MakeDay(year, month, date): months outside 0..11 carry into the year,
    days outside the month carry into the following (or previous) months. *)
Definition MakeDay (year month date : Z) : Z :=
  let ym := year + month / 12 in
  let mn := month mod 12 in
  DayFromYear ym + monthStart (InLeapYear ym) mn + date - 1.

Definition MakeDate (day time : Z) : TimeValue := day * msPerDay + time.

(** What the host environment contributes: the local time zone
    adjustment in milliseconds (a fixed offset; daylight saving changes
    are not modelled) and the string-to-time-value conversion behind
    [new Date(string)], [None] being an Invalid Date. *)
Record Host := {
  LocalTZA : Z;
  Date_parse : string -> option TimeValue
}.

Definition LocalTime (h : Host) (t : TimeValue) : Z := t + LocalTZA h.
Definition UTC (h : Host) (t : Z) : TimeValue := t - LocalTZA h.

Definition getFullYear (h : Host) (t : TimeValue) : Z :=
  YearFromTime (LocalTime h t).
Definition getMonth (h : Host) (t : TimeValue) : Z :=
  MonthFromTime (LocalTime h t).
Definition getDate (h : Host) (t : TimeValue) : Z :=
  DateFromTime (LocalTime h t).

(** [d.setMonth(month)]: the day of the month and the time of day are
    kept, and MakeDay normalises the result. *)
Definition setMonth (h : Host) (t : TimeValue) (month : Z) : TimeValue :=
  let lt := LocalTime h t in
  UTC h (MakeDate (MakeDay (YearFromTime lt) month (DateFromTime lt))
                  (TimeWithinDay lt)).

(** [d.setDate(date)]. *)
Definition setDate (h : Host) (t : TimeValue) (date : Z) : TimeValue :=
  let lt := LocalTime h t in
  UTC h (MakeDate (MakeDay (YearFromTime lt) (MonthFromTime lt) date)
                  (TimeWithinDay lt)).

(** The time value of the ISO date-only string "YYYY-MM-DD", which
    [new Date] reads as midnight UTC (month counted from 1). *)
Definition utcMidnight (y m d : Z) : TimeValue :=
  MakeDate (MakeDay y (m - 1) d) 0.

(** The time value of "YYYY-MM-DDTHH:mm:00.000Z". *)
Definition utcInstant (y m d hh mm : Z) : TimeValue :=
  MakeDate (MakeDay y (m - 1) d) (hh * 3600000 + mm * 60000).

End JSDate.

(* ================================================================== *)
(** * JavaScript values, strings, Map and Array.prototype.sort         *)
(* ================================================================== *)

Module JS.

(** A JavaScript number.  Every finite double is a rational, so a finite
    number is carried by its exact rational value; what holds for every
    rational holds for every double. *)
Inductive number :=
| NaN
| Infinity (negative : bool)
| Finite (q : Q).

Definition ofZ (z : Z) : number := Finite (inject_Z z).

(** The values a request body or a form field can hand to the schema. *)
Inductive value :=
| VUndefined
| VNull
| VBoolean (b : bool)
| VNumber (n : number)
| VString (s : string)
| VDate (tv : option JSDate.TimeValue)   (* [None]: an Invalid Date *)
| VObject.                               (* any other object or array *)

(** Number.isInteger, on a finite number. *)
Definition isInteger (q : Q) : bool :=
  Qnum q mod Zpos (Qden q) =? 0.

Definition MAX_SAFE_INTEGER : Z := 9007199254740991.
Definition MIN_SAFE_INTEGER : Z := -9007199254740991.

(** [q < z] and [q > z] for a number [q] and an integer bound [z]. *)
Definition ltZ (q : Q) (z : Z) : bool := Qnum q <? z * Zpos (Qden q).
Definition gtZ (q : Q) (z : Z) : bool := z * Zpos (Qden q) <? Qnum q.

(** Number.isSafeInteger. *)
Definition isSafeInteger (q : Q) : bool :=
  isInteger q && negb (ltZ q MIN_SAFE_INTEGER) && negb (gtZ q MAX_SAFE_INTEGER).

(** The integer an integral number denotes (what reaches an Int column). *)
Definition toInt (q : Q) : Z := Qfloor q.

(** The Number nearest to an integer.  Integers up to 2^53 in magnitude
    are Numbers themselves; a larger one keeps its 53 leading bits and
    is rounded to the nearest multiple of the power of two below them, a
    tie going to the even significand (IEEE 754 binary64, round to
    nearest, ties to even).  Sums beyond the largest finite Number
    (about 1.8e308), which give [Infinity], are not modelled: the counts
    of an array, fewer than 2^32 and below 2^53 each, stay under 2^85. *)
Definition roundToNumber (z : Z) : Z :=
  let a := Z.abs z in
  let e := Z.log2 a - 52 in
  if e <=? 0 then z
  else
    let unit := 2 ^ e in
    let q := a / unit in
    let r := a mod unit in
    let q' := if 2 * r <? unit then q
              else if unit <? 2 * r then q + 1
              else if Z.even q then q else q + 1 in
    Z.sgn z * (q' * unit).

(** [a + b] for two Numbers that hold integers (Number::add): the exact
    sum, rounded to the nearest Number. *)
Definition add (a b : Z) : Z := roundToNumber (a + b).

(** [String(n)] and template interpolation of an integer. *)
Definition numberToString (z : Z) : string :=
  NilZero.string_of_int (Z.to_int z).

Fixpoint repeatChar (c : ascii) (n : nat) : string :=
  match n with
  | O => EmptyString
  | S k => String c (repeatChar c k)
  end.

(** [s.padStart(targetLength, c)] for a one-character filler. *)
Definition padStart (s : string) (targetLength : nat) (c : ascii) : string :=
  (repeatChar c (targetLength - String.length s) ++ s)%string.

(** [hay.includes(needle)]. *)
Fixpoint includes (hay needle : string) : bool :=
  String.prefix needle hay ||
  match hay with
  | EmptyString => false
  | String _ rest => includes rest needle
  end.

(** [path.join('.')]. *)
Definition join (sep : string) (l : list string) : string :=
  String.concat sep l.

(** [a.localeCompare(b)].  The strings compared in this program are month
    keys, made of decimal digits and '-'; on that alphabet the collation
    order is the code-unit order ('-' before the digits, the digits in
    numeric order, a proper prefix first), which is what is modelled. *)
Definition localeCompare (a b : string) : comparison := String.compare a b.

(** A [Map] with string keys: entries in insertion order; [set] on an
    existing key replaces the value in place. *)
Section MapOps.
Context {V : Type}.

Definition Map := list (string * V).

Fixpoint has (m : Map) (k : string) : bool :=
  match m with
  | [] => false
  | (k', _) :: rest => if String.eqb k' k then true else has rest k
  end.

Fixpoint get (m : Map) (k : string) : option V :=
  match m with
  | [] => None
  | (k', v) :: rest => if String.eqb k' k then Some v else get rest k
  end.

Fixpoint set (m : Map) (k : string) (v : V) : Map :=
  match m with
  | [] => [(k, v)]
  | (k', v') :: rest =>
      if String.eqb k' k then (k', v) :: rest else (k', v') :: set rest k v
  end.
End MapOps.

Arguments Map : clear implicits.

(** [arr.sort(compareFn)]: a stable sort; [compareFn a b] tells whether
    [a] goes before ([Lt]) or after ([Gt]) [b]. *)
Section Sort.
Context {A : Type} (compareFn : A -> A -> comparison).

Fixpoint insertSorted (x : A) (l : list A) : list A :=
  match l with
  | [] => [x]
  | y :: rest =>
      match compareFn x y with
      | Gt => y :: insertSorted x rest
      | _ => x :: y :: rest
      end
  end.

Definition sort (l : list A) : list A := fold_right insertSorted [] l.

(** [a] is not required to come after [b]. *)
Definition notAfter (a b : A) : Prop := compareFn a b <> Gt.
End Sort.

End JS.

(* ================================================================== *)
(** * zod 4: date, number and object schemas                           *)
(* ================================================================== *)

Module Zod.
Import JS.

Inductive issueCode := invalid_type | too_big | too_small.

Record issue := {
  code : issueCode;
  path : list string;
  message : string
}.

(** An issue as a schema or a check pushes it on the payload.  An issue
    whose [continue] flag is not [true] aborts the value: the checks that
    come after it are skipped. *)
Record rawIssue := {
  raw : issue;
  continue : bool
}.

Definition aborted (issues : list rawIssue) : bool :=
  existsb (fun i => negb (continue i)) issues.

Definition check (A : Type) := A -> list rawIssue.

(** runChecks: the checks run in the order they were attached. *)
Fixpoint runChecks {A : Type} (checks : list (check A)) (v : A)
         (issues : list rawIssue) : list rawIssue :=
  match checks with
  | [] => issues
  | ch :: rest =>
      if aborted issues then runChecks rest v issues
      else runChecks rest v (issues ++ ch v)
  end.

Definition push (c : issueCode) (msg : string) (cont : bool) : list rawIssue :=
  [ {| raw := {| code := c; path := []; message := msg |}; continue := cont |} ].

(** The English locale's text for an [invalid_type] issue that carries no
    message of its own. *)
Definition parsedType (v : value) : string :=
  match v with
  | VUndefined => "undefined"
  | VNull => "null"
  | VBoolean _ => "boolean"
  | VNumber NaN => "NaN"
  | VNumber _ => "number"
  | VString _ => "string"
  | VDate _ => "Date"
  | VObject => "object"
  end.

Definition invalidTypeMessage (expected : string) (v : value) : string :=
  ("Invalid input: expected " ++ expected ++ ", received " ++ parsedType v)%string.

(** ** z.date() *)

Record ZodDate := { dateChecks : list (check JSDate.TimeValue) }.

Definition date : ZodDate := {| dateChecks := [] |}.

(** [.max(value, message)]: an inclusive upper bound.  [value] is the
    Date object handed over when the schema is built; the check keeps it. *)
Definition lte (value : JSDate.TimeValue) (msg : string) : check JSDate.TimeValue :=
  fun input => if input <=? value then [] else push too_big msg true.

Definition max (s : ZodDate) (value : JSDate.TimeValue) (msg : string) : ZodDate :=
  {| dateChecks := dateChecks s ++ [lte value msg] |}.

(** ** z.number() *)

Record ZodNumber := { numberChecks : list (check Q) }.

Definition number : ZodNumber := {| numberChecks := [] |}.

(** [.int(message)]: the "safeint" number format.  A value that is not an
    integer raises an issue that does not continue; an integer outside
    the safe range raises a range issue; the message given to [.int]
    is the message of whichever issue the check raises. *)
Definition numberFormatSafeint (msg : string) : check Q :=
  fun input =>
    if negb (isInteger input) then push invalid_type msg false
    else if negb (isSafeInteger input) then
      if gtZ input 0 then push too_big msg true else push too_small msg true
    else
      (if ltZ input MIN_SAFE_INTEGER then push too_small msg true else []) ++
      (if gtZ input MAX_SAFE_INTEGER then push too_big msg false else []).

Definition int (s : ZodNumber) (msg : string) : ZodNumber :=
  {| numberChecks := numberChecks s ++ [numberFormatSafeint msg] |}.

(** [.min(value, message)]: an inclusive lower bound. *)
Definition gte (value : Z) (msg : string) : check Q :=
  fun input => if negb (ltZ input value) then [] else push too_small msg true.

Definition min (s : ZodNumber) (value : Z) (msg : string) : ZodNumber :=
  {| numberChecks := numberChecks s ++ [gte value msg] |}.

(** ** Running a field schema: the type test, then the checks. *)

Definition finalize (issues : list rawIssue) : list issue := map raw issues.

Definition typeIssue (expected : string) (v : value) : list issue :=
  [ {| code := invalid_type; path := []; message := invalidTypeMessage expected v |} ].

Definition parseDate (s : ZodDate) (input : value) : list issue + JSDate.TimeValue :=
  match input with
  | VDate (Some t) =>
      match finalize (runChecks (dateChecks s) t []) with
      | [] => inr t
      | issues => inl issues
      end
  | _ => inl (typeIssue "date" input)
  end.

(** z.number() takes finite numbers only: NaN and the infinities are
    type errors. *)
Definition parseNumber (s : ZodNumber) (input : value) : list issue + Q :=
  match input with
  | VNumber (Finite q) =>
      match finalize (runChecks (numberChecks s) q []) with
      | [] => inr q
      | issues => inl issues
      end
  | _ => inl (typeIssue "number" input)
  end.

(** ** z.object({ date, count }) *)

Record ObjectSchema := {
  dateField : ZodDate;
  countField : ZodNumber
}.

Record Parsed := {
  pdate : JSDate.TimeValue;
  pcount : Q
}.

Inductive SafeParseResult :=
| Success (data : Parsed)
| Failure (issues : list issue).

Definition prefixIssues (key : string) (issues : list issue) : list issue :=
  map (fun i => {| code := code i; path := key :: path i; message := message i |})
      issues.

Definition issuesOf {A : Type} (r : list issue + A) : list issue :=
  match r with
  | inl issues => issues
  | inr _ => []
  end.

(** Every key of the shape is parsed, in the order of the shape, and the
    issues of all keys are gathered under their key. *)
Definition safeParse (s : ObjectSchema) (dateInput countInput : value)
  : SafeParseResult :=
  let rd := parseDate (dateField s) dateInput in
  let rc := parseNumber (countField s) countInput in
  match rd, rc with
  | inr t, inr q => Success {| pdate := t; pcount := q |}
  | _, _ =>
      Failure (prefixIssues "date" (issuesOf rd) ++
               prefixIssues "count" (issuesOf rc))
  end.

(** [result.error.issues], empty on success. *)
Definition issues (r : SafeParseResult) : list issue :=
  match r with
  | Success _ => []
  | Failure l => l
  end.

End Zod.

(* ================================================================== *)
(** * lib/validations/egg-production.ts                                *)
(* ================================================================== *)

Module Validations.

Definition msgDateInFuture : string := "Date cannot be in the future".
Definition msgCountNotInteger : string := "Count must be a whole number".
Definition msgCountNegative : string := "Count cannot be negative".

(** [eggProductionSchema] is a module-level constant: the argument of
    [.max(new Date(), ...)] is evaluated once, when the module is
    evaluated.  [moduleLoadedAt] is the value of that [new Date()]. *)
Definition eggProductionSchema (moduleLoadedAt : JSDate.TimeValue)
  : Zod.ObjectSchema :=
  {| Zod.dateField :=
       Zod.max Zod.date moduleLoadedAt msgDateInFuture;
     Zod.countField :=
       Zod.min (Zod.int Zod.number msgCountNotInteger) 0 msgCountNegative |}.

(** The error kinds of the validation layer, as issues. *)
Definition DateInFuture : Zod.issue :=
  {| Zod.code := Zod.too_big; Zod.path := ["date"];
     Zod.message := msgDateInFuture |}.

Definition isCountNotInteger (i : Zod.issue) : Prop :=
  Zod.path i = ["count"] /\ Zod.message i = msgCountNotInteger.

Definition isCountNegative (i : Zod.issue) : Prop :=
  Zod.path i = ["count"] /\ Zod.message i = msgCountNegative.

End Validations.

(* ================================================================== *)
(** * The record store behind [prisma.eggProduction]                   *)
(* ================================================================== *)

Module Store.
Import JSDate.

(** An opaque record identifier (a cuid in the source). *)
Definition Id := nat.

Record EggProduction := {
  id : Id;
  userId : string;
  date : TimeValue;
  count : Z;
  createdAt : TimeValue;
  updatedAt : TimeValue
}.

(** Modelled from the spec: the EggProduction table itself (the Prisma
    schema is not among the sources).  Section 3 and section 6 of the
    specification give its contract: an identifier generated at
    creation, a [date] column holding a calendar date with no time of
    day, an integer [count], [createdAt] set at creation and [updatedAt]
    refreshed on every mutation, and a composite unique index on
    (ownerId, date).  Failures of the storage other than the uniqueness
    violation (connectivity, column ranges) are outside this model. *)
Record Db := {
  rows : list EggProduction;
  nextId : Id
}.

(** The calendar date a Date value is stored as: its UTC day. *)
Definition dateOnly (t : TimeValue) : TimeValue := Day t * msPerDay.

(** What a failing call throws: an [Error] whose message the routes
    inspect. *)
Definition uniqueConstraintMessage : string :=
  "Unique constraint failed on the fields: (`userId`,`date`)".
Definition recordNotFoundMessage : string :=
  "Record to update not found.".

Definition sameKey (u : string) (d : TimeValue) (r : EggProduction) : bool :=
  String.eqb (userId r) u && (date r =? d).

(** [prisma.eggProduction.create({ data: { userId, date, count } })] *)
Definition create (db : Db) (now : TimeValue) (u : string) (d : TimeValue) (c : Z)
  : string + (EggProduction * Db) :=
  let d' := dateOnly d in
  if existsb (sameKey u d') (rows db) then inl uniqueConstraintMessage
  else
    let r := {| id := nextId db; userId := u; date := d'; count := c;
                createdAt := now; updatedAt := now |} in
    inr (r, {| rows := rows db ++ [r]; nextId := S (nextId db) |}).

(** [prisma.eggProduction.findUnique({ where: { id } })] *)
Definition findUnique (db : Db) (i : Id) : option EggProduction :=
  find (fun r => Nat.eqb (id r) i) (rows db).

Definition setFields (now : TimeValue) (d : TimeValue) (c : Z) (r : EggProduction)
  : EggProduction :=
  {| id := id r; userId := userId r; date := d; count := c;
     createdAt := createdAt r; updatedAt := now |}.

(** [prisma.eggProduction.update({ where: { id }, data: { date, count } })] *)
Definition update (db : Db) (now : TimeValue) (i : Id) (d : TimeValue) (c : Z)
  : string + (EggProduction * Db) :=
  match findUnique db i with
  | None => inl recordNotFoundMessage
  | Some r =>
      let d' := dateOnly d in
      if existsb (fun r' => negb (Nat.eqb (id r') i) && sameKey (userId r) d' r')
                 (rows db)
      then inl uniqueConstraintMessage
      else
        let r1 := setFields now d' c r in
        inr (r1,
             {| rows := map (fun r' => if Nat.eqb (id r') i
                                       then setFields now d' c r' else r')
                            (rows db);
                nextId := nextId db |})
  end.

(** The [where] clause of the two [findMany] calls: the owner, and
    optional inclusive bounds on the date, compared as instants (the way
    the repository's own tests read [gte] and [lte]). *)
Record Where := {
  whereUserId : string;
  gte : option TimeValue;
  lte : option TimeValue
}.

Definition matches (w : Where) (r : EggProduction) : bool :=
  String.eqb (userId r) (whereUserId w)
  && match gte w with Some lo => lo <=? date r | None => true end
  && match lte w with Some hi => date r <=? hi | None => true end.

Inductive Order := asc | desc.

Definition byDate (o : Order) (a b : EggProduction) : comparison :=
  match o with
  | asc => Z.compare (date a) (date b)
  | desc => Z.compare (date b) (date a)
  end.

(** [prisma.eggProduction.findMany({ where, orderBy: { date } })] *)
Definition findMany (db : Db) (w : Where) (o : Order) : list EggProduction :=
  JS.sort (byDate o) (filter (matches w) (rows db)).

End Store.

(* ================================================================== *)
(** * The API routes                                                   *)
(* ================================================================== *)

Module Api.
Import JSDate.

Record FieldError := {
  field : string;
  message : string
}.

Record MonthlyData := {
  month : string;            (* YYYY-MM *)
  totalCount : Z;
  daysRecorded : Z
}.

Inductive Json :=
| JEntry (e : Store.EggProduction)
| JEntries (l : list Store.EggProduction)
| JMonthly (l : list MonthlyData)
| JError (error : string) (details : option (list FieldError)).

Record Response := {
  status : Z;
  body : Json
}.

Definition json (b : Json) (s : Z) : Response := {| status := s; body := b |}.

(** [session?.user?.id]: absent, or the (possibly empty) user id. *)
Definition Session := option string.

Definition sessionUserId (s : Session) : option string :=
  match s with
  | Some u => if String.eqb u "" then None else Some u
  | None => None
  end.

(** What [await request.json()] and the reads of [body.date] and
    [body.count] give: either they throw (malformed JSON, a [null]
    body), or the two property values. *)
Inductive RequestBody :=
| BodyThrows
| BodyFields (date count : JS.value).

(** What a [try] block can throw. *)
Inductive Thrown :=
| ZodError (issues : list Zod.issue)
| Error (message : string).

Definition unauthorized : Response :=
  json (JError "Unauthorized. Please sign in." None) 401.

(** ** formatZodError (the same function in both route files) *)

Definition messageMap : JS.Map (JS.Map string) :=
  [ ("count",
      [ ("Count must be a whole number",
         "Egg count must be a whole number (no decimals).");
        ("Count cannot be negative",
         "Egg count cannot be negative. It must be 0 or greater.") ]);
    ("date",
      [ ("Date cannot be in the future",
         "You cannot log eggs for a future date. Please select today or an earlier date.") ]) ].

Definition formatZodError (issue : Zod.issue) : FieldError :=
  let field := JS.join "." (Zod.path issue) in
  match JS.get messageMap field with
  | Some fieldMessages =>
      match JS.get fieldMessages (Zod.message issue) with
      | Some friendly => {| field := field; message := friendly |}
      | None => {| field := field; message := Zod.message issue |}
      end
  | None => {| field := field; message := Zod.message issue |}
  end.

Definition validationFailed (issues : list Zod.issue) : Response :=
  json (JError "Validation failed" (Some (map formatZodError issues))) 400.

(** [if (typeof dateValue === 'string') dateValue = new Date(dateValue)] *)
Definition parseBodyDate (h : Host) (dateValue : JS.value) : JS.value :=
  match dateValue with
  | JS.VString s => JS.VDate (Date_parse h s)
  | v => v
  end.

(** [eggProductionSchema.parse(...)]: returns the data or throws. *)
Definition schemaParse (schema : Zod.ObjectSchema) (d c : JS.value)
  : Thrown + Zod.Parsed :=
  match Zod.safeParse schema d c with
  | Zod.Success data => inr data
  | Zod.Failure issues => inl (ZodError issues)
  end.

Definition isUniqueViolation (msg : string) : bool :=
  JS.includes msg "Unique constraint failed".

(** ** POST /api/egg-production *)

Definition duplicateOnCreate : Response :=
  json (JError "An entry already exists for this date"
          (Some [ {| field := "date";
                     message := "You already have an entry for this date. Please edit the existing entry instead." |} ]))
       400.

Definition POST_catch (e : Thrown) : Response :=
  match e with
  | ZodError issues => validationFailed issues
  | Error msg =>
      if isUniqueViolation msg then duplicateOnCreate
      else json (JError "Failed to create entry. Please try again." None) 500
  end.

(** [schemaLoadedAt] is the instant at which the server evaluated the
    validation module. *)
Definition POST (h : Host) (schemaLoadedAt now : TimeValue)
           (session : Session) (request : RequestBody) (db : Store.Db)
  : Response * Store.Db :=
  match sessionUserId session with
  | None => (unauthorized, db)
  | Some uid =>
      match request with
      | BodyThrows => (POST_catch (Error "Unexpected end of JSON input"), db)
      | BodyFields bdate bcount =>
          let dateValue := parseBodyDate h bdate in
          match schemaParse (Validations.eggProductionSchema schemaLoadedAt)
                            dateValue bcount with
          | inl e => (POST_catch e, db)
          | inr validated =>
              match Store.create db now uid (Zod.pdate validated)
                                 (JS.toInt (Zod.pcount validated)) with
              | inl msg => (POST_catch (Error msg), db)
              | inr (entry, db') => (json (JEntry entry) 201, db')
              end
          end
      end
  end.

(** ** GET /api/egg-production *)

(** [new Date(str)] as a query bound; an Invalid Date makes the query
    throw. *)
Definition queryBound (h : Host) (param : option string)
  : Thrown + option TimeValue :=
  match param with
  | None => inr None
  | Some s =>
      if String.eqb s "" then inr None
      else match Date_parse h s with
           | Some t => inr (Some t)
           | None => inl (Error "Invalid value for argument: Provided Date object is invalid.")
           end
  end.

Definition GET_list (h : Host) (session : Session)
           (startDateStr endDateStr : option string) (db : Store.Db)
  : Response :=
  match sessionUserId session with
  | None => unauthorized
  | Some uid =>
      match queryBound h startDateStr, queryBound h endDateStr with
      | inr lo, inr hi =>
          let whereClause :=
            {| Store.whereUserId := uid; Store.gte := lo; Store.lte := hi |} in
          json (JEntries (Store.findMany db whereClause Store.desc)) 200
      | _, _ =>
          json (JError "Failed to fetch entries. Please try again." None) 500
      end
  end.

(** ** PUT /api/egg-production/[id] *)

Definition duplicateOnUpdate : Response :=
  json (JError "An entry already exists for this date"
          (Some [ {| field := "date";
                     message := "You already have an entry for this date. Please select a different date or edit the existing entry." |} ]))
       400.

Definition notFound : Response :=
  json (JError "Entry not found." None) 404.

Definition forbidden : Response :=
  json (JError "Forbidden. You don't have permission to modify this entry." None) 403.

Definition PUT_catch (e : Thrown) : Response :=
  match e with
  | ZodError issues => validationFailed issues
  | Error msg =>
      if isUniqueViolation msg then duplicateOnUpdate
      else json (JError "Failed to update entry. Please try again." None) 500
  end.

Definition PUT (h : Host) (schemaLoadedAt now : TimeValue)
           (session : Session) (id : Store.Id) (request : RequestBody)
           (db : Store.Db)
  : Response * Store.Db :=
  match sessionUserId session with
  | None => (unauthorized, db)
  | Some uid =>
      match Store.findUnique db id with
      | None => (notFound, db)
      | Some existingEntry =>
          if negb (String.eqb (Store.userId existingEntry) uid)
          then (forbidden, db)
          else
            match request with
            | BodyThrows => (PUT_catch (Error "Unexpected end of JSON input"), db)
            | BodyFields bdate bcount =>
                let dateValue := parseBodyDate h bdate in
                match schemaParse (Validations.eggProductionSchema schemaLoadedAt)
                                  dateValue bcount with
                | inl e => (PUT_catch e, db)
                | inr validated =>
                    match Store.update db now id (Zod.pdate validated)
                                       (JS.toInt (Zod.pcount validated)) with
                    | inl msg => (PUT_catch (Error msg), db)
                    | inr (updatedEntry, db') =>
                        (json (JEntry updatedEntry) 200, db')
                    end
                end
            end
      end
  end.

(** ** GET /api/egg-production/monthly *)

(** [new Date(); setMonth(getMonth() - 6); setDate(1)] *)
Definition sixMonthsAgo (h : Host) (now : TimeValue) : TimeValue :=
  setDate h (setMonth h now (getMonth h now - 6)) 1.

(** The [findMany] of the route, with [select: { date, count }]. *)
Definition fetchSince (db : Store.Db) (uid : string) (windowStart : TimeValue)
  : list (TimeValue * Z) :=
  map (fun r => (Store.date r, Store.count r))
      (Store.findMany db
         {| Store.whereUserId := uid; Store.gte := Some windowStart;
            Store.lte := None |}
         Store.asc).

Definition monthKey (h : Host) (d : TimeValue) : string :=
  let year := getFullYear h d in
  let month := JS.padStart (JS.numberToString (getMonth h d + 1)) 2 "0"%char in
  (JS.numberToString year ++ "-" ++ month)%string.

Record MonthData := {
  mTotalCount : Z;
  mDaysRecorded : Z
}.

(** One turn of the [for (const entry of entries)] loop.  Both [+=] add
    Numbers ([JS.add]): exact as long as the result stays within 2^53,
    rounded beyond. *)
Definition groupEntry (h : Host) (monthlyMap : JS.Map MonthData)
           (entry : TimeValue * Z) : JS.Map MonthData :=
  let key := monthKey h (fst entry) in
  let monthlyMap :=
    if negb (JS.has monthlyMap key)
    then JS.set monthlyMap key {| mTotalCount := 0; mDaysRecorded := 0 |}
    else monthlyMap in
  match JS.get monthlyMap key with
  | Some monthData =>
      JS.set monthlyMap key
        {| mTotalCount := JS.add (mTotalCount monthData) (snd entry);
           mDaysRecorded := JS.add (mDaysRecorded monthData) 1 |}
  | None => monthlyMap
  end.

Definition toMonthlyData (kv : string * MonthData) : MonthlyData :=
  {| month := fst kv;
     totalCount := mTotalCount (snd kv);
     daysRecorded := mDaysRecorded (snd kv) |}.

(** Most recent first: [(a, b) => b.month.localeCompare(a.month)]. *)
Definition mostRecentFirst (a b : MonthlyData) : comparison :=
  JS.localeCompare (month b) (month a).

Definition aggregate (h : Host) (entries : list (TimeValue * Z))
  : list MonthlyData :=
  let monthlyMap := fold_left (groupEntry h) entries [] in
  JS.sort mostRecentFirst (map toMonthlyData monthlyMap).

Definition GET_monthly (h : Host) (now : TimeValue) (session : Session)
           (db : Store.Db) : Response :=
  match sessionUserId session with
  | None => unauthorized
  | Some uid =>
      let entries := fetchSince db uid (sixMonthsAgo h now) in
      json (JMonthly (aggregate h entries)) 200
  end.

End Api.

(* ================================================================== *)
(** * The client dialog (AddEditEggProductionDialog)                   *)
(* ================================================================== *)

Module Client.

(** [const clientFormSchema = eggProductionSchema;] in the browser's copy
    of the validation module, which the browser evaluates when it loads
    the page's script. *)
Definition clientFormSchema (moduleLoadedAt : JSDate.TimeValue)
  : Zod.ObjectSchema :=
  Validations.eggProductionSchema moduleLoadedAt.

Definition errorMap : list (string * string) :=
  [ ("Date cannot be in the future",
     "You cannot log eggs for a future date. Please select today or an earlier date.");
    ("Count must be a whole number",
     "Egg count must be a whole number (no decimals).");
    ("Count cannot be negative",
     "Egg count cannot be negative. It must be 0 or greater.");
    ("You can only have one entry per day",
     "You already have an entry for this date. Please edit the existing entry instead.") ].

Fixpoint firstIncluded (error : string) (entries : list (string * string))
  : option string :=
  match entries with
  | [] => None
  | (key, msg) :: rest =>
      if JS.includes error key then Some msg else firstIncluded error rest
  end.

Definition formatErrorMessage (error : string) : string :=
  match firstIncluded error errorMap with
  | Some msg => msg
  | None => error
  end.

(** What the form resolver reports for the values of the two fields. *)
Definition validateForm (moduleLoadedAt : JSDate.TimeValue)
           (date count : JS.value) : Zod.SafeParseResult :=
  Zod.safeParse (clientFormSchema moduleLoadedAt) date count.

End Client.

(** The authoritative check of the server routes, on the same two values. *)
Definition serverValidate (schemaLoadedAt : JSDate.TimeValue)
           (date count : JS.value) : Zod.SafeParseResult :=
  Zod.safeParse (Validations.eggProductionSchema schemaLoadedAt) date count.

(* ================================================================== *)
(** * components/monthly-aggregate-table.tsx: the totals row           *)
(* ================================================================== *)

Module Components.

(** [monthlyData.reduce((sum, m) => sum + m.totalCount, 0)] *)
Definition totalEggs (monthlyData : list Api.MonthlyData) : Z :=
  fold_left (fun sum m => JS.add sum (Api.totalCount m)) monthlyData 0.

(** [monthlyData.reduce((sum, m) => sum + m.daysRecorded, 0)] *)
Definition totalDaysRecorded (monthlyData : list Api.MonthlyData) : Z :=
  fold_left (fun sum m => JS.add sum (Api.daysRecorded m)) monthlyData 0.

End Components.

(* ================================================================== *)
(** * Vocabulary of the specification                                  *)
(* ================================================================== *)

Module Spec.
Import JSDate.

(** Calendar months counted from year 0: the month an instant falls in
    on the server's clock (its local time), ... *)
Definition monthIndex (h : Host) (t : TimeValue) : Z :=
  12 * getFullYear h t + getMonth h t.



(** The day of the month of [now] also exists in the month six months
    earlier (always so up to the 28th). *)
Definition dayExistsSixMonthsBack (h : Host) (now : TimeValue) : Prop :=
  let target := getMonth h now - 6 in
  getDate h now
  <= daysInMonth (InLeapYear (getFullYear h now + target / 12)) (target mod 12).

(** The key "YYYY-MM" of the calendar month of a record's date: the
    year in decimal, a hyphen, and the month number 01..12 written with
    two digits.  The [date] column holds a calendar date, kept as the
    time value of its midnight UTC; the key is read off that calendar
    date itself, whatever the time zone of the server. *)
Definition digit (n : Z) : ascii := ascii_of_nat (48 + Z.to_nat n).

Definition twoDigits (n : Z) : string :=
  String (digit (n / 10)) (String (digit (n mod 10)) EmptyString).

Definition calendarMonthKey (d : TimeValue) : string :=
  (JS.numberToString (YearFromTime d) ++ "-"
     ++ twoDigits (MonthFromTime d + 1))%string.

(** Sum of the counts of a list of (date, count) entries: the sum of
    integers, not of Numbers. *)
Definition sumCounts (entries : list (TimeValue * Z)) : Z :=
  fold_right (fun e acc => snd e + acc) 0 entries.

(** The entries whose date lies in the calendar month [key]. *)
Definition ofMonth (key : string) (entries : list (TimeValue * Z))
  : list (TimeValue * Z) :=
  filter (fun e => String.eqb (calendarMonthKey (fst e)) key) entries.

(** The entries that the route on host [h] files under [key]. *)
Definition keyedAs (h : Host) (key : string) (entries : list (TimeValue * Z))
  : list (TimeValue * Z) :=
  filter (fun e => String.eqb (Api.monthKey h (fst e)) key) entries.

(** The dates are calendar dates, as the table hands them out. *)
Definition datesOnly (entries : list (TimeValue * Z)) : Prop :=
  Forall (fun e => fst e = Store.dateOnly (fst e)) entries.

(** The counts are non-negative and add up to at most 2^53, and there
    are at most 2^53 of them: every sum and every counter the loop and
    the totals row pass through is then an integer that a Number holds
    exactly. *)
Definition sumsExact (entries : list (TimeValue * Z)) : Prop :=
  Forall (fun e => 0 <= snd e) entries
  /\ sumCounts entries <= 2 ^ 53
  /\ Z.of_nat (List.length entries) <= 2 ^ 53.

(** A server whose local time is at or east of UTC. *)
Definition atOrEastOfUTC (h : Host) : Prop := 0 <= LocalTZA h < msPerDay.

(** What the grouping map holds for a key, 0 when the key is absent. *)
Definition totalOf (g : option Api.MonthData) : Z :=
  match g with Some md => Api.mTotalCount md | None => 0 end.

Definition daysOf (g : option Api.MonthData) : Z :=
  match g with Some md => Api.mDaysRecorded md | None => 0 end.

Definition mapTotal (m : JS.Map Api.MonthData) : Z :=
  fold_right (fun kv acc => Api.mTotalCount (snd kv) + acc) 0 m.

Definition mapDays (m : JS.Map Api.MonthData) : Z :=
  fold_right (fun kv acc => Api.mDaysRecorded (snd kv) + acc) 0 m.

(** The issues the schema's date field raises for a valid Date [t]
    when the schema was built at [bound], and those its count field
    raises for a finite number [q], before the field name is prefixed. *)
Definition dateIssues (bound t : TimeValue) : list Zod.issue :=
  if t <=? bound then []
  else [ {| Zod.code := Zod.too_big; Zod.path := [];
             Zod.message := Validations.msgDateInFuture |} ].

Definition countIssues (q : Q) : list Zod.issue :=
  if negb (JS.isInteger q) then
    [ {| Zod.code := Zod.invalid_type; Zod.path := [];
         Zod.message := Validations.msgCountNotInteger |} ]
  else
    (if negb (JS.isSafeInteger q) then
       [ {| Zod.code := if JS.gtZ q 0 then Zod.too_big else Zod.too_small;
            Zod.path := [];
            Zod.message := Validations.msgCountNotInteger |} ]
     else [])
    ++ (if JS.ltZ q 0 then
          [ {| Zod.code := Zod.too_small; Zod.path := [];
               Zod.message := Validations.msgCountNegative |} ]
        else []).

(** The store holds a record of owner [u] for the calendar date of [d]. *)
Definition hasRecord (db : Store.Db) (u : string) (d : TimeValue) : Prop :=
  exists r, In r (Store.rows db) /\ Store.userId r = u
            /\ Store.date r = Store.dateOnly d.

(** A count is a mathematical integer. *)
Definition isMathInteger (q : Q) : Prop := exists z : Z, (q == inject_Z z)%Q.

(** A host whose zone offset lies between UTC-12:00 and UTC+14:00. *)
Definition realisticZone (h : Host) : Prop :=
  -43200000 <= LocalTZA h <= 50400000.

End Spec.


(* ================================================================== *)
(** * Concrete hosts and data used in the examples                     *)
(* ================================================================== *)

Module Sample.
Import JSDate.

Definition digitValue (c : ascii) : option Z :=
  let n := Z.of_nat (nat_of_ascii c) in
  if (48 <=? n) && (n <=? 57) then Some (n - 48) else None.

Fixpoint digitsValue (cs : list ascii) (acc : Z) : option Z :=
  match cs with
  | [] => Some acc
  | c :: rest =>
      match digitValue c with
      | Some v => digitsValue rest (10 * acc + v)
      | None => None
      end
  end.

(** A reading of the ISO date-only form "YYYY-MM-DD" as midnight UTC;
    every other string is an Invalid Date for this host. *)
Definition isoDateOnly (s : string) : option TimeValue :=
  match list_ascii_of_string s with
  | [y1; y2; y3; y4; "-"%char; m1; m2; "-"%char; d1; d2] =>
      match digitsValue [y1; y2; y3; y4] 0, digitsValue [m1; m2] 0,
            digitsValue [d1; d2] 0 with
      | Some y, Some m, Some d =>
          if (1 <=? m) && (m <=? 12) && (1 <=? d)
             && (d <=? daysInMonth (InLeapYear y) (m - 1))
          then Some (utcMidnight y m d) else None
      | _, _, _ => None
      end
  | _ => None
  end.

(** A server whose local time is UTC. *)
Definition utcHost : Host :=
  {| LocalTZA := 0; Date_parse := isoDateOnly |}.

(** A server five hours west of UTC. *)
Definition westHost : Host :=
  {| LocalTZA := -18000000; Date_parse := isoDateOnly |}.

Definition emptyDb : Store.Db := {| Store.rows := []; Store.nextId := 0%nat |}.

Definition row (i : nat) (u : string) (d : TimeValue) (c : Z) : Store.EggProduction :=
  {| Store.id := i; Store.userId := u; Store.date := d; Store.count := c;
     Store.createdAt := d; Store.updatedAt := d |}.

(** Eight monthly entries of one owner, January to August 2024, and an
    entry of another owner. *)
Definition windowDb : Store.Db :=
  {| Store.rows :=
       [ row 0 "user2" (utcMidnight 2024 1 15) 40;
         row 1 "user2" (utcMidnight 2024 2 15) 35;
         row 2 "user2" (utcMidnight 2024 3 15) 30;
         row 3 "user2" (utcMidnight 2024 4 15) 25;
         row 4 "user2" (utcMidnight 2024 5 15) 20;
         row 5 "user2" (utcMidnight 2024 6 15) 15;
         row 6 "user2" (utcMidnight 2024 7 15) 10;
         row 7 "user2" (utcMidnight 2024 8 15) 5;
         row 8 "user1" (utcMidnight 2024 6 15) 99 ];
     Store.nextId := 9%nat |}.

(** One owner with a record in May 2025 and one in February 2025. *)
Definition springDb : Store.Db :=
  {| Store.rows :=
       [ row 0 "user1" (utcMidnight 2025 2 15) 4;
         row 1 "user1" (utcMidnight 2025 5 10) 3 ];
     Store.nextId := 2%nat |}.

(** The same owner with a further record, dated on the first of May
    2025. *)
Definition firstOfMayDb : Store.Db :=
  {| Store.rows :=
       [ row 0 "user1" (utcMidnight 2025 2 15) 4;
         row 1 "user1" (utcMidnight 2025 5 10) 3;
         row 2 "user1" (utcMidnight 2025 5 1) 7 ];
     Store.nextId := 3%nat |}.

End Sample.

(* ================================================================== *)
(** * DELETE /api/egg-production/[id]                                  *)
(* ================================================================== *)

Module EntryRoute.
Import JSDate.

(** Modelled from the spec: the table's delete operation, which the
    handler calls as [prisma.eggProduction.delete({ where: { id } })].
    Section 4.2 of the specification has it remove the record
    permanently; a call for an id that no record has throws. *)
Definition recordToDeleteMissing : string :=
  "Record to delete does not exist.".

Definition deleteRow (db : Store.Db) (i : Store.Id) : string + Store.Db :=
  match Store.findUnique db i with
  | None => inl recordToDeleteMissing
  | Some _ =>
      inr {| Store.rows :=
               filter (fun r => negb (Nat.eqb (Store.id r) i)) (Store.rows db);
             Store.nextId := Store.nextId db |}
  end.

(** What the route answers: a JSON response, or the empty 204 response
    [new NextResponse(null, { status: 204 })]. *)
Inductive Answer :=
| NoContent
| Reply (r : Api.Response).

Definition answerStatus (a : Answer) : Z :=
  match a with
  | NoContent => 204
  | Reply r => Api.status r
  end.

Definition forbidden : Api.Response :=
  Api.json (Api.JError "Forbidden. You don't have permission to delete this entry." None)
           403.

Definition failed : Api.Response :=
  Api.json (Api.JError "Failed to delete entry. Please try again." None) 500.

Definition DELETE (session : Api.Session) (id : Store.Id) (db : Store.Db)
  : Answer * Store.Db :=
  match Api.sessionUserId session with
  | None => (Reply Api.unauthorized, db)
  | Some uid =>
      match Store.findUnique db id with
      | None => (Reply Api.notFound, db)
      | Some entry =>
          if negb (String.eqb (Store.userId entry) uid)
          then (Reply forbidden, db)
          else
            match deleteRow db id with
            | inl _ => (Reply failed, db)
            | inr db' => (NoContent, db')
            end
      end
  end.

End EntryRoute.

(* ================================================================== *)
(** * Properties of the table the routes are expected to keep          *)
(* ================================================================== *)

Module Invariant.
Import JSDate.

(** The key of the unique index. *)
Definition ownerDate (r : Store.EggProduction) : string * TimeValue :=
  (Store.userId r, Store.date r).

(** A row holds a calendar date (a midnight UTC), a count that is a
    non-negative safe integer, and an owner. *)

Definition rowOk (r : Store.EggProduction) : Prop :=
  Store.date r = Store.dateOnly (Store.date r)
  /\ 0 <= Store.count r <= JS.MAX_SAFE_INTEGER
  /\ Store.userId r <> "".

(** Identifiers are pairwise distinct and below the next one to be
    drawn, no owner has two records for one date, and every row is as
    above. *)
Definition wellFormed (db : Store.Db) : Prop :=
  NoDup (map Store.id (Store.rows db))
  /\ (forall r, In r (Store.rows db) -> (Store.id r < Store.nextId db)%nat)
  /\ NoDup (map ownerDate (Store.rows db))
  /\ (forall r, In r (Store.rows db) -> rowOk r).

End Invariant.

(* ================================================================== *)
(** * More of the [Date] object: what the client components call       *)
(* ================================================================== *)

Module DateObject.
Import JSDate.

Definition WeekDay (t : TimeValue) : Z := (Day t + 4) mod 7.
Definition HourFromTime (t : TimeValue) : Z := (t / 3600000) mod 24.
Definition MinFromTime (t : TimeValue) : Z := (t / 60000) mod 60.
Definition SecFromTime (t : TimeValue) : Z := (t / 1000) mod 60.
Definition msFromTime (t : TimeValue) : Z := t mod 1000.

(** [d.getDay()]: 0 is Sunday. *)
Definition getDay (h : Host) (t : TimeValue) : Z := WeekDay (LocalTime h t).

(** [new Date(year, month, date)]: the components are read in local
    time, at midnight; a year from 0 to 99 stands for 1900 + year. *)
Definition MakeFullYear (year : Z) : Z :=
  if (0 <=? year) && (year <=? 99) then 1900 + year else year.

Definition newDate (h : Host) (year month date : Z) : TimeValue :=
  UTC h (MakeDate (MakeDay (MakeFullYear year) month date) 0).

Definition pad (targetLength : nat) (z : Z) : string :=
  JS.padStart (JS.numberToString z) targetLength "0"%char.

(** The year of the ISO format: four digits from 0 to 9999, otherwise a
    sign and six digits. *)
Definition isoYear (y : Z) : string :=
  if (0 <=? y) && (y <=? 9999) then pad 4 y
  else ((if (y <? 0)%Z then "-" else "+") ++ pad 6 (Z.abs y))%string.

(** [d.toISOString()], of a valid Date: always in UTC. *)
Definition toISOString (t : TimeValue) : string :=
  (isoYear (YearFromTime t) ++ "-" ++ pad 2 (MonthFromTime t + 1) ++ "-"
     ++ pad 2 (DateFromTime t) ++ "T" ++ pad 2 (HourFromTime t) ++ ":"
     ++ pad 2 (MinFromTime t) ++ ":" ++ pad 2 (SecFromTime t) ++ "."
     ++ pad 3 (msFromTime t) ++ "Z")%string.

(** [s.split(sep)[0]] for a one-character separator: what precedes the
    first separator, the whole string when there is none. *)
Fixpoint beforeFirst (sep : ascii) (s : string) : string :=
  match s with
  | EmptyString => EmptyString
  | String c rest =>
      if Ascii.eqb c sep then EmptyString else String c (beforeFirst sep rest)
  end.

(** [d.toISOString().split('T')[0]], the key under which the client
    components file a Date. *)
Definition isoDate (t : TimeValue) : string := beforeFirst "T" (toISOString t).

End DateObject.

(* ================================================================== *)
(** * The dialog's submission (AddEditEggProductionDialog, onSubmit)   *)
(* ================================================================== *)

Module Dialog.
Import JSDate.

(** [response.ok] *)
Definition ok (response : Api.Response) : bool :=
  (200 <=? Api.status response) && (Api.status response <=? 299).

Definition failedToSave : string := "Failed to save entry. Please try again.".

(** The message extracted from the body of a failed response: the
    message of the first field error when the body has [details],
    otherwise the [error] text, each passed through
    [formatErrorMessage]; an empty string counts as absent. *)
Definition errorMessage (errorData : Api.Json) : string :=
  match errorData with
  | Api.JError error (Some details) =>
      match details with
      | fieldError :: _ =>
          if String.eqb (Api.message fieldError) "" then failedToSave
          else Client.formatErrorMessage (Api.message fieldError)
      | [] => failedToSave
      end
  | Api.JError error None =>
      if String.eqb error "" then failedToSave
      else Client.formatErrorMessage error
  | _ => failedToSave
  end.

(** The body of the request: [{ date: data.date.toISOString(), count }]. *)
Definition requestBody (data : Zod.Parsed) : Api.RequestBody :=
  Api.BodyFields (JS.VString (DateObject.toISOString (Zod.pdate data)))
                 (JS.VNumber (JS.Finite (Zod.pcount data))).

(** [onSubmit(data)]: PUT to the entry being edited, POST otherwise; the
    result is the error the dialog shows ([None]: the success message)
    and the table after the request.  [server] is the host the routes run
    on, [serverLoadedAt] the instant at which it evaluated the validation
    module. *)
Definition onSubmit (server : Host) (serverLoadedAt now : TimeValue)
           (session : Api.Session) (entryToEdit : option Store.EggProduction)
           (data : Zod.Parsed) (db : Store.Db) : option string * Store.Db :=
  let '(response, db') :=
    match entryToEdit with
    | Some entry =>
        Api.PUT server serverLoadedAt now session (Store.id entry)
                (requestBody data) db
    | None => Api.POST server serverLoadedAt now session (requestBody data) db
    end in
  if ok response then (None, db')
  else (Some (errorMessage (Api.body response)), db').

End Dialog.

(* ================================================================== *)
(** * components/egg-production-calendar.tsx                           *)
(* ================================================================== *)

Module Calendar.
Import JSDate.

(** The map from date key to entry; a later entry of the same key
    replaces an earlier one.  The entries handed to the component carry
    valid Dates. *)
Definition entryMap (entries : list Store.EggProduction)
  : JS.Map Store.EggProduction :=
  fold_left (fun m entry => JS.set m (DateObject.isoDate (Store.date entry)) entry)
            entries [].

Definition year (h : Host) (viewMonth : TimeValue) : Z := getFullYear h viewMonth.
Definition month (h : Host) (viewMonth : TimeValue) : Z := getMonth h viewMonth.

Definition firstDay (h : Host) (viewMonth : TimeValue) : TimeValue :=
  DateObject.newDate h (year h viewMonth) (month h viewMonth) 1.

Definition lastDay (h : Host) (viewMonth : TimeValue) : TimeValue :=
  DateObject.newDate h (year h viewMonth) (month h viewMonth + 1) 0.

Definition daysInMonth (h : Host) (viewMonth : TimeValue) : Z :=
  getDate h (lastDay h viewMonth).

Definition startingDayOfWeek (h : Host) (viewMonth : TimeValue) : Z :=
  DateObject.getDay h (firstDay h viewMonth).

Definition isCurrentMonth (h : Host) (today viewMonth : TimeValue) : bool :=
  (getFullYear h today =? year h viewMonth)
  && (getMonth h today =? month h viewMonth).

(** [isCurrentMonth && day === today.getDate()]: the highlighted cell. *)
Definition isCurrentDay (h : Host) (today viewMonth : TimeValue) (day : Z) : bool :=
  isCurrentMonth h today viewMonth && (day =? getDate h today).

(** The new [viewMonth] of the two navigation buttons. *)
Definition handlePrevMonth (h : Host) (viewMonth : TimeValue) : TimeValue :=
  DateObject.newDate h (year h viewMonth) (month h viewMonth - 1) 1.

Definition handleNextMonth (h : Host) (viewMonth : TimeValue) : TimeValue :=
  DateObject.newDate h (year h viewMonth) (month h viewMonth + 1) 1.

(** The Date handed to [onDayClick]. *)
Definition handleDayClick (h : Host) (viewMonth : TimeValue) (day : Z) : TimeValue :=
  DateObject.newDate h (year h viewMonth) (month h viewMonth) day.

(** A cell of the grid: a day number or [null]. *)
Definition Cell := option Z.

(** The [for] loop that fills the weeks. *)
Fixpoint fillWeeks (days : list Z) (weeks : list (list Cell)) (week : list Cell)
  : list (list Cell) * list Cell :=
  match days with
  | [] => (weeks, week)
  | day :: rest =>
      let week := week ++ [Some day] in
      if Nat.eqb (List.length week) 7 then fillWeeks rest (weeks ++ [week]) []
      else fillWeeks rest weeks week
  end.

(** The days 1 .. n the loop runs through. *)
Definition daysUpTo (n : Z) : list Z := map Z.of_nat (seq 1 (Z.to_nat n)).

Definition weeksOf (startingDayOfWeek daysInMonth : Z) : list (list Cell) :=
  let '(weeks, week) :=
    fillWeeks (daysUpTo daysInMonth) [] (repeat None (Z.to_nat startingDayOfWeek)) in
  if Nat.ltb 0 (List.length week)
  then weeks ++ [week ++ repeat None (7 - List.length week)]
  else weeks.

Definition weeks (h : Host) (viewMonth : TimeValue) : list (list Cell) :=
  weeksOf (startingDayOfWeek h viewMonth) (daysInMonth h viewMonth).

(** What a cell looks up: [day ? new Date(year, month, day)
    .toISOString().split('T')[0] : null], then [entryMap.get(dateStr)]. *)
Definition dateStr (h : Host) (viewMonth : TimeValue) (day : Cell) : option string :=
  match day with
  | Some d =>
      if d =? 0 then None
      else Some (DateObject.isoDate
                   (DateObject.newDate h (year h viewMonth) (month h viewMonth) d))
  | None => None
  end.

Definition entry (h : Host) (viewMonth : TimeValue)
           (entries : list Store.EggProduction) (day : Cell)
  : option Store.EggProduction :=
  match dateStr h viewMonth day with
  | Some key => JS.get (entryMap entries) key
  | None => None
  end.

(** The month name of the navigation bar. *)
Definition monthName (month : Z) : string :=
  if month =? 0 then "January" else if month =? 1 then "February"
  else if month =? 2 then "March" else if month =? 3 then "April"
  else if month =? 4 then "May" else if month =? 5 then "June"
  else if month =? 6 then "July" else if month =? 7 then "August"
  else if month =? 8 then "September" else if month =? 9 then "October"
  else if month =? 10 then "November" else "December".

End Calendar.

(* ================================================================== *)
(** * The page component (EggProductionClient)                         *)
(* ================================================================== *)

Module EggProductionClient.
Import JSDate.

(** How a query string value written into the URL as it stands reaches
    [searchParams.get]: a '+' is read as a space (the date keys hold no
    other character that the decoding touches). *)
Fixpoint searchParam (s : string) : string :=
  match s with
  | EmptyString => EmptyString
  | String c rest =>
      String (if Ascii.eqb c "+"%char then " "%char else c) (searchParam rest)
  end.

(** The two bounds [fetchEntries] asks for. *)
Definition startDate (browser : Host) (date : TimeValue) : string :=
  DateObject.isoDate (Calendar.firstDay browser date).

Definition endDate (browser : Host) (date : TimeValue) : string :=
  DateObject.isoDate (Calendar.lastDay browser date).

(** [fetchEntries(date)]: the entries it stores, or the error it sets.
    The dates of the answer travel as ISO strings and are read back with
    [new Date], which returns the instant that was written. *)
Definition fetchEntries (browser server : Host) (session : Api.Session)
           (date : TimeValue) (db : Store.Db)
  : string + list Store.EggProduction :=
  let response :=
    Api.GET_list server session
                 (Some (searchParam (startDate browser date)))
                 (Some (searchParam (endDate browser date))) db in
  if Dialog.ok response then
    match Api.body response with
    | Api.JEntries data => inr data
    | _ => inl "data.map is not a function"
    end
  else inl "Failed to fetch entries".

(** [handleDayClick(date)]: the entry the dialog is opened to edit, if
    any. *)
Definition handleDayClick (entries : list Store.EggProduction) (date : TimeValue)
  : option Store.EggProduction :=
  find (fun e => String.eqb (DateObject.isoDate (Store.date e))
                            (DateObject.isoDate date))
       entries.

End EggProductionClient.

(* ================================================================== *)
(** * components/monthly-aggregate-table.tsx: the empty state          *)
(* ================================================================== *)

Module MonthlyAggregateTable.

(** [!monthlyData || monthlyData.length === 0] *)
Definition showsEmptyState (monthlyData : option (list Api.MonthlyData)) : bool :=
  match monthlyData with
  | None => true
  | Some l => Nat.eqb (List.length l) 0
  end.

End MonthlyAggregateTable.

(* ================================================================== *)
(** * Notions used to state the properties of the client components    *)
(* ================================================================== *)

Module View.
Import JSDate.

(** The day number of the calendar date the cell of day [d] stands for. *)
Definition cellDay (h : Host) (viewMonth : TimeValue) (d : Z) : Z :=
  MakeDay (Calendar.year h viewMonth) (Calendar.month h viewMonth) d.

(** A browser east of UTC reads a local midnight as an instant of the
    previous UTC day. *)
Definition eastShift (h : Host) : Z := if 0 <? LocalTZA h then 1 else 0.

(** The stored (date-only) value a day cell looks up. *)
Definition storedDateOfCell (h : Host) (viewMonth : TimeValue) (d : Z) : TimeValue :=
  MakeDate (cellDay h viewMonth d - eastShift h) 0.

(** The first [n] natural numbers as integers. *)
Definition below (n : nat) : list Z := map Z.of_nat (seq 0 n).

(** A string holds no 'T'. *)
Fixpoint noT (s : string) : bool :=
  match s with
  | EmptyString => true
  | String c rest => negb (Ascii.eqb c "T") && noT rest
  end.

(** A padded number is [n] characters long, holds no 'T', and reads back
    as the number. *)
Definition padReadsBack (n : nat) (z : Z) : bool :=
  Nat.eqb (String.length (DateObject.pad n z)) n
  && noT (DateObject.pad n z)
  && match Sample.digitsValue (list_ascii_of_string (DateObject.pad n z)) 0 with
     | Some v => v =? z
     | None => false
     end.

End View.

Module Sample2.
Import JSDate.

(** A browser two hours east of UTC. *)
Definition eastHost : Host :=
  {| LocalTZA := 7200000; Date_parse := Sample.isoDateOnly |}.

Definition twoDigitsAt (s : string) (pos : nat) : option Z :=
  Sample.digitsValue (list_ascii_of_string (substring pos 2 s)) 0.

(** A reading of the full ISO form "YYYY-MM-DDTHH:mm:ss.sssZ", and of the
    date-only form. *)
Definition isoDateTime (s : string) : option TimeValue :=
  if Nat.eqb (String.length s) 24
     && String.eqb (substring 10 1 s) "T" && String.eqb (substring 13 1 s) ":"
     && String.eqb (substring 16 1 s) ":" && String.eqb (substring 19 1 s) "."
     && String.eqb (substring 23 1 s) "Z"
  then
    match Sample.isoDateOnly (substring 0 10 s), twoDigitsAt s 11, twoDigitsAt s 14,
          twoDigitsAt s 17,
          Sample.digitsValue (list_ascii_of_string (substring 20 3 s)) 0 with
    | Some day, Some hh, Some mm, Some ss, Some ms =>
        if (hh <? 24) && (mm <? 60) && (ss <? 60)
        then Some (day + hh * 3600000 + mm * 60000 + ss * 1000 + ms)
        else None
    | _, _, _, _, _ => None
    end
  else Sample.isoDateOnly s.

(** A server in UTC that reads both forms. *)
Definition isoHost : Host :=
  {| LocalTZA := 0; Date_parse := isoDateTime |}.

End Sample2.

(* ================================================================== *)
(** * POST /api/chickens/[id]/mark-deceased                            *)
(* ================================================================== *)

Module MarkDeceased.
Import JSDate.

(** What the route selects of the chicken it looks up. *)
Record Selected := {
  id : string;
  userId : string;
  birthDate : option TimeValue;
  name : string
}.

(** The value of [body.deathDate] in a parsed JSON body.  A number is
    carried by the value of the double it parses to, an array or an
    object by the string it converts to. *)
Inductive JsonValue :=
| JAbsent
| JNull
| JBool (b : bool)
| JNumber (q : Q)
| JString (s : string)
| JCompound (asString : string).

Inductive RequestBody :=
| BodyThrows
| Body (deathDate : JsonValue).

(** [!value] is false. *)
Definition truthy (v : JsonValue) : bool :=
  match v with
  | JAbsent | JNull => false
  | JBool b => b
  | JNumber q => negb (Qeq_bool q 0)
  | JString s => negb (String.eqb s "")
  | JCompound _ => true
  end.

(** TimeClip of a finite number: an Invalid Date beyond 8.64e15 ms on
    either side, otherwise the number without its fraction. *)
Definition TimeClip (q : Q) : option TimeValue :=
  if Qle_bool (inject_Z (-8640000000000000)) q
     && Qle_bool q (inject_Z 8640000000000000)
  then Some (Z.quot (Qnum q) (Zpos (Qden q)))
  else None.

(** [new Date(value)]; [None] is an Invalid Date. *)
Definition newDate (h : Host) (v : JsonValue) : option TimeValue :=
  match v with
  | JString s => Date_parse h s
  | JCompound s => Date_parse h s
  | JNumber q => TimeClip q
  | JBool true => Some 1
  | JBool false => Some 0
  | JNull => Some 0
  | JAbsent => None
  end.

(** What the handler does: it answers, or it calls
    [prisma.chicken.update({ where: { id }, data: { deathDate } })] and
    answers 200 with the updated row (500 should the update throw). *)
Inductive Step :=
| Respond (r : Api.Response)
| Update (deathDate : TimeValue).

Definition bad (error : string) (status : Z) : Step :=
  Respond (Api.json (Api.JError error None) status).

(** [chicken] is the result of the lookup by id, [now] the [new Date()]
    taken when the future check runs. *)
Definition POST (h : Host) (now : TimeValue) (session : Api.Session)
           (chicken : option Selected) (request : RequestBody) : Step :=
  match Api.sessionUserId session with
  | None => Respond Api.unauthorized
  | Some uid =>
      match chicken with
      | None => bad "Chicken not found." 404
      | Some chicken =>
          if negb (String.eqb (userId chicken) uid)
          then bad "Forbidden. You can only mark your own chickens as deceased." 403
          else
            match request with
            | BodyThrows =>
                bad "Failed to mark chicken as deceased. Please try again." 500
            | Body deathDateStr =>
                if negb (truthy deathDateStr) then bad "Death date is required." 400
                else
                  match newDate h deathDateStr with
                  | None => bad "Invalid death date format." 400
                  | Some deathDate =>
                      if now <? deathDate
                      then bad "Death date cannot be in the future." 400
                      else
                        match birthDate chicken with
                        | Some birth =>
                            if deathDate <? birth
                            then bad "Death date must be after birth date." 400
                            else Update deathDate
                        | None => Update deathDate
                        end
                  end
            end
      end
  end.

End MarkDeceased.
(* ================================================================== *)
(** * Lemmas: calendar arithmetic                                      *)
(* ================================================================== *)

Import JSDate.

Ltac zdiv := Z.to_euclidean_division_equations; lia.

Lemma DayFromYear_succ (y : Z) :
  DayFromYear (y + 1) = DayFromYear y + DaysInYear y.
Proof.
  unfold DayFromYear, DaysInYear, InLeapYear.
  destruct (y mod 4 =? 0) eqn:E4; destruct (y mod 100 =? 0) eqn:E100;
    destruct (y mod 400 =? 0) eqn:E400; cbn [andb orb negb];
    rewrite ?Z.eqb_eq, ?Z.eqb_neq in *; zdiv.
Qed.

Lemma DaysInYear_cases (y : Z) : DaysInYear y = 365 \/ DaysInYear y = 366.
Proof. unfold DaysInYear; destruct (InLeapYear y); auto. Qed.

Lemma DayFromYear_mono (y1 y2 : Z) :
  y1 <= y2 -> DayFromYear y1 <= DayFromYear y2.
Proof. unfold DayFromYear; intros; zdiv. Qed.

Lemma DayFromYear_lt (y1 y2 : Z) :
  y1 < y2 -> DayFromYear y1 < DayFromYear y2.
Proof.
  intros H.
  assert (H1 : DayFromYear (y1 + 1) <= DayFromYear y2)
    by (apply DayFromYear_mono; lia).
  rewrite DayFromYear_succ in H1.
  destruct (DaysInYear_cases y1); lia.
Qed.

Lemma YearFromDay_spec (d : Z) :
  DayFromYear (YearFromDay d) <= d < DayFromYear (YearFromDay d + 1).
Proof.
  unfold YearFromDay.
  set (y0 := 1970 + 400 * d / 146097).
  assert (H0 : DayFromYear (y0 - 1) <= d < DayFromYear (y0 + 2))
    by (unfold DayFromYear, y0; zdiv).
  destruct (DayFromYear (y0 + 1) <=? d) eqn:E1.
  - apply Z.leb_le in E1. replace (y0 + 1 + 1) with (y0 + 2) by lia. lia.
  - apply Z.leb_gt in E1. destruct (d <? DayFromYear y0) eqn:E2.
    + apply Z.ltb_lt in E2. replace (y0 - 1 + 1) with y0 by lia. lia.
    + apply Z.ltb_ge in E2. lia.
Qed.

(** The year of a day is determined by the interval of first days it
    falls in. *)
Lemma YearFromDay_unique (d y : Z) :
  DayFromYear y <= d < DayFromYear (y + 1) -> YearFromDay d = y.
Proof.
  intros H. pose proof (YearFromDay_spec d) as S.
  destruct (Z.lt_trichotomy (YearFromDay d) y) as [L | [E | G]]; auto.
  - assert (DayFromYear (YearFromDay d + 1) <= DayFromYear y)
      by (apply DayFromYear_mono; lia). lia.
  - assert (DayFromYear (y + 1) <= DayFromYear (YearFromDay d))
      by (apply DayFromYear_mono; lia). lia.
Qed.

Lemma YearFromDay_mono (d1 d2 : Z) :
  d1 <= d2 -> YearFromDay d1 <= YearFromDay d2.
Proof.
  intros H. pose proof (YearFromDay_spec d1). pose proof (YearFromDay_spec d2).
  destruct (Z_le_gt_dec (YearFromDay d1) (YearFromDay d2)); auto.
  assert (DayFromYear (YearFromDay d2 + 1) <= DayFromYear (YearFromDay d1))
    by (apply DayFromYear_mono; lia). lia.
Qed.

Lemma Day_MakeDate (day time : Z) :
  0 <= time < msPerDay -> Day (MakeDate day time) = day.
Proof.
  intros H. unfold Day, MakeDate, msPerDay in *. zdiv.
Qed.

Lemma TimeWithinDay_MakeDate (day time : Z) :
  0 <= time < msPerDay -> TimeWithinDay (MakeDate day time) = time.
Proof.
  intros H. unfold TimeWithinDay, MakeDate, msPerDay in *. zdiv.
Qed.

Lemma TimeWithinDay_range (t : Z) : 0 <= TimeWithinDay t < msPerDay.
Proof. unfold TimeWithinDay, msPerDay. zdiv. Qed.

Lemma Day_mono (t1 t2 : Z) : t1 <= t2 -> Day t1 <= Day t2.
Proof. unfold Day, msPerDay. intros. zdiv. Qed.

Lemma monthStart_total (leap : bool) :
  monthStart leap 12 = if leap then 366 else 365.
Proof. destruct leap; reflexivity. Qed.

Lemma DayWithinYear_range (t : Z) :
  0 <= DayWithinYear t < DaysInYear (YearFromTime t).
Proof.
  unfold DayWithinYear, YearFromTime.
  pose proof (YearFromDay_spec (Day t)) as S.
  rewrite DayFromYear_succ in S. lia.
Qed.

Lemma monthOfDayInYear_range (leap : bool) (dwy : Z) :
  0 <= monthOfDayInYear leap dwy <= 11.
Proof.
  unfold monthOfDayInYear.
  repeat match goal with |- context [if ?c then _ else _] => destruct c end; lia.
Qed.

Lemma MonthFromTime_range (t : Z) : 0 <= MonthFromTime t <= 11.
Proof. apply monthOfDayInYear_range. Qed.

(** Within a year, the month found for day [monthStart m + k] is [m]
    whenever [k] is a day of that month. *)
Lemma monthOfDayInYear_monthStart (leap : bool) (m k : Z) :
  0 <= m <= 11 -> 0 <= k < daysInMonth leap m ->
  monthOfDayInYear leap (monthStart leap m + k) = m.
Proof.
  intros Hm Hk.
  assert (Hcases : m = 0 \/ m = 1 \/ m = 2 \/ m = 3 \/ m = 4 \/ m = 5 \/ m = 6
                   \/ m = 7 \/ m = 8 \/ m = 9 \/ m = 10 \/ m = 11) by lia.
  unfold daysInMonth in Hk.
  destruct leap;
    repeat (destruct Hcases as [-> | Hcases]); try subst m;
    cbn in Hk; unfold monthOfDayInYear; cbn [monthStart];
    repeat match goal with
           | |- context [?a <? ?b] =>
               let E := fresh "E" in
               destruct (Z.ltb_spec a b) as [E | E]; try lia
           end; reflexivity.
Qed.

Lemma monthOfDayInYear_mono (leap : bool) (a b : Z) :
  a <= b -> monthOfDayInYear leap a <= monthOfDayInYear leap b.
Proof.
  intros H. unfold monthOfDayInYear.
  destruct leap; cbn [monthStart];
    repeat match goal with
           | |- context [?a <? ?b] =>
               let E := fresh "E" in
               destruct (Z.ltb_spec a b) as [E | E]; try lia
           end.
Qed.

Lemma monthStart_bounds (leap : bool) (m : Z) :
  0 <= m <= 11 ->
  0 <= monthStart leap m /\ 28 <= daysInMonth leap m /\
  monthStart leap m + daysInMonth leap m <= (if leap then 366 else 365).
Proof.
  intros Hm.
  assert (Hcases : m = 0 \/ m = 1 \/ m = 2 \/ m = 3 \/ m = 4 \/ m = 5 \/ m = 6
                   \/ m = 7 \/ m = 8 \/ m = 9 \/ m = 10 \/ m = 11) by lia.
  unfold daysInMonth.
  destruct leap; repeat (destruct Hcases as [-> | Hcases]); try subst m;
    cbn; lia.
Qed.

Lemma monthOfDayInYear_bounds (leap : bool) (dwy : Z) :
  0 <= dwy < (if leap then 366 else 365) ->
  monthStart leap (monthOfDayInYear leap dwy) <= dwy
  < monthStart leap (monthOfDayInYear leap dwy + 1).
Proof.
  intros H. unfold monthOfDayInYear.
  destruct leap; cbn [monthStart] in *;
    repeat match goal with
           | |- context [?a <? ?b] =>
               let E := fresh "E" in
               destruct (Z.ltb_spec a b) as [E | E]; [cbn; lia | ]
           end; cbn; lia.
Qed.

Lemma DateFromTime_range (t : Z) :
  1 <= DateFromTime t
  <= daysInMonth (InLeapYear (YearFromTime t)) (MonthFromTime t).
Proof.
  unfold DateFromTime, MonthFromTime, daysInMonth.
  pose proof (DayWithinYear_range t) as R. unfold DaysInYear in R.
  pose proof (monthOfDayInYear_bounds (InLeapYear (YearFromTime t))
                (DayWithinYear t) R).
  lia.
Qed.

(** Reading back the calendar date from which a time value was made. *)
Lemma civil_of_MakeDate (y m d tod : Z) :
  0 <= m <= 11 -> 1 <= d <= daysInMonth (InLeapYear y) m ->
  0 <= tod < msPerDay ->
  let t := MakeDate (DayFromYear y + monthStart (InLeapYear y) m + d - 1) tod in
  YearFromTime t = y /\ MonthFromTime t = m /\ DateFromTime t = d
  /\ TimeWithinDay t = tod.
Proof.
  intros Hm Hd Htod t.
  pose proof (monthStart_bounds (InLeapYear y) m Hm) as (B0 & B1 & B2).
  assert (HY : YearFromTime t = y).
  { unfold YearFromTime, t. rewrite Day_MakeDate by assumption.
    apply YearFromDay_unique. rewrite DayFromYear_succ. unfold DaysInYear.
    destruct (InLeapYear y); lia. }
  assert (HW : DayWithinYear t = monthStart (InLeapYear y) m + (d - 1)).
  { unfold DayWithinYear. rewrite HY. unfold t.
    rewrite Day_MakeDate by assumption. lia. }
  assert (HM : MonthFromTime t = m).
  { unfold MonthFromTime. rewrite HY, HW.
    apply monthOfDayInYear_monthStart; lia. }
  repeat split; auto.
  - unfold DateFromTime. rewrite HM, HY, HW. lia.
  - unfold t. apply TimeWithinDay_MakeDate; assumption.
Qed.

Lemma MakeDay_normal (y m d : Z) :
  0 <= m <= 11 ->
  MakeDay y m d = DayFromYear y + monthStart (InLeapYear y) m + d - 1.
Proof.
  intros Hm. unfold MakeDay.
  replace (m / 12) with 0 by zdiv.
  replace (m mod 12) with m by zdiv.
  replace (y + 0) with y by lia. reflexivity.
Qed.

Lemma LocalTime_UTC (h : Host) (t : Z) : LocalTime h (UTC h t) = t.
Proof. unfold LocalTime, UTC. lia. Qed.


Lemma monthIndex_mono (h : Host) (t1 t2 : TimeValue) :
  t1 <= t2 -> Spec.monthIndex h t1 <= Spec.monthIndex h t2.
Proof.
  intros H. unfold Spec.monthIndex, getFullYear, getMonth.
  set (a := LocalTime h t1). set (b := LocalTime h t2).
  assert (Hab : Day a <= Day b) by (apply Day_mono; unfold a, b, LocalTime; lia).
  pose proof (YearFromDay_mono _ _ Hab) as HY.
  pose proof (MonthFromTime_range a). pose proof (MonthFromTime_range b).
  unfold YearFromTime.
  destruct (Z.eq_dec (YearFromDay (Day a)) (YearFromDay (Day b))) as [E | N];
    [ | lia ].
  assert (MonthFromTime a <= MonthFromTime b); [ | lia ].
  unfold MonthFromTime, DayWithinYear, YearFromTime. rewrite E.
  apply monthOfDayInYear_mono. lia.
Qed.











(* ================================================================== *)
(** * Lemmas: Map, sort                                                *)
(* ================================================================== *)

Section MapFacts.
Context {V : Type}.
Implicit Types (m : JS.Map V) (k : string) (v : V).

Lemma has_get m k :
  JS.has m k = match JS.get m k with Some _ => true | None => false end.
Proof.
  induction m as [ | [k' v'] m IH]; cbn; [reflexivity | ].
  destruct (String.eqb k' k); auto.
Qed.

Lemma get_set_same m k v : JS.get (JS.set m k v) k = Some v.
Proof.
  induction m as [ | [k' v'] m IH]; cbn.
  - rewrite String.eqb_refl. reflexivity.
  - destruct (String.eqb k' k) eqn:E; cbn; rewrite E; auto.
Qed.

Lemma get_set_other m k k' v :
  k' <> k -> JS.get (JS.set m k v) k' = JS.get m k'.
Proof.
  intros N. induction m as [ | [k0 v0] m IH]; cbn.
  - apply String.eqb_neq in N. rewrite String.eqb_sym, N. reflexivity.
  - destruct (String.eqb k0 k) eqn:E; cbn.
    + apply String.eqb_eq in E. subst k0.
      assert (String.eqb k k' = false) as ->
          by (apply String.eqb_neq; congruence).
      reflexivity.
    + destruct (String.eqb k0 k'); auto.
Qed.

Lemma keys_set m k v :
  map fst (JS.set m k v)
  = if JS.has m k then map fst m else map fst m ++ [k].
Proof.
  induction m as [ | [k' v'] m IH]; cbn; [reflexivity | ].
  destruct (String.eqb k' k) eqn:E; cbn; [reflexivity | ].
  rewrite IH. destruct (JS.has m k); reflexivity.
Qed.

Lemma has_In m k : JS.has m k = true <-> In k (map fst m).
Proof.
  induction m as [ | [k' v'] m IH]; cbn; [intuition discriminate | ].
  destruct (String.eqb_spec k' k); [intuition | ].
  rewrite IH. intuition.
Qed.

Lemma NoDup_keys_set m k v :
  NoDup (map fst m) -> NoDup (map fst (JS.set m k v)).
Proof.
  intros H. rewrite keys_set. destruct (JS.has m k) eqn:E; auto.
  apply NoDup_app; auto.
  - constructor; [intros [] | constructor].
  - intros x Hx [<- | []]. apply has_In in Hx. congruence.
Qed.

Lemma In_get m k v :
  NoDup (map fst m) -> (In (k, v) m <-> JS.get m k = Some v).
Proof.
  induction m as [ | [k' v'] m IH]; cbn; intros ND.
  - intuition discriminate.
  - inversion ND as [ | ? ? Hnin ND']; subst.
    destruct (String.eqb_spec k' k) as [-> | N].
    + split.
      * intros [E | I]; [congruence | ].
        exfalso. apply Hnin. apply (in_map fst) in I. exact I.
      * intros E. left. congruence.
    + rewrite <- (IH ND'). split; [ | auto].
      intros [E | I]; [congruence | auto].
Qed.
End MapFacts.

Section SortFacts.
Context {A : Type} (cmp : A -> A -> comparison).

Lemma insertSorted_perm (x : A) (l : list A) :
  Permutation (JS.insertSorted cmp x l) (x :: l).
Proof.
  induction l as [ | y l IH]; cbn; [reflexivity | ].
  destruct (cmp x y); try reflexivity.
  rewrite IH. apply perm_swap.
Qed.

Lemma sort_perm (l : list A) : Permutation (JS.sort cmp l) l.
Proof.
  induction l as [ | x l IH]; cbn; [reflexivity | ].
  rewrite insertSorted_perm. constructor. exact IH.
Qed.

Hypothesis cmp_total : forall a b, cmp a b = Gt -> cmp b a <> Gt.
Hypothesis cmp_trans : forall a b c, JS.notAfter cmp a b -> JS.notAfter cmp b c -> JS.notAfter cmp a c.

Lemma insertSorted_sorted (x : A) (l : list A) :
  StronglySorted (JS.notAfter cmp) l ->
  StronglySorted (JS.notAfter cmp) (JS.insertSorted cmp x l).
Proof.
  induction 1 as [ | y l S IH F]; cbn.
  - repeat constructor.
  - destruct (cmp x y) eqn:E.
    + constructor; [constructor; auto | ].
      assert (Hxy : JS.notAfter cmp x y) by (unfold JS.notAfter; congruence).
      constructor; auto.
      eapply Forall_impl; [ | exact F]. intros z Hz. eapply cmp_trans; eauto.
    + constructor; [constructor; auto | ].
      assert (Hxy : JS.notAfter cmp x y) by (unfold JS.notAfter; congruence).
      constructor; auto.
      eapply Forall_impl; [ | exact F]. intros z Hz. eapply cmp_trans; eauto.
    + constructor; auto.
      eapply Permutation_Forall.
      * symmetry. apply insertSorted_perm.
      * constructor; auto. apply cmp_total. exact E.
Qed.

Lemma sort_sorted (l : list A) : StronglySorted (JS.notAfter cmp) (JS.sort cmp l).
Proof.
  induction l as [ | x l IH]; cbn; [constructor | ].
  apply insertSorted_sorted. exact IH.
Qed.
End SortFacts.

Lemma string_compare_trans_notGt (a b c : string) :
  String.compare a b <> Gt -> String.compare b c <> Gt ->
  String.compare a c <> Gt.
Proof.
  intros H1 H2.
  destruct (String.compare a b) eqn:E1; try congruence.
  - apply String.compare_eq_iff in E1. subst. exact H2.
  - destruct (String.compare b c) eqn:E2; try congruence.
    + apply String.compare_eq_iff in E2. subst. congruence.
    + assert (L : String.compare a c = Lt).
      { apply String_as_OT.cmp_lt.
        eapply String_as_OT.lt_trans; apply String_as_OT.cmp_lt; eassumption. }
      congruence.
Qed.

Lemma string_compare_refl (a : string) : String.compare a a = Eq.
Proof.
  induction a as [ | c a IH]; cbn; [reflexivity | ].
  assert (Ascii.compare c c = Eq) as ->; [ | exact IH].
  unfold Ascii.compare. apply N.compare_refl.
Qed.

Lemma mostRecentFirst_total (a b : Api.MonthlyData) :
  Api.mostRecentFirst a b = Gt -> Api.mostRecentFirst b a <> Gt.
Proof.
  unfold Api.mostRecentFirst, JS.localeCompare. intros H.
  rewrite String.compare_antisym, H. discriminate.
Qed.

Lemma mostRecentFirst_trans (a b c : Api.MonthlyData) :
  JS.notAfter Api.mostRecentFirst a b -> JS.notAfter Api.mostRecentFirst b c ->
  JS.notAfter Api.mostRecentFirst a c.
Proof.
  unfold JS.notAfter, Api.mostRecentFirst, JS.localeCompare. intros H1 H2.
  eapply string_compare_trans_notGt; eassumption.
Qed.

(** A list sorted by [mostRecentFirst] whose month keys are pairwise
    distinct is strictly descending. *)
Lemma sorted_distinct_strict (l : list Api.MonthlyData) :
  StronglySorted (JS.notAfter Api.mostRecentFirst) l ->
  NoDup (map Api.month l) ->
  StronglySorted (fun a b => String.compare (Api.month b) (Api.month a) = Lt) l.
Proof.
  induction 1 as [ | x l S IH F]; cbn; intros ND; constructor.
  - apply IH. inversion ND; assumption.
  - inversion ND as [ | ? ? Hnin _]; subst.
    rewrite Forall_forall in *. intros y Hy.
    specialize (F y Hy). unfold JS.notAfter, Api.mostRecentFirst, JS.localeCompare in F.
    destruct (String.compare (Api.month y) (Api.month x)) eqn:E; try congruence.
    apply String.compare_eq_iff in E. exfalso. apply Hnin.
    rewrite <- E. apply in_map. exact Hy.
Qed.

(* ================================================================== *)
(** * Lemmas: Number addition                                          *)
(* ================================================================== *)

(** An integer of magnitude up to 2^53 is a Number. *)
Lemma roundToNumber_exact (z : Z) :
  Z.abs z <= 2 ^ 53 -> JS.roundToNumber z = z.
Proof.
  intros B. unfold JS.roundToNumber.
  destruct (Z.leb_spec (Z.log2 (Z.abs z) - 52) 0) as [L | G]; [reflexivity | ].
  assert (P : 0 < Z.abs z).
  { destruct (Z.eq_dec (Z.abs z) 0) as [E | N]; [ | lia].
    rewrite E in G. cbn in G. lia. }
  assert (E : 2 ^ 53 <= Z.abs z) by (apply Z.log2_le_pow2; lia).
  assert (C : z = 2 ^ 53 \/ z = - 2 ^ 53) by lia.
  destruct C as [-> | ->]; vm_compute; reflexivity.
Qed.

Lemma add_exact (a b : Z) :
  0 <= a -> 0 <= b -> a + b <= 2 ^ 53 -> JS.add a b = a + b.
Proof. intros A B S. unfold JS.add. apply roundToNumber_exact. lia. Qed.

(** [reduce] with Number addition over non-negative integers that add up
    to at most 2^53 is the sum of the integers. *)
Lemma reduce_add_exact {A : Type} (f : A -> Z) (l : list A) (a : Z) :
  0 <= a -> Forall (fun x => 0 <= f x) l ->
  a + fold_right Z.add 0 (map f l) <= 2 ^ 53 ->
  fold_left (fun sum m => JS.add sum (f m)) l a
  = a + fold_right Z.add 0 (map f l).
Proof.
  revert a. induction l as [ | x l IH]; intros a Ha F B; cbn in *; [lia | ].
  inversion F as [ | ? ? Fx Fl]; subst.
  assert (N : 0 <= fold_right Z.add 0 (map f l)).
  { clear - Fl. induction Fl as [ | y l Fy _ IH]; cbn; lia. }
  rewrite add_exact by lia. rewrite IH by (auto; lia). lia.
Qed.

Lemma sum_perm (l1 l2 : list Z) :
  Permutation l1 l2 -> fold_right Z.add 0 l1 = fold_right Z.add 0 l2.
Proof. induction 1; cbn; lia. Qed.

(* ================================================================== *)
(** * Lemmas: the grouping loop                                        *)
(* ================================================================== *)

Lemma groupEntry_get (h : Host) (m : JS.Map Api.MonthData)
      (e : TimeValue * Z) (k : string) :
  JS.get (Api.groupEntry h m e) k
  = if String.eqb (Api.monthKey h (fst e)) k
    then Some {| Api.mTotalCount := JS.add (Spec.totalOf (JS.get m k)) (snd e);
                 Api.mDaysRecorded := JS.add (Spec.daysOf (JS.get m k)) 1 |}
    else JS.get m k.
Proof.
  unfold Api.groupEntry.
  set (key := Api.monthKey h (fst e)).
  rewrite has_get.
  destruct (String.eqb_spec key k) as [<- | N].
  - destruct (JS.get m key) as [md | ] eqn:G; cbn [negb].
    + rewrite G, get_set_same. reflexivity.
    + rewrite !get_set_same. reflexivity.
  - destruct (JS.get m key) as [md | ] eqn:G; cbn [negb].
    + rewrite G, get_set_other by congruence. reflexivity.
    + rewrite get_set_same, !get_set_other by congruence. reflexivity.
Qed.

Lemma groupEntry_NoDup (h : Host) (m : JS.Map Api.MonthData) (e : TimeValue * Z) :
  NoDup (map fst m) -> NoDup (map fst (Api.groupEntry h m e)).
Proof.
  intros ND. unfold Api.groupEntry.
  set (key := Api.monthKey h (fst e)).
  destruct (negb (JS.has m key)).
  - destruct (JS.get _ key); repeat apply NoDup_keys_set; auto.
  - destruct (JS.get _ key); repeat apply NoDup_keys_set; auto.
Qed.

Lemma fold_groupEntry_NoDup (h : Host) (es : list (TimeValue * Z))
      (m : JS.Map Api.MonthData) :
  NoDup (map fst m) -> NoDup (map fst (fold_left (Api.groupEntry h) es m)).
Proof.
  revert m. induction es as [ | e es IH]; cbn; intros m ND; auto.
  apply IH, groupEntry_NoDup, ND.
Qed.

Lemma sumCounts_cons (e : TimeValue * Z) (es : list (TimeValue * Z)) :
  Spec.sumCounts (e :: es) = snd e + Spec.sumCounts es.
Proof. reflexivity. Qed.

Lemma sumCounts_nonneg (es : list (TimeValue * Z)) :
  Forall (fun e => 0 <= snd e) es -> 0 <= Spec.sumCounts es.
Proof.
  induction 1 as [ | e es E _ IH]; [cbn; lia | rewrite sumCounts_cons; lia].
Qed.

Lemma keyedAs_cons (h : Host) (k : string) (e : TimeValue * Z)
      (es : list (TimeValue * Z)) :
  Spec.keyedAs h k (e :: es)
  = if String.eqb (Api.monthKey h (fst e)) k
    then e :: Spec.keyedAs h k es else Spec.keyedAs h k es.
Proof. reflexivity. Qed.

(** A key is in the map after the loop exactly when it was there before
    or an entry was filed under it. *)
Lemma fold_groupEntry_none (h : Host) (es : list (TimeValue * Z))
      (m : JS.Map Api.MonthData) (k : string) :
  JS.get (fold_left (Api.groupEntry h) es m) k = None
  <-> JS.get m k = None /\ Spec.keyedAs h k es = [].
Proof.
  revert m. induction es as [ | e es IH]; intros m; cbn [fold_left].
  - cbn. tauto.
  - rewrite IH, groupEntry_get, keyedAs_cons.
    destruct (String.eqb (Api.monthKey h (fst e)) k).
    + split; [intros [G _]; discriminate | intros [_ G]; discriminate].
    + tauto.
Qed.

Lemma mapTotal_set (m : JS.Map Api.MonthData) (k : string) (v : Api.MonthData) :
  Spec.mapTotal (JS.set m k v)
  = Spec.mapTotal m - Spec.totalOf (JS.get m k) + Api.mTotalCount v
  /\ Spec.mapDays (JS.set m k v)
     = Spec.mapDays m - Spec.daysOf (JS.get m k) + Api.mDaysRecorded v.
Proof.
  induction m as [ | [k' v'] m IH]; cbn.
  - lia.
  - destruct IH as [T D].
    destruct (String.eqb k' k); cbn; [lia | ].
    unfold Spec.mapTotal, Spec.mapDays in T, D. lia.
Qed.

(** What the map holds under one key is part of what it holds in all,
    when nothing in it is negative. *)
Lemma totalOf_le_mapTotal (m : JS.Map Api.MonthData) (k : string) :
  Forall (fun kv => 0 <= Api.mTotalCount (snd kv)
                    /\ 0 <= Api.mDaysRecorded (snd kv)) m ->
  0 <= Spec.totalOf (JS.get m k) <= Spec.mapTotal m
  /\ 0 <= Spec.daysOf (JS.get m k) <= Spec.mapDays m.
Proof.
  induction 1 as [ | [k' v'] m [T D] _ IH]; cbn in *; [lia | ].
  destruct (String.eqb k' k); cbn.
  - assert (0 <= Spec.totalOf (JS.get m k) /\ 0 <= Spec.daysOf (JS.get m k)) by lia.
    unfold Spec.mapTotal, Spec.mapDays in IH. lia.
  - unfold Spec.mapTotal, Spec.mapDays in IH. lia.
Qed.

Lemma Forall_values_set (Q : Api.MonthData -> Prop) (m : JS.Map Api.MonthData)
      (k : string) (v : Api.MonthData) :
  Forall (fun kv => Q (snd kv)) m -> Q v ->
  Forall (fun kv => Q (snd kv)) (JS.set m k v).
Proof.
  intros F V. induction F as [ | [k' v'] m Hx Fm IH]; cbn.
  - constructor; [exact V | constructor].
  - destruct (String.eqb k' k); constructor; cbn; auto.
Qed.

(** One turn of the loop while the sums stay within 2^53: the additions
    are those of the integers. *)
Lemma groupEntry_exact (h : Host) (m : JS.Map Api.MonthData) (e : TimeValue * Z) :
  Forall (fun kv => 0 <= Api.mTotalCount (snd kv)
                    /\ 0 <= Api.mDaysRecorded (snd kv)) m ->
  0 <= snd e ->
  Spec.mapTotal m + snd e <= 2 ^ 53 -> Spec.mapDays m + 1 <= 2 ^ 53 ->
  (forall k,
     JS.get (Api.groupEntry h m e) k
     = if String.eqb (Api.monthKey h (fst e)) k
       then Some {| Api.mTotalCount := Spec.totalOf (JS.get m k) + snd e;
                    Api.mDaysRecorded := Spec.daysOf (JS.get m k) + 1 |}
       else JS.get m k)
  /\ Spec.mapTotal (Api.groupEntry h m e) = Spec.mapTotal m + snd e
  /\ Spec.mapDays (Api.groupEntry h m e) = Spec.mapDays m + 1
  /\ Forall (fun kv => 0 <= Api.mTotalCount (snd kv)
                       /\ 0 <= Api.mDaysRecorded (snd kv))
            (Api.groupEntry h m e).
Proof.
  intros NN E BT BD.
  assert (X : forall k,
             JS.add (Spec.totalOf (JS.get m k)) (snd e)
             = Spec.totalOf (JS.get m k) + snd e
             /\ JS.add (Spec.daysOf (JS.get m k)) 1 = Spec.daysOf (JS.get m k) + 1).
  { intros k. pose proof (totalOf_le_mapTotal m k NN) as [T D].
    split; apply add_exact; lia. }
  split.
  { intros k. rewrite groupEntry_get.
    destruct (String.eqb (Api.monthKey h (fst e)) k); [ | reflexivity].
    destruct (X k) as [-> ->]. reflexivity. }
  unfold Api.groupEntry. set (key := Api.monthKey h (fst e)).
  pose proof (totalOf_le_mapTotal m key NN) as [T D].
  destruct (X key) as [XT XD].
  rewrite has_get.
  destruct (JS.get m key) as [md | ] eqn:G; cbn [negb].
  - rewrite G. cbn [Spec.totalOf Spec.daysOf] in XT, XD, T, D. rewrite XT, XD.
    destruct (mapTotal_set m key
                {| Api.mTotalCount := Api.mTotalCount md + snd e;
                   Api.mDaysRecorded := Api.mDaysRecorded md + 1 |}) as [T' D'].
    rewrite T', D', G. cbn. split; [lia | split; [lia | ] ].
    apply (Forall_values_set
             (fun v => 0 <= Api.mTotalCount v /\ 0 <= Api.mDaysRecorded v));
      [exact NN | cbn; lia].
  - rewrite get_set_same.
    set (zero := {| Api.mTotalCount := 0; Api.mDaysRecorded := 0 |}).
    cbn [Spec.totalOf Spec.daysOf] in XT, XD. cbn [Api.mTotalCount Api.mDaysRecorded zero].
    rewrite XT, XD.
    destruct (mapTotal_set (JS.set m key zero) key
                {| Api.mTotalCount := 0 + snd e;
                   Api.mDaysRecorded := 0 + 1 |}) as [T' D'].
    destruct (mapTotal_set m key zero) as [T0 D0].
    rewrite T', D', T0, D0, get_set_same, G. cbn. split; [lia | split; [lia | ] ].
    apply (Forall_values_set
             (fun v => 0 <= Api.mTotalCount v /\ 0 <= Api.mDaysRecorded v));
      [ | cbn; lia].
    apply (Forall_values_set
             (fun v => 0 <= Api.mTotalCount v /\ 0 <= Api.mDaysRecorded v));
      [exact NN | cbn; lia].
Qed.

(** The loop while the sums stay within 2^53: under every key the map
    holds the sum and the number of the entries filed under it, and in
    all the sum and the number of all entries. *)
Lemma fold_groupEntry_exact (h : Host) (es : list (TimeValue * Z))
      (m : JS.Map Api.MonthData) :
  Forall (fun kv => 0 <= Api.mTotalCount (snd kv)
                    /\ 0 <= Api.mDaysRecorded (snd kv)) m ->
  Forall (fun e => 0 <= snd e) es ->
  Spec.mapTotal m + Spec.sumCounts es <= 2 ^ 53 ->
  Spec.mapDays m + Z.of_nat (List.length es) <= 2 ^ 53 ->
  let final := fold_left (Api.groupEntry h) es m in
  (forall k,
     Spec.totalOf (JS.get final k)
     = Spec.totalOf (JS.get m k) + Spec.sumCounts (Spec.keyedAs h k es)
     /\ Spec.daysOf (JS.get final k)
        = Spec.daysOf (JS.get m k)
          + Z.of_nat (List.length (Spec.keyedAs h k es)))
  /\ Spec.mapTotal final = Spec.mapTotal m + Spec.sumCounts es
  /\ Spec.mapDays final = Spec.mapDays m + Z.of_nat (List.length es)
  /\ Forall (fun kv => 0 <= Api.mTotalCount (snd kv)
                       /\ 0 <= Api.mDaysRecorded (snd kv)) final.
Proof.
  revert m. induction es as [ | e es IH]; intros m NN F BT BD; cbn [fold_left].
  - cbn. split; [intros k; lia | split; [lia | split; [lia | exact NN] ] ].
  - inversion F as [ | ? ? Fe Fes]; subst.
    pose proof (sumCounts_nonneg es Fes) as SN.
    rewrite sumCounts_cons in BT. cbn [List.length] in BD.
    rewrite Nat2Z.inj_succ in BD.
    destruct (groupEntry_exact h m e NN Fe ltac:(lia) ltac:(lia))
      as (G1 & T1 & D1 & NN1).
    destruct (IH (Api.groupEntry h m e) NN1 Fes ltac:(lia) ltac:(lia))
      as (IHk & IHT & IHD & IHN).
    split; [ | split; [ | split ] ].
    + intros k. destruct (IHk k) as [A B]. rewrite G1 in A, B.
      rewrite keyedAs_cons.
      destruct (String.eqb (Api.monthKey h (fst e)) k).
      * cbn [Spec.totalOf Spec.daysOf Api.mTotalCount Api.mDaysRecorded] in A, B.
        rewrite sumCounts_cons. cbn [List.length]. rewrite Nat2Z.inj_succ. lia.
      * lia.
    + rewrite sumCounts_cons. lia.
    + cbn [List.length]. rewrite Nat2Z.inj_succ. lia.
    + exact IHN.
Qed.

Lemma months_of_rows (m : JS.Map Api.MonthData) :
  map Api.month (map Api.toMonthlyData m) = map fst m.
Proof. rewrite map_map. reflexivity. Qed.

Lemma keyedAs_nonempty (h : Host) (k : string) (es : list (TimeValue * Z)) :
  Spec.keyedAs h k es <> [] <-> exists e, In e es /\ Api.monthKey h (fst e) = k.
Proof.
  unfold Spec.keyedAs. split.
  - destruct (filter _ es) as [ | e l] eqn:F; [congruence | ]. intros _.
    assert (I : In e (filter (fun e => String.eqb (Api.monthKey h (fst e)) k) es))
      by (rewrite F; left; reflexivity).
    apply filter_In in I. destruct I as [I E]. apply String.eqb_eq in E. eauto.
  - intros (e & I & E) F.
    assert (I' : In e (filter (fun e => String.eqb (Api.monthKey h (fst e)) k) es))
      by (apply filter_In; split; [exact I | apply String.eqb_eq; exact E]).
    rewrite F in I'. exact I'.
Qed.

(** The rows of the result are the entries of the final map. *)
Lemma aggregate_row (h : Host) (es : list (TimeValue * Z)) (row : Api.MonthlyData) :
  In row (Api.aggregate h es) <->
  exists md, JS.get (fold_left (Api.groupEntry h) es []) (Api.month row) = Some md
             /\ Api.totalCount row = Api.mTotalCount md
             /\ Api.daysRecorded row = Api.mDaysRecorded md.
Proof.
  unfold Api.aggregate.
  set (final := fold_left (Api.groupEntry h) es []).
  assert (ND : NoDup (map fst final))
    by (apply fold_groupEntry_NoDup; constructor).
  split.
  - intros I.
    apply (Permutation_in _ (sort_perm Api.mostRecentFirst _)) in I.
    apply in_map_iff in I. destruct I as ([k md] & <- & I).
    exists md. cbn. repeat split. apply In_get; assumption.
  - intros (md & G & T & D).
    apply (Permutation_in _ (Permutation_sym (sort_perm Api.mostRecentFirst _))).
    apply in_map_iff. exists (Api.month row, md). split.
    + destruct row; cbn in *. subst. reflexivity.
    + apply In_get; assumption.
Qed.

(** For a concrete midnight-UTC date and a realistic zone offset, the
    local day is that day or the day before. *)
Lemma local_day_of_midnight (h : Host) (D : Z) :
  Spec.realisticZone h ->
  Day (LocalTime h (MakeDate D 0)) = D - 1 \/ Day (LocalTime h (MakeDate D 0)) = D.
Proof.
  unfold Spec.realisticZone, Day, LocalTime, MakeDate, msPerDay. intros R. zdiv.
Qed.

Lemma monthKey_by_day (h : Host) (t : TimeValue) (D : Z) (key : string) :
  Day (LocalTime h t) = D ->
  (let y := YearFromDay D in
   let m := monthOfDayInYear (InLeapYear y) (D - DayFromYear y) in
   (JS.numberToString y ++ "-"
      ++ JS.padStart (JS.numberToString (m + 1)) 2 "0"%char)%string) = key ->
  Api.monthKey h t = key.
Proof.
  intros HD HK. unfold Api.monthKey, getFullYear, getMonth, MonthFromTime,
    DayWithinYear, YearFromTime. rewrite HD. exact HK.
Qed.

Lemma monthKey_midnight (h : Host) (y m d : Z) (key : string) :
  Spec.realisticZone h ->
  (let D := MakeDay y (m - 1) d in
   forall D', D' = D - 1 \/ D' = D ->
   (let y := YearFromDay D' in
    let m := monthOfDayInYear (InLeapYear y) (D' - DayFromYear y) in
    (JS.numberToString y ++ "-"
       ++ JS.padStart (JS.numberToString (m + 1)) 2 "0"%char)%string) = key) ->
  Api.monthKey h (utcMidnight y m d) = key.
Proof.
  intros R HK. unfold utcMidnight.
  destruct (local_day_of_midnight h (MakeDay y (m - 1) d) R) as [E | E];
    (eapply monthKey_by_day; [exact E | apply HK; auto]).
Qed.

(** The key the route computes is the two-digit month key of the
    calendar date that the Date shows in the server's local time. *)
Lemma monthKey_calendar (h : Host) (t : TimeValue) :
  Api.monthKey h t = Spec.calendarMonthKey (LocalTime h t).
Proof.
  unfold Api.monthKey, Spec.calendarMonthKey, getFullYear.
  pose proof (MonthFromTime_range (LocalTime h t)) as R.
  unfold getMonth. remember (MonthFromTime (LocalTime h t)) as m eqn:E. clear E.
  assert (Hcases : m = 0 \/ m = 1 \/ m = 2 \/ m = 3 \/ m = 4 \/ m = 5 \/ m = 6
                   \/ m = 7 \/ m = 8 \/ m = 9 \/ m = 10 \/ m = 11) by lia.
  repeat (destruct Hcases as [-> | Hcases]); try subst m; reflexivity.
Qed.

Lemma calendarMonthKey_by_day (t1 t2 : TimeValue) :
  Day t1 = Day t2 -> Spec.calendarMonthKey t1 = Spec.calendarMonthKey t2.
Proof.
  intros E. unfold Spec.calendarMonthKey, MonthFromTime, DayWithinYear,
    YearFromTime. rewrite E. reflexivity.
Qed.

(** On a server at or east of UTC the key of a stored date is the key
    of its calendar month. *)
Lemma monthKey_of_stored_date (h : Host) (d : TimeValue) :
  Spec.atOrEastOfUTC h -> d = Store.dateOnly d ->
  Api.monthKey h d = Spec.calendarMonthKey d.
Proof.
  intros R S. rewrite monthKey_calendar. apply calendarMonthKey_by_day.
  rewrite S. unfold Spec.atOrEastOfUTC, Store.dateOnly, Day, LocalTime, msPerDay in *.
  zdiv.
Qed.

Lemma keyedAs_ofMonth (h : Host) (k : string) (es : list (TimeValue * Z)) :
  Spec.atOrEastOfUTC h -> Spec.datesOnly es ->
  Spec.keyedAs h k es = Spec.ofMonth k es.
Proof.
  intros R D. unfold Spec.keyedAs, Spec.ofMonth. apply filter_ext_in.
  intros e I. unfold Spec.datesOnly in D. rewrite Forall_forall in D.
  rewrite (monthKey_of_stored_date h (fst e) R (D e I)). reflexivity.
Qed.

(* ================================================================== *)
(** * Lemmas: the store queries                                        *)
(* ================================================================== *)

Lemma fetchSince_perm (db : Store.Db) (uid : string) (windowStart : TimeValue) :
  Permutation
    (Api.fetchSince db uid windowStart)
    (map (fun r => (Store.date r, Store.count r))
         (filter (fun r => String.eqb (Store.userId r) uid
                           && (windowStart <=? Store.date r))
                 (Store.rows db))).
Proof.
  unfold Api.fetchSince, Store.findMany. apply Permutation_map.
  rewrite sort_perm.
  erewrite filter_ext; [reflexivity | ].
  intros r. unfold Store.matches. cbn. rewrite andb_true_r. reflexivity.
Qed.

Lemma fetchSince_In (db : Store.Db) (uid : string) (windowStart d c : Z) :
  In (d, c) (Api.fetchSince db uid windowStart) <->
  exists r, In r (Store.rows db) /\ Store.userId r = uid
            /\ windowStart <= Store.date r
            /\ Store.date r = d /\ Store.count r = c.
Proof.
  split.
  - intros I. apply (Permutation_in _ (fetchSince_perm db uid windowStart)) in I.
    apply in_map_iff in I. destruct I as (r & E & I).
    apply filter_In in I. destruct I as (I & B).
    apply andb_true_iff in B. destruct B as (B1 & B2).
    apply String.eqb_eq in B1. apply Z.leb_le in B2.
    inversion E; subst. exists r. auto.
  - intros (r & I & U & W & <- & <-).
    apply (Permutation_in _ (Permutation_sym (fetchSince_perm db uid windowStart))).
    apply in_map_iff. exists r. split; [reflexivity | ].
    apply filter_In. split; [exact I | ].
    apply andb_true_iff. split; [apply String.eqb_eq; exact U | apply Z.leb_le; exact W].
Qed.

(** The day of the bound: whatever is fetched is dated on that day or
    later, and every record of the owner dated after that day is
    fetched. *)
Lemma fetchSince_from_day (db : Store.Db) (uid : string) (windowStart d c : Z) :
  In (d, c) (Api.fetchSince db uid windowStart) -> Day windowStart <= Day d.
Proof.
  intros I. apply fetchSince_In in I. destruct I as (r & _ & _ & W & <- & _).
  apply Day_mono. exact W.
Qed.

Lemma fetchSince_after_day (db : Store.Db) (uid : string) (windowStart : Z)
      (r : Store.EggProduction) :
  In r (Store.rows db) -> Store.userId r = uid ->
  Day windowStart < Day (Store.date r) ->
  In (Store.date r, Store.count r) (Api.fetchSince db uid windowStart).
Proof.
  intros I U G. apply fetchSince_In. exists r. repeat split; auto.
  unfold Day, msPerDay in G. zdiv.
Qed.

(* ================================================================== *)
(** * Lemmas: numbers and the schema                                   *)
(* ================================================================== *)

Lemma isInteger_spec (q : Q) : JS.isInteger q = true <-> Spec.isMathInteger q.
Proof.
  unfold JS.isInteger, Spec.isMathInteger, Qeq. cbn [Qnum Qden inject_Z].
  rewrite Z.eqb_eq. split.
  - intros H. exists (Qnum q / Zpos (Qden q)).
    pose proof (Z_div_mod_eq_full (Qnum q) (Zpos (Qden q))). lia.
  - intros (z & E). rewrite Z.mul_1_r in E. rewrite E. apply Z_mod_mult.
Qed.

Lemma ltZ_spec (q : Q) (z : Z) : JS.ltZ q z = true <-> (q < inject_Z z)%Q.
Proof.
  unfold JS.ltZ, Qlt. cbn [Qnum Qden inject_Z]. rewrite Z.ltb_lt. lia.
Qed.

Lemma gtZ_spec (q : Q) (z : Z) : JS.gtZ q z = true <-> (inject_Z z < q)%Q.
Proof.
  unfold JS.gtZ, Qlt. cbn [Qnum Qden inject_Z]. rewrite Z.ltb_lt. lia.
Qed.

Lemma ltZ_zero (q : Q) : JS.ltZ q 0 = true <-> (q < 0)%Q.
Proof. apply (ltZ_spec q 0). Qed.

Lemma isSafeInteger_spec (q : Q) :
  JS.isSafeInteger q = true <->
  exists z, (q == inject_Z z)%Q /\ - (2 ^ 53 - 1) <= z <= 2 ^ 53 - 1.
Proof.
  unfold JS.isSafeInteger. rewrite !andb_true_iff, !negb_true_iff.
  rewrite isInteger_spec. unfold Spec.isMathInteger.
  unfold JS.ltZ, JS.gtZ, JS.MIN_SAFE_INTEGER, JS.MAX_SAFE_INTEGER, Qeq.
  cbn [Qnum Qden inject_Z]. rewrite !Z.ltb_ge.
  change (2 ^ 53 - 1) with 9007199254740991.
  split.
  - intros [[(z & E) L] G]. exists z. split; [exact E | ]. nia.
  - intros (z & E & R). split; [split | ]; [exists z; exact E | nia | nia].
Qed.

Lemma isSafeInteger_ofZ (z : Z) :
  - (2 ^ 53 - 1) <= z <= 2 ^ 53 - 1 -> JS.isSafeInteger (inject_Z z) = true.
Proof.
  intros R. apply isSafeInteger_spec. exists z. split; [reflexivity | exact R].
Qed.

Lemma safe_is_integer (q : Q) : JS.isSafeInteger q = true -> JS.isInteger q = true.
Proof.
  unfold JS.isSafeInteger. rewrite !andb_true_iff. tauto.
Qed.

(** The count field of the schema, on a finite number. *)
Lemma parseNumber_count (loadedAt : TimeValue) (q : Q) :
  Zod.parseNumber (Zod.countField (Validations.eggProductionSchema loadedAt))
                  (JS.VNumber (JS.Finite q))
  = match Spec.countIssues q with
    | [] => inr q
    | l => inl l
    end.
Proof.
  unfold Spec.countIssues. cbn.
  unfold Zod.numberFormatSafeint, Zod.gte.
  destruct (JS.isInteger q) eqn:I; cbn [negb]; [ | reflexivity].
  destruct (JS.isSafeInteger q) eqn:S; cbn [negb].
  - unfold JS.isSafeInteger in S. rewrite I in S. cbn [andb] in S.
    apply andb_true_iff in S. destruct S as [S1 S2].
    apply negb_true_iff in S1, S2. rewrite S1, S2. cbn.
    destruct (JS.ltZ q 0); reflexivity.
  - destruct (JS.gtZ q 0); cbn; destruct (JS.ltZ q 0); reflexivity.
Qed.

(** The date field of the schema, on a valid Date. *)
Lemma parseDate_date (loadedAt t : TimeValue) :
  Zod.parseDate (Zod.dateField (Validations.eggProductionSchema loadedAt))
                (JS.VDate (Some t))
  = match Spec.dateIssues loadedAt t with
    | [] => inr t
    | l => inl l
    end.
Proof.
  unfold Spec.dateIssues. cbn. unfold Zod.lte.
  destruct (t <=? loadedAt); reflexivity.
Qed.

(** The whole schema on a valid Date and a finite number. *)
Lemma safeParse_typed (loadedAt t : TimeValue) (q : Q) :
  Zod.safeParse (Validations.eggProductionSchema loadedAt)
                (JS.VDate (Some t)) (JS.VNumber (JS.Finite q))
  = match Zod.prefixIssues "date" (Spec.dateIssues loadedAt t)
          ++ Zod.prefixIssues "count" (Spec.countIssues q) with
    | [] => Zod.Success {| Zod.pdate := t; Zod.pcount := q |}
    | l => Zod.Failure l
    end.
Proof.
  unfold Zod.safeParse. rewrite parseNumber_count, parseDate_date.
  destruct (Spec.dateIssues loadedAt t) as [ | i l] eqn:D;
    destruct (Spec.countIssues q) as [ | j k] eqn:C; reflexivity.
Qed.

Lemma issues_typed (loadedAt t : TimeValue) (q : Q) :
  Zod.issues (serverValidate loadedAt (JS.VDate (Some t)) (JS.VNumber (JS.Finite q)))
  = Zod.prefixIssues "date" (Spec.dateIssues loadedAt t)
    ++ Zod.prefixIssues "count" (Spec.countIssues q).
Proof.
  unfold serverValidate. rewrite safeParse_typed.
  destruct (_ ++ _); reflexivity.
Qed.

Lemma In_prefixIssues (key : string) (l : list Zod.issue) (i : Zod.issue) :
  In i (Zod.prefixIssues key l) <->
  exists j, In j l /\ i = {| Zod.code := Zod.code j; Zod.path := key :: Zod.path j;
                             Zod.message := Zod.message j |}.
Proof.
  unfold Zod.prefixIssues. rewrite in_map_iff. split.
  - intros (j & E & I). exists j. auto.
  - intros (j & I & E). exists j. auto.
Qed.

(** Which count issues there are, by message. *)
Lemma countIssues_notInteger (q : Q) :
  (exists j, In j (Spec.countIssues q)
             /\ Zod.message j = Validations.msgCountNotInteger)
  <-> JS.isSafeInteger q = false.
Proof.
  unfold Spec.countIssues.
  destruct (JS.isInteger q) eqn:I; cbn [negb].
  - destruct (JS.isSafeInteger q) eqn:S; cbn [negb app].
    + split; [ | discriminate]. intros (j & Hj & M).
      destruct (JS.ltZ q 0); [ | destruct Hj].
      destruct Hj as [<- | []]. discriminate M.
    + split; [reflexivity | ]. intros _. eexists. split; [left; reflexivity | reflexivity].
  - assert (S : JS.isSafeInteger q = false)
      by (unfold JS.isSafeInteger; rewrite I; reflexivity).
    rewrite S. split; [reflexivity | ]. intros _.
    eexists. split; [left; reflexivity | reflexivity].
Qed.

Lemma countIssues_negative (q : Q) :
  (exists j, In j (Spec.countIssues q)
             /\ Zod.message j = Validations.msgCountNegative)
  <-> JS.isInteger q = true /\ JS.ltZ q 0 = true.
Proof.
  unfold Spec.countIssues.
  destruct (JS.isInteger q) eqn:I; cbn [negb].
  - destruct (JS.ltZ q 0) eqn:L.
    + split; [auto | ]. intros _. eexists. split.
      * apply in_or_app. right. left. reflexivity.
      * reflexivity.
    + split; [ | intros [_ F]; discriminate F]. intros (j & Hj & M).
      rewrite app_nil_r in Hj.
      destruct (negb (JS.isSafeInteger q)); [ | destruct Hj].
      destruct Hj as [<- | []]. discriminate M.
  - split; [ | intros [F _]; discriminate F]. intros (j & Hj & M).
    destruct Hj as [<- | []]. discriminate M.
Qed.

Lemma countIssues_paths (q : Q) (j : Zod.issue) :
  In j (Spec.countIssues q) -> Zod.path j = [].
Proof.
  unfold Spec.countIssues.
  destruct (negb (JS.isInteger q)).
  - intros [<- | []]. reflexivity.
  - intros I. apply in_app_or in I. destruct I as [I | I].
    + destruct (negb (JS.isSafeInteger q)); [ | destruct I].
      destruct I as [<- | []]. reflexivity.
    + destruct (JS.ltZ q 0); [ | destruct I].
      destruct I as [<- | []]. reflexivity.
Qed.

Lemma dateIssues_spec (bound t : TimeValue) (i : Zod.issue) :
  In i (Zod.prefixIssues "date" (Spec.dateIssues bound t)) <->
  bound < t /\ i = Validations.DateInFuture.
Proof.
  unfold Spec.dateIssues. destruct (Z.leb_spec t bound) as [L | L]; cbn.
  - split; [intros [] | lia].
  - split.
    + intros [<- | []]. split; [lia | reflexivity].
    + intros [_ ->]. left. reflexivity.
Qed.

(* ================================================================== *)
(** * Lemmas: the store and the routes                                 *)
(* ================================================================== *)

Lemma hasRecord_existsb (db : Store.Db) (u : string) (d : TimeValue) :
  existsb (Store.sameKey u (Store.dateOnly d)) (Store.rows db) = true
  <-> Spec.hasRecord db u d.
Proof.
  unfold Spec.hasRecord, Store.sameKey. rewrite existsb_exists. split.
  - intros (r & I & B). apply andb_true_iff in B. destruct B as [B1 B2].
    apply String.eqb_eq in B1. apply Z.eqb_eq in B2. eauto.
  - intros (r & I & U & D). exists r. split; [exact I | ].
    apply andb_true_iff. split; [apply String.eqb_eq | apply Z.eqb_eq]; assumption.
Qed.

Lemma isUniqueViolation_unique :
  Api.isUniqueViolation Store.uniqueConstraintMessage = true.
Proof. vm_compute. reflexivity. Qed.

Lemma create_duplicate (db : Store.Db) (now : TimeValue) (u : string)
      (d : TimeValue) (c : Z) :
  Spec.hasRecord db u d ->
  Store.create db now u d c = inl Store.uniqueConstraintMessage.
Proof.
  intros H. apply hasRecord_existsb in H. unfold Store.create. rewrite H.
  reflexivity.
Qed.

Lemma create_fresh (db : Store.Db) (now : TimeValue) (u : string)
      (d : TimeValue) (c : Z) :
  ~ Spec.hasRecord db u d ->
  Store.create db now u d c
  = inr ({| Store.id := Store.nextId db; Store.userId := u;
            Store.date := Store.dateOnly d; Store.count := c;
            Store.createdAt := now; Store.updatedAt := now |},
         {| Store.rows :=
              Store.rows db
              ++ [ {| Store.id := Store.nextId db; Store.userId := u;
                      Store.date := Store.dateOnly d; Store.count := c;
                      Store.createdAt := now; Store.updatedAt := now |} ];
            Store.nextId := S (Store.nextId db) |}).
Proof.
  intros H. unfold Store.create.
  destruct (existsb _ (Store.rows db)) eqn:E; [ | reflexivity].
  exfalso. apply H. apply hasRecord_existsb. exact E.
Qed.

(** The route for a typed body: a date string the host can read or not,
    and a finite count. *)
Lemma POST_typed (h : Host) (loadedAt now : TimeValue) (session : Api.Session)
      (uid s : string) (t : TimeValue) (q : Q) (db : Store.Db) :
  Api.sessionUserId session = Some uid -> Date_parse h s = Some t ->
  Api.POST h loadedAt now session
           (Api.BodyFields (JS.VString s) (JS.VNumber (JS.Finite q))) db
  = match serverValidate loadedAt (JS.VDate (Some t)) (JS.VNumber (JS.Finite q)) with
    | Zod.Failure issues => (Api.validationFailed issues, db)
    | Zod.Success v =>
        match Store.create db now uid (Zod.pdate v) (JS.toInt (Zod.pcount v)) with
        | inl msg => (Api.POST_catch (Api.Error msg), db)
        | inr (entry, db') => (Api.json (Api.JEntry entry) 201, db')
        end
    end.
Proof.
  intros A P. unfold Api.POST. rewrite A. cbn [Api.parseBodyDate]. rewrite P.
  unfold Api.schemaParse, serverValidate.
  destruct (Zod.safeParse _ _ _); reflexivity.
Qed.

Lemma formatZodError_field (i : Zod.issue) :
  Api.field (Api.formatZodError i) = JS.join "." (Zod.path i).
Proof.
  unfold Api.formatZodError.
  destruct (JS.get Api.messageMap _) as [fm | ]; [ | reflexivity].
  destruct (JS.get fm _); reflexivity.
Qed.

Lemma toInt_inject_Z (z : Z) : JS.toInt (inject_Z z) = z.
Proof. unfold JS.toInt. apply Qfloor_Z. Qed.

Lemma findMany_In (db : Store.Db) (w : Store.Where) (o : Store.Order)
      (r : Store.EggProduction) :
  In r (Store.findMany db w o) <-> In r (Store.rows db) /\ Store.matches w r = true.
Proof.
  unfold Store.findMany. rewrite <- filter_In. split; intros I.
  - eapply Permutation_in; [apply sort_perm | exact I].
  - eapply Permutation_in; [apply Permutation_sym, sort_perm | exact I].
Qed.

Lemma find_id_map (f : Store.EggProduction -> Store.EggProduction)
      (l : list Store.EggProduction) (j : Store.Id) :
  (forall r, Store.id (f r) = Store.id r) ->
  find (fun r => Nat.eqb (Store.id r) j) (map f l)
  = option_map f (find (fun r => Nat.eqb (Store.id r) j) l).
Proof.
  intros Hid. induction l as [ | r l IH]; cbn; [reflexivity | ].
  rewrite Hid. destruct (Nat.eqb (Store.id r) j); [reflexivity | exact IH].
Qed.

Lemma findUnique_id (db : Store.Db) (i : Store.Id) (r : Store.EggProduction) :
  Store.findUnique db i = Some r -> Store.id r = i /\ In r (Store.rows db).
Proof.
  unfold Store.findUnique. intros F. apply find_some in F.
  destruct F as [I E]. apply Nat.eqb_eq in E. auto.
Qed.

(** The collision test of [update], as a proposition. *)
Lemma update_collision_spec (db : Store.Db) (i : Store.Id) (u : string) (d : TimeValue) :
  existsb (fun r' => negb (Nat.eqb (Store.id r') i) && Store.sameKey u d r')
          (Store.rows db) = true
  <-> exists r', In r' (Store.rows db) /\ Store.id r' <> i
                 /\ Store.userId r' = u /\ Store.date r' = d.
Proof.
  rewrite existsb_exists. unfold Store.sameKey. split.
  - intros (r' & I & B). apply andb_true_iff in B. destruct B as [B1 B2].
    apply negb_true_iff, Nat.eqb_neq in B1.
    apply andb_true_iff in B2. destruct B2 as [B2 B3].
    apply String.eqb_eq in B2. apply Z.eqb_eq in B3. eauto 6.
  - intros (r' & I & N & U & D). exists r'. split; [exact I | ].
    apply andb_true_iff. split.
    + apply negb_true_iff, Nat.eqb_neq. exact N.
    + apply andb_true_iff. split; [apply String.eqb_eq | apply Z.eqb_eq]; assumption.
Qed.

Lemma PUT_owner (h : Host) (loadedAt now : TimeValue) (session : Api.Session)
      (uid : string) (i : Store.Id) (bdate bcount : JS.value) (db : Store.Db)
      (r : Store.EggProduction) :
  Api.sessionUserId session = Some uid ->
  Store.findUnique db i = Some r -> Store.userId r = uid ->
  Api.PUT h loadedAt now session i (Api.BodyFields bdate bcount) db
  = match serverValidate loadedAt (Api.parseBodyDate h bdate) bcount with
    | Zod.Failure issues => (Api.validationFailed issues, db)
    | Zod.Success v =>
        match Store.update db now i (Zod.pdate v) (JS.toInt (Zod.pcount v)) with
        | inl msg => (Api.PUT_catch (Api.Error msg), db)
        | inr (updatedEntry, db') => (Api.json (Api.JEntry updatedEntry) 200, db')
        end
    end.
Proof.
  intros A F U. unfold Api.PUT. rewrite A, F, U, String.eqb_refl. cbn [negb].
  unfold Api.schemaParse, serverValidate.
  destruct (Zod.safeParse _ _ _); reflexivity.
Qed.

(** A count issue of the whole schema is a count issue of the count
    field, under the path 'count'. *)
Lemma count_issue_lift (loadedAt t : TimeValue) (q : Q) (msg : string) :
  (exists i, In i (Zod.issues (serverValidate loadedAt (JS.VDate (Some t))
                                              (JS.VNumber (JS.Finite q))))
             /\ Zod.path i = ["count"] /\ Zod.message i = msg)
  <-> (exists j, In j (Spec.countIssues q) /\ Zod.message j = msg).
Proof.
  rewrite issues_typed. split.
  - intros (i & I & P & M). apply in_app_or in I. destruct I as [I | I].
    + apply dateIssues_spec in I. destruct I as [_ ->]. discriminate P.
    + apply In_prefixIssues in I. destruct I as (j & I & ->). cbn in M. eauto.
  - intros (j & I & M).
    exists {| Zod.code := Zod.code j; Zod.path := "count" :: Zod.path j;
              Zod.message := Zod.message j |}.
    split.
    + apply in_or_app. right. apply In_prefixIssues. eauto.
    + split; cbn; [ | exact M]. rewrite (countIssues_paths q j I). reflexivity.
Qed.

Lemma notInteger_issue_iff (loadedAt t : TimeValue) (q : Q) :
  (exists i, In i (Zod.issues (serverValidate loadedAt (JS.VDate (Some t))
                                              (JS.VNumber (JS.Finite q))))
             /\ Validations.isCountNotInteger i)
  <-> JS.isSafeInteger q = false.
Proof.
  unfold Validations.isCountNotInteger.
  rewrite count_issue_lift. apply countIssues_notInteger.
Qed.

Lemma negative_issue_iff (loadedAt t : TimeValue) (q : Q) :
  (exists i, In i (Zod.issues (serverValidate loadedAt (JS.VDate (Some t))
                                              (JS.VNumber (JS.Finite q))))
             /\ Validations.isCountNegative i)
  <-> Spec.isMathInteger q /\ (q < 0)%Q.
Proof.
  unfold Validations.isCountNegative.
  rewrite count_issue_lift, countIssues_negative, isInteger_spec, ltZ_zero.
  reflexivity.
Qed.

Lemma notInteger_reported (loadedAt t : TimeValue) (q : Q) :
  ~ Spec.isMathInteger q ->
  exists i, In i (Zod.issues (serverValidate loadedAt (JS.VDate (Some t))
                                             (JS.VNumber (JS.Finite q))))
            /\ Validations.isCountNotInteger i.
Proof.
  intros N. apply notInteger_issue_iff.
  destruct (JS.isSafeInteger q) eqn:S; [ | reflexivity].
  exfalso. apply N. apply isInteger_spec, safe_is_integer, S.
Qed.

Lemma countIssues_nonnegative_safe (z : Z) :
  0 <= z <= 2 ^ 53 - 1 -> Spec.countIssues (inject_Z z) = [].
Proof.
  intros R.
  assert (S : JS.isSafeInteger (inject_Z z) = true)
    by (apply isSafeInteger_ofZ; lia).
  unfold Spec.countIssues. rewrite (safe_is_integer _ S), S. cbn [negb app].
  destruct (JS.ltZ (inject_Z z) 0) eqn:L; [ | reflexivity].
  apply ltZ_zero in L. unfold Qlt in L. cbn in L. lia.
Qed.

Lemma accepts_nonnegative_safe (loadedAt t : TimeValue) (z : Z) :
  0 <= z <= 2 ^ 53 - 1 -> t <= loadedAt ->
  serverValidate loadedAt (JS.VDate (Some t)) (JS.VNumber (JS.ofZ z))
  = Zod.Success {| Zod.pdate := t; Zod.pcount := inject_Z z |}.
Proof.
  intros R L. unfold serverValidate, JS.ofZ.
  rewrite safeParse_typed, (countIssues_nonnegative_safe z R).
  unfold Spec.dateIssues. apply Z.leb_le in L. rewrite L. reflexivity.
Qed.

(** ** What the schema accepts *)

Lemma safe_nonnegative_toInt (q : Q) :
  JS.isSafeInteger q = true -> JS.ltZ q 0 = false ->
  (q == inject_Z (JS.toInt q))%Q /\ 0 <= JS.toInt q <= JS.MAX_SAFE_INTEGER.
Proof.
  intros SAFE NN. apply isSafeInteger_spec in SAFE. destruct SAFE as (z & E & R).
  assert (T : JS.toInt q = z).
  { unfold JS.toInt. rewrite (Qfloor_comp _ _ E). apply Qfloor_Z. }
  rewrite T. split; [exact E|].
  unfold JS.MAX_SAFE_INTEGER. split; [|lia].
  destruct (Z_lt_le_dec z 0) as [NEG|]; [|assumption].
  assert (L : JS.ltZ q 0 = true).
  { apply ltZ_zero. rewrite E. change 0%Q with (inject_Z 0).
    rewrite <- Zlt_Qlt. exact NEG. }
  congruence.
Qed.

Lemma countIssues_nil (q : Q) :
  Spec.countIssues q = [] <-> JS.isSafeInteger q = true /\ JS.ltZ q 0 = false.
Proof.
  unfold Spec.countIssues. split.
  - destruct (JS.isInteger q) eqn:I; cbn [negb]; [|discriminate].
    destruct (JS.isSafeInteger q) eqn:S; cbn [negb]; [|discriminate].
    destruct (JS.ltZ q 0); [discriminate|auto].
  - intros [S L]. rewrite (safe_is_integer q S), S, L. reflexivity.
Qed.

Lemma dateIssues_nil (bound t : TimeValue) :
  Spec.dateIssues bound t = [] <-> t <= bound.
Proof.
  unfold Spec.dateIssues. destruct (Z.leb_spec t bound); split; intros; auto;
    try discriminate; lia.
Qed.





(* ================================================================== *)
(** * Theorems about the specification's claims                       *)
(* ================================================================== *)

(** C1 (as stated) fails in two ways.  The totals are sums of Numbers:
    for two records of October 2025 with the counts 2^53 - 1 and 2, which
    both pass validation, the row of October carries 9007199254740992 and
    not the sum of the counts, 9007199254740993.  And the month of a
    record is read on the server's clock: on a server five hours west of
    UTC the record dated 2025-10-01 is filed under "2025-09", so that
    September has three records with the total 19, and October one record
    with the total 9. *)
Lemma C1_rounded_total_and_shifted_month :
  (let entries := [ (utcMidnight 2025 10 5, 9007199254740991);
                    (utcMidnight 2025 10 15, 2) ] in
   Api.aggregate Sample.utcHost entries
   = [ {| Api.month := "2025-10"; Api.totalCount := 9007199254740992;
          Api.daysRecorded := 2 |} ]
   /\ Spec.sumCounts (Spec.ofMonth "2025-10" entries) = 9007199254740993)
  /\ (let entries := [ (utcMidnight 2025 9 10, 5); (utcMidnight 2025 9 20, 6);
                       (utcMidnight 2025 10 1, 8); (utcMidnight 2025 10 15, 9) ] in
      map (fun e => Spec.calendarMonthKey (fst e)) entries
      = [ "2025-09"; "2025-09"; "2025-10"; "2025-10" ]
      /\ Api.aggregate Sample.westHost entries
         = [ {| Api.month := "2025-10"; Api.totalCount := 9; Api.daysRecorded := 1 |};
             {| Api.month := "2025-09"; Api.totalCount := 19; Api.daysRecorded := 3 |} ]).
Proof. cbv zeta. repeat split; vm_compute; reflexivity. Qed.

(** C1 (amended).  On a server whose local time is at or east of UTC, for
    every list of fetched records (their dates being calendar dates, as
    the table holds them) whose counts are non-negative and add up, like
    the number of the records, to at most 2^53, the monthly aggregation
    groups the records by the key "YYYY-MM" of the calendar month of
    their date (two-digit month): the keys of the result are exactly the
    keys of the months in which a record is dated (so a month without
    records is absent) and each occurs once; the row of a key carries the
    sum of the counts of the records of that month as totalCount and
    their number as daysRecorded; the rows are sorted by month key,
    descending.  For the records 2025-09-10: 5, 2025-09-20: 6,
    2025-10-05: 8, 2025-10-15: 9 the result is exactly the rows
    ("2025-10", 17, 2) and ("2025-09", 11, 2), in that order, on a server
    of any zone offset from UTC-12 to UTC+14. *)
Theorem C1_monthly_aggregation_groups_by_month
        (h : Host) (entries : list (TimeValue * Z))
        (Hzone : Spec.atOrEastOfUTC h)
        (Hdates : Spec.datesOnly entries)
        (Hexact : Spec.sumsExact entries) :
  let result := Api.aggregate h entries in
  (forall key, In key (map Api.month result) <->
               exists e, In e entries /\ Spec.calendarMonthKey (fst e) = key)
  /\ NoDup (map Api.month result)
  /\ (forall row, In row result ->
        Api.totalCount row
        = Spec.sumCounts (Spec.ofMonth (Api.month row) entries)
        /\ Api.daysRecorded row
           = Z.of_nat (List.length (Spec.ofMonth (Api.month row) entries)))
  /\ StronglySorted
       (fun a b => String.compare (Api.month b) (Api.month a) = Lt) result
  /\ (forall server, Spec.realisticZone server ->
      Api.aggregate server
                    [ (utcMidnight 2025 9 10, 5); (utcMidnight 2025 9 20, 6);
                      (utcMidnight 2025 10 5, 8); (utcMidnight 2025 10 15, 9) ]
      = [ {| Api.month := "2025-10"; Api.totalCount := 17; Api.daysRecorded := 2 |};
          {| Api.month := "2025-09"; Api.totalCount := 11; Api.daysRecorded := 2 |} ]).
Proof.
  intros result.
  remember (fold_left (Api.groupEntry h) entries []) as final eqn:Efinal.
  assert (ND : NoDup (map fst final))
    by (rewrite Efinal; apply fold_groupEntry_NoDup; constructor).
  assert (P : Permutation (map Api.month result) (map fst final)).
  { unfold result, Api.aggregate. rewrite <- Efinal.
    rewrite <- months_of_rows. apply Permutation_map, sort_perm. }
  assert (KEY : forall e, In e entries ->
                          Api.monthKey h (fst e) = Spec.calendarMonthKey (fst e)).
  { intros e I. apply monthKey_of_stored_date; [exact Hzone | ].
    unfold Spec.datesOnly in Hdates. rewrite Forall_forall in Hdates. auto. }
  destruct Hexact as (NN & BS & BL).
  destruct (fold_groupEntry_exact h entries [] (Forall_nil _) NN BS BL)
    as (K & _ & _ & _).
  rewrite <- Efinal in K.
  split; [ | split; [ | split; [ | split ] ] ].
  - intros key.
    assert (X : In key (map fst final) <-> Spec.keyedAs h key entries <> []).
    { rewrite <- has_In, has_get.
      pose proof (fold_groupEntry_none h entries [] key) as N.
      rewrite <- Efinal in N. cbn [JS.get] in N.
      destruct (JS.get final key) as [md | ].
      - split; [ | reflexivity]. intros _ E.
        assert (Y : Some md = None) by (apply N; auto). discriminate.
      - split; [discriminate | ]. intros NE. exfalso. apply NE.
        apply N. reflexivity. }
    rewrite keyedAs_nonempty in X. split.
    + intros I. apply (Permutation_in _ P), X in I. destruct I as (e & I & E).
      exists e. split; [exact I | ]. rewrite <- (KEY e I). exact E.
    + intros (e & I & E). apply (Permutation_in _ (Permutation_sym P)), X.
      exists e. split; [exact I | ]. rewrite (KEY e I). exact E.
  - eapply Permutation_NoDup; [apply Permutation_sym, P | exact ND].
  - intros row I. apply aggregate_row in I. rewrite <- Efinal in I.
    destruct I as (md & G & T & D).
    destruct (K (Api.month row)) as [T' D'].
    rewrite G in T', D'. cbn [JS.get Spec.totalOf Spec.daysOf] in T', D'.
    rewrite (keyedAs_ofMonth h _ entries Hzone Hdates) in T', D'. lia.
  - apply sorted_distinct_strict.
    + apply sort_sorted; [apply mostRecentFirst_total | apply mostRecentFirst_trans].
    + eapply Permutation_NoDup; [apply Permutation_sym, P | exact ND].
  - intros server R.
    assert (K1 : Api.monthKey server (utcMidnight 2025 9 10) = "2025-09")
      by (apply monthKey_midnight; [exact R | intros D D' [-> | ->]; reflexivity]).
    assert (K2 : Api.monthKey server (utcMidnight 2025 9 20) = "2025-09")
      by (apply monthKey_midnight; [exact R | intros D D' [-> | ->]; reflexivity]).
    assert (K3 : Api.monthKey server (utcMidnight 2025 10 5) = "2025-10")
      by (apply monthKey_midnight; [exact R | intros D D' [-> | ->]; reflexivity]).
    assert (K4 : Api.monthKey server (utcMidnight 2025 10 15) = "2025-10")
      by (apply monthKey_midnight; [exact R | intros D D' [-> | ->]; reflexivity]).
    unfold Api.aggregate. cbn [fold_left]. unfold Api.groupEntry. cbn [fst snd].
    rewrite K1, K2, K3, K4. reflexivity.
Qed.

(** C1, witness: the four records of the scenario on a server two hours
    east of UTC. *)
Lemma C1_monthly_aggregation_witness :
  let entries := [ (utcMidnight 2025 9 10, 5); (utcMidnight 2025 9 20, 6);
                   (utcMidnight 2025 10 5, 8); (utcMidnight 2025 10 15, 9) ] in
  Spec.atOrEastOfUTC Sample2.eastHost
  /\ Spec.datesOnly entries
  /\ Spec.sumsExact entries
  /\ forall row, In row (Api.aggregate Sample2.eastHost entries) ->
       Api.totalCount row
       = Spec.sumCounts (Spec.ofMonth (Api.month row) entries)
       /\ Api.daysRecorded row
          = Z.of_nat (List.length (Spec.ofMonth (Api.month row) entries)).
Proof.
  cbv zeta.
  assert (Z : Spec.atOrEastOfUTC Sample2.eastHost)
    by (unfold Spec.atOrEastOfUTC; vm_compute; split; [discriminate | reflexivity]).
  assert (D : Spec.datesOnly
                [ (utcMidnight 2025 9 10, 5); (utcMidnight 2025 9 20, 6);
                  (utcMidnight 2025 10 5, 8); (utcMidnight 2025 10 15, 9) ])
    by (repeat constructor).
  assert (E : Spec.sumsExact
                [ (utcMidnight 2025 9 10, 5); (utcMidnight 2025 9 20, 6);
                  (utcMidnight 2025 10 5, 8); (utcMidnight 2025 10 15, 9) ]).
  { split; [repeat constructor; cbn; lia | ].
    split; vm_compute; discriminate. }
  split; [exact Z | split; [exact D | split; [exact E | ] ] ].
  exact (proj1 (proj2 (proj2
           (C1_monthly_aggregation_groups_by_month Sample2.eastHost _ Z D E)))).
Defined.

(** West of UTC the local day of a stored date is the day before, and a
    record dated on the first of a month is keyed under the previous
    month; the calendar view reads the same dates in UTC (through
    [toISOString]) and shows the record on its own day. *)
Remark monthKey_west_of_utc :
  Api.monthKey Sample.westHost (utcMidnight 2025 10 1) = "2025-09"
  /\ Spec.calendarMonthKey (utcMidnight 2025 10 1) = "2025-10"
  /\ DateObject.isoDate (utcMidnight 2025 10 1) = "2025-10-01".
Proof. repeat split; vm_compute; reflexivity. Qed.

(** The scenario of C1 through the route: on 2025-11-02 the owner's four
    records (and another owner's record, which is left out) give the two
    rows, October first. *)
Example monthly_route_scenario :
  let db :=
    {| Store.rows :=
         [ Sample.row 0 "user1" (utcMidnight 2025 10 15) 9;
           Sample.row 1 "user1" (utcMidnight 2025 9 10) 5;
           Sample.row 2 "user2" (utcMidnight 2025 10 1) 50;
           Sample.row 3 "user1" (utcMidnight 2025 10 5) 8;
           Sample.row 4 "user1" (utcMidnight 2025 9 20) 6 ];
       Store.nextId := 5%nat |} in
  Api.GET_monthly Sample.utcHost (utcInstant 2025 11 2 10 0) (Some "user1") db
  = Api.json
      (Api.JMonthly
         [ {| Api.month := "2025-10"; Api.totalCount := 17; Api.daysRecorded := 2 |};
           {| Api.month := "2025-09"; Api.totalCount := 11; Api.daysRecorded := 2 |} ])
      200.
Proof. vm_compute. reflexivity. Qed.




(** At a request on a midnight UTC the record dated on the window start
    is fetched. *)
Example boundary_record_at_midnight :
  In (utcMidnight 2025 5 1, 7)
     (Api.fetchSince Sample.firstOfMayDb "user1"
                     (Api.sixMonthsAgo Sample.utcHost (utcMidnight 2025 11 15))).
Proof. vm_compute. auto. Qed.

(** The day-of-month carry of [setMonth]: on 2025-08-31 the month six
    months back, February, has no 31st, the intermediate date runs over
    into March, and the window starts on 2025-03-01; the owner's record of
    2025-02-15 is not fetched. *)
Remark sixMonthsAgo_day_carry :
  let now := utcInstant 2025 8 31 12 0 in
  ~ Spec.dayExistsSixMonthsBack Sample.utcHost now
  /\ Api.sixMonthsAgo Sample.utcHost now = utcInstant 2025 3 1 12 0
  /\ ~ In (utcMidnight 2025 2 15, 4)
          (Api.fetchSince Sample.springDb "user1"
             (Api.sixMonthsAgo Sample.utcHost now)).
Proof.
  cbv zeta. split; [ | split].
  - vm_compute. intros H. apply H. reflexivity.
  - vm_compute. reflexivity.
  - vm_compute. intros F.
    repeat (destruct F as [F | F]; [discriminate F | ]); exact F.
Qed.

(** C3.  A create (by an authenticated owner, with input that passes
    validation) for an (ownerId, date) pair for which a record already
    exists fails with the domain error DuplicateDateEntry: status 400, the
    error "An entry already exists for this date" and a user-actionable
    message on the field 'date', not the storage's message; so the second
    of two creates for the same (ownerId, date) fails with it; two creates
    with the same date but different owners, neither of whom has a record
    for that date, both succeed. *)
Theorem C3_duplicate_date_entry
        (h : Host) (loadedAt now1 now2 : TimeValue)
        (session1 session2 : Api.Session) (u1 u2 s1 s2 : string)
        (t1 t2 : TimeValue) (q1 q2 : Q) (db : Store.Db)
        (Hu1 : Api.sessionUserId session1 = Some u1)
        (Hu2 : Api.sessionUserId session2 = Some u2)
        (Hs1 : Date_parse h s1 = Some t1) (Hs2 : Date_parse h s2 = Some t2)
        (Hv1 : serverValidate loadedAt (JS.VDate (Some t1)) (JS.VNumber (JS.Finite q1))
               = Zod.Success {| Zod.pdate := t1; Zod.pcount := q1 |})
        (Hv2 : serverValidate loadedAt (JS.VDate (Some t2)) (JS.VNumber (JS.Finite q2))
               = Zod.Success {| Zod.pdate := t2; Zod.pcount := q2 |})
        (Hsame : Store.dateOnly t1 = Store.dateOnly t2) :
  let create session s q now db :=
    Api.POST h loadedAt now session
             (Api.BodyFields (JS.VString s) (JS.VNumber (JS.Finite q))) db in
  (Spec.hasRecord db u1 t1 ->
   create session1 s1 q1 now1 db = (Api.duplicateOnCreate, db))
  /\ Api.duplicateOnCreate
     = {| Api.status := 400;
          Api.body :=
            Api.JError "An entry already exists for this date"
              (Some [ {| Api.field := "date";
                         Api.message := "You already have an entry for this date. Please edit the existing entry instead." |} ]) |}
  /\ (forall r1 db1,
        create session1 s1 q1 now1 db = (r1, db1) ->
        create session1 s2 q2 now2 db1 = (Api.duplicateOnCreate, db1))
  /\ (u1 <> u2 -> ~ Spec.hasRecord db u1 t1 -> ~ Spec.hasRecord db u2 t2 ->
      exists e1 db1 e2 db2,
        create session1 s1 q1 now1 db = (Api.json (Api.JEntry e1) 201, db1)
        /\ create session2 s2 q2 now2 db1 = (Api.json (Api.JEntry e2) 201, db2)
        /\ Store.userId e1 = u1 /\ Store.userId e2 = u2
        /\ Store.date e1 = Store.date e2
        /\ In e1 (Store.rows db2) /\ In e2 (Store.rows db2)).
Proof.
  intros create.
  assert (POST1 : forall now d,
             create session1 s1 q1 now d
             = match Store.create d now u1 t1 (JS.toInt q1) with
               | inl msg => (Api.POST_catch (Api.Error msg), d)
               | inr (entry, d') => (Api.json (Api.JEntry entry) 201, d')
               end).
  { intros now d. unfold create.
    rewrite (POST_typed h loadedAt now session1 u1 s1 t1 q1 d Hu1 Hs1), Hv1.
    reflexivity. }
  assert (POST2 : forall session u now d,
             Api.sessionUserId session = Some u ->
             create session s2 q2 now d
             = match Store.create d now u t2 (JS.toInt q2) with
               | inl msg => (Api.POST_catch (Api.Error msg), d)
               | inr (entry, d') => (Api.json (Api.JEntry entry) 201, d')
               end).
  { intros session u now d A. unfold create.
    rewrite (POST_typed h loadedAt now session u s2 t2 q2 d A Hs2), Hv2.
    reflexivity. }
  assert (DUP : Api.POST_catch (Api.Error Store.uniqueConstraintMessage)
                = Api.duplicateOnCreate) by reflexivity.
  split; [ | split; [reflexivity | split ] ].
  - intros H. rewrite POST1, (create_duplicate db now1 u1 t1 _ H), DUP.
    reflexivity.
  - intros r1 db1 E. rewrite POST1 in E.
    assert (H1 : Spec.hasRecord db1 u1 t2).
    { unfold Spec.hasRecord. rewrite <- Hsame.
      destruct (existsb (Store.sameKey u1 (Store.dateOnly t1)) (Store.rows db)) eqn:X.
      - assert (HR : Spec.hasRecord db u1 t1) by (apply hasRecord_existsb; exact X).
        rewrite (create_duplicate db now1 u1 t1 _ HR) in E.
        inversion E; subst. exact HR.
      - assert (NR : ~ Spec.hasRecord db u1 t1).
        { intros HR. apply hasRecord_existsb in HR. congruence. }
        rewrite (create_fresh db now1 u1 t1 _ NR) in E. inversion E; subst.
        eexists. split.
        { cbn [Store.rows]. apply in_or_app. right. left. reflexivity. }
        split; reflexivity. }
    rewrite (POST2 session1 u1 now2 db1 Hu1), (create_duplicate db1 now2 u1 t2 _ H1).
    rewrite DUP. reflexivity.
  - intros NE NR1 NR2.
    rewrite POST1, (create_fresh db now1 u1 t1 _ NR1).
    eexists. eexists. eexists. eexists.
    split; [reflexivity | ].
    rewrite (POST2 session2 u2 now2 _ Hu2).
    rewrite create_fresh.
    + split; [reflexivity | ]. cbn [Store.userId Store.date Store.rows].
      split; [reflexivity | split; [reflexivity | split; [exact Hsame | split ] ] ].
      * apply in_or_app. left. apply in_or_app. right. left. reflexivity.
      * apply in_or_app. right. left. reflexivity.
    + intros (r & I & U & D). cbn [Store.rows] in I.
      apply in_app_or in I. destruct I as [I | [<- | []]].
      * apply NR2. exists r. auto.
      * cbn in U. congruence.
Qed.

(** C3, witness: user1 already has an entry for 2025-11-10 and creates
    another one for that date. *)
Lemma C3_duplicate_date_entry_witness :
  let h := Sample.utcHost in
  let loadedAt := utcInstant 2025 11 12 8 0 in
  let now := utcInstant 2025 11 12 9 0 in
  let db := {| Store.rows := [ Sample.row 0 "user1" (utcMidnight 2025 11 10) 5 ];
               Store.nextId := 1%nat |} in
  Spec.hasRecord db "user1" (utcMidnight 2025 11 10)
  /\ Api.POST h loadedAt now (Some "user1")
              (Api.BodyFields (JS.VString "2025-11-10") (JS.VNumber (JS.ofZ 10))) db
     = (Api.duplicateOnCreate, db).
Proof.
  cbv zeta.
  assert (H : Spec.hasRecord
                {| Store.rows := [ Sample.row 0 "user1" (utcMidnight 2025 11 10) 5 ];
                   Store.nextId := 1%nat |}
                "user1" (utcMidnight 2025 11 10)).
  { eexists. split; [left; reflexivity | split; vm_compute; reflexivity]. }
  split; [exact H | ].
  exact (proj1 (C3_duplicate_date_entry
                  Sample.utcHost (utcInstant 2025 11 12 8 0)
                  (utcInstant 2025 11 12 9 0) (utcInstant 2025 11 12 9 0)
                  (Some "user1") (Some "user1") "user1" "user1"
                  "2025-11-10" "2025-11-10"
                  (utcMidnight 2025 11 10) (utcMidnight 2025 11 10)
                  (inject_Z 10) (inject_Z 10) _
                  eq_refl eq_refl eq_refl eq_refl eq_refl eq_refl eq_refl)
               H).
Defined.

(** The date rule as the code has it: the issue DateInFuture is raised
    exactly when the submitted date is after the instant at which the
    validation module was evaluated. *)
Lemma date_rule_uses_module_load_time (loadedAt t : TimeValue) (q : Q) :
  In Validations.DateInFuture
     (Zod.issues (serverValidate loadedAt (JS.VDate (Some t))
                                 (JS.VNumber (JS.Finite q))))
  <-> loadedAt < t.
Proof.
  rewrite issues_typed, in_app_iff, dateIssues_spec. split.
  - intros [[L _] | I]; [exact L | ].
    apply In_prefixIssues in I. destruct I as (j & _ & E). discriminate E.
  - intros L. left. split; [exact L | reflexivity].
Qed.

(** A date after now (tomorrow, say) is rejected whatever the count value
    is, a number or not: the module was evaluated before the validation
    runs. *)
Lemma date_after_now_rejected (loadedAt now t : TimeValue) (count : JS.value) :
  loadedAt <= now -> now < t ->
  In Validations.DateInFuture
     (Zod.issues (serverValidate loadedAt (JS.VDate (Some t)) count)).
Proof.
  intros L1 L2. unfold serverValidate, Zod.safeParse.
  rewrite parseDate_date. unfold Spec.dateIssues.
  destruct (Z.leb_spec t loadedAt) as [L | L]; [lia | ].
  cbn [Zod.issues Zod.issuesOf Zod.prefixIssues map app].
  left. reflexivity.
Qed.

(** C4.  Validation is to fail with DateInFuture exactly when the date is
    strictly after the time at which the validation is performed.  The
    code compares with the time at which the schema module was evaluated:
    with a module evaluated on 2025-11-01 08:00Z, a validation performed
    on 2025-11-05 12:00Z rejects the past date 2025-11-03 (count 5) with
    DateInFuture and the message "Date cannot be in the future". *)
Theorem C4_past_date_rejected_as_future :
  let loadedAt := utcInstant 2025 11 1 8 0 in
  let now := utcInstant 2025 11 5 12 0 in
  let date := utcMidnight 2025 11 3 in
  loadedAt <= now /\ date <= now
  /\ serverValidate loadedAt (JS.VDate (Some date)) (JS.VNumber (JS.ofZ 5))
     = Zod.Failure [ Validations.DateInFuture ]
  /\ Zod.message Validations.DateInFuture = "Date cannot be in the future".
Proof.
  cbv zeta. split; [ vm_compute; discriminate | ].
  split; [ vm_compute; discriminate | ].
  split; vm_compute; reflexivity.
Qed.

(** With one and the same evaluation of the module the client's check and
    the server's check are the same function, and the text the dialog
    shows for a schema message is the text the route returns for it. *)
Lemma parity_for_one_module_instance (loadedAt : TimeValue) (date count : JS.value) :
  Client.validateForm loadedAt date count = serverValidate loadedAt date count.
Proof. reflexivity. Qed.

Lemma displayed_message_parity (i : Zod.issue) :
  In i [ Validations.DateInFuture;
         {| Zod.code := Zod.invalid_type; Zod.path := ["count"];
            Zod.message := Validations.msgCountNotInteger |};
         {| Zod.code := Zod.too_small; Zod.path := ["count"];
            Zod.message := Validations.msgCountNegative |} ] ->
  Client.formatErrorMessage (Zod.message i) = Api.message (Api.formatZodError i).
Proof.
  intros [<- | [<- | [<- | []]]]; vm_compute; reflexivity.
Qed.

(** C5.  The client-side and the server-side check are to agree on every
    input.  Each side evaluates the validation module on its own, so each
    has its own date bound: a browser that loaded the page on 2025-11-05
    09:00Z accepts (2025-11-03, 5), which a server started on 2025-11-01
    08:00Z rejects with "Date cannot be in the future". *)
Theorem C5_client_accepts_server_rejects :
  let pageLoadedAt := utcInstant 2025 11 5 9 0 in
  let serverStartedAt := utcInstant 2025 11 1 8 0 in
  let date := JS.VDate (Some (utcMidnight 2025 11 3)) in
  let count := JS.VNumber (JS.ofZ 5) in
  Client.validateForm pageLoadedAt date count
  = Zod.Success {| Zod.pdate := utcMidnight 2025 11 3; Zod.pcount := inject_Z 5 |}
  /\ serverValidate serverStartedAt date count
     = Zod.Failure [ Validations.DateInFuture ].
Proof. cbv zeta. split; vm_compute; reflexivity. Qed.



(** The update of C6 on a store with two records of one owner: moving the
    first onto the date of the second is refused as a duplicate, moving
    it onto a free date succeeds. *)
Example update_two_records :
  let db := {| Store.rows := [ Sample.row 0 "user1" (utcMidnight 2025 11 10) 5;
                               Sample.row 1 "user1" (utcMidnight 2025 11 21) 5 ];
               Store.nextId := 2%nat |} in
  let put s c :=
    Api.PUT Sample.utcHost (utcInstant 2025 11 22 8 0) (utcInstant 2025 11 22 9 0)
            (Some "user1") 0%nat
            (Api.BodyFields (JS.VString s) (JS.VNumber (JS.ofZ c))) db in
  put "2025-11-21" 20 = (Api.duplicateOnUpdate, db)
  /\ fst (put "2025-11-17" 20)
     = Api.json (Api.JEntry {| Store.id := 0%nat; Store.userId := "user1";
                               Store.date := utcMidnight 2025 11 17;
                               Store.count := 20;
                               Store.createdAt := utcMidnight 2025 11 10;
                               Store.updatedAt := utcInstant 2025 11 22 9 0 |})
                200.
Proof. cbv zeta. split; vm_compute; reflexivity. Qed.

(** C7 (as stated) fails: the negative count -1.5 is not reported as
    CountNegative, and the non-negative integer 2^53 is not accepted (it
    is reported with the message of CountNotInteger). *)
Lemma C7_negative_fraction_and_unsafe_integer :
  let issuesFor q :=
    Zod.issues (serverValidate 0 (JS.VDate (Some 0)) (JS.VNumber (JS.Finite q))) in
  ((-3 # 2) < 0)%Q
  /\ issuesFor (-3 # 2)%Q
     = [ {| Zod.code := Zod.invalid_type; Zod.path := ["count"];
            Zod.message := Validations.msgCountNotInteger |} ]
  /\ ~ (exists i, In i (issuesFor (-3 # 2)%Q) /\ Validations.isCountNegative i)
  /\ Spec.isMathInteger (inject_Z (2 ^ 53)) /\ (0 <= inject_Z (2 ^ 53))%Q
  /\ issuesFor (inject_Z (2 ^ 53))
     = [ {| Zod.code := Zod.too_big; Zod.path := ["count"];
            Zod.message := Validations.msgCountNotInteger |} ].
Proof.
  cbv zeta. split; [reflexivity | ].
  split; [vm_compute; reflexivity | ].
  split.
  { intros (i & I & _ & M). vm_compute in I. destruct I as [<- | []].
    discriminate M. }
  split; [exists (2 ^ 53); reflexivity | ].
  split; [vm_compute; discriminate | vm_compute; reflexivity].
Qed.

(** C7 (amended).  On a finite count, validation fails with the message
    "Count must be a whole number" (CountNotInteger) exactly when the count
    is not an integer of the safe range -(2^53-1) .. 2^53-1, in particular
    whenever it is not a mathematical integer, and fails with the message
    "Count cannot be negative" (CountNegative) exactly when the count is a
    negative integer.  The counts 0.1, 0.5, 1.5, 10.1 and 100.99 all fail
    with CountNotInteger, and every non-negative integer count up to
    2^53-1 is accepted. *)
Theorem C7_count_rules (loadedAt t : TimeValue) (q : Q) :
  let issuesFor q :=
    Zod.issues (serverValidate loadedAt (JS.VDate (Some t))
                               (JS.VNumber (JS.Finite q))) in
  ((exists i, In i (issuesFor q) /\ Validations.isCountNotInteger i)
   <-> ~ (exists z, (q == inject_Z z)%Q /\ - (2 ^ 53 - 1) <= z <= 2 ^ 53 - 1))
  /\ (~ Spec.isMathInteger q ->
      exists i, In i (issuesFor q) /\ Validations.isCountNotInteger i)
  /\ ((exists i, In i (issuesFor q) /\ Validations.isCountNegative i)
      <-> Spec.isMathInteger q /\ (q < 0)%Q)
  /\ Forall (fun x => exists i, In i (issuesFor x) /\ Validations.isCountNotInteger i)
       [ (3602879701896397 # 36028797018963968)%Q;      (* 0.1 *)
         (1 # 2)%Q;                                     (* 0.5 *)
         (3 # 2)%Q;                                     (* 1.5 *)
         (5685794529555251 # 562949953421312)%Q;        (* 10.1 *)
         (7106539474502287 # 70368744177664)%Q ]        (* 100.99 *)
  /\ (forall z, 0 <= z <= 2 ^ 53 - 1 ->
        (forall i, In i (issuesFor (inject_Z z)) -> Zod.path i = ["date"])
        /\ (t <= loadedAt ->
            serverValidate loadedAt (JS.VDate (Some t)) (JS.VNumber (JS.ofZ z))
            = Zod.Success {| Zod.pdate := t; Zod.pcount := inject_Z z |})).
Proof.
  intros issuesFor.
  split; [ | split; [ | split; [ | split ] ] ].
  - unfold issuesFor. rewrite notInteger_issue_iff, <- isSafeInteger_spec.
    destruct (JS.isSafeInteger q); split; congruence.
  - apply notInteger_reported.
  - apply negative_issue_iff.
  - repeat constructor; apply notInteger_issue_iff; vm_compute; reflexivity.
  - intros z R. split.
    + intros i I. unfold issuesFor in I.
      rewrite issues_typed, (countIssues_nonnegative_safe z R) in I.
      cbn [Zod.prefixIssues map] in I. rewrite app_nil_r in I.
      apply dateIssues_spec in I. destruct I as [_ ->]. reflexivity.
    + apply accepts_nonnegative_safe. exact R.
Qed.

(** C7, witness: the count 0.5. *)
Lemma C7_count_rules_witness :
  ~ Spec.isMathInteger (1 # 2)%Q
  /\ exists i,
      In i (Zod.issues (serverValidate 0 (JS.VDate (Some 0))
                                       (JS.VNumber (JS.Finite (1 # 2)%Q))))
      /\ Validations.isCountNotInteger i.
Proof.
  assert (N : ~ Spec.isMathInteger (1 # 2)%Q).
  { intros I. apply isInteger_spec in I. vm_compute in I. discriminate I. }
  split; [exact N | ].
  exact (proj1 (proj2 (C7_count_rules 0 0 (1 # 2)%Q)) N).
Defined.

(** C8 (as stated) fails: for a future date together with the count -1.5,
    which is both fractional and negative, the result holds the date
    violation and CountNotInteger, but not CountNegative. *)
Lemma C8_count_checks_stop_at_first :
  let loadedAt := utcInstant 2025 11 1 8 0 in
  let tomorrow := utcMidnight 2025 11 2 in
  ((-3 # 2) < 0)%Q /\ ~ Spec.isMathInteger (-3 # 2)%Q
  /\ serverValidate loadedAt (JS.VDate (Some tomorrow))
                    (JS.VNumber (JS.Finite (-3 # 2)%Q))
     = Zod.Failure
         [ Validations.DateInFuture;
           {| Zod.code := Zod.invalid_type; Zod.path := ["count"];
              Zod.message := Validations.msgCountNotInteger |} ].
Proof.
  cbv zeta. split; [reflexivity | ]. split.
  - intros I. apply isInteger_spec in I. vm_compute in I. discriminate I.
  - vm_compute. reflexivity.
Qed.

(** C8 (amended).  Validation evaluates both fields and returns the
    violations of both together, each tagged with its field path: a date
    after now is reported as DateInFuture whatever the count is, a count
    that is not an integer is reported as CountNotInteger and a negative
    integer count as CountNegative whatever the date is (so when both the
    date and the count are invalid, both a 'date' and a 'count' error
    appear); every issue carries the path 'date' or 'count', and the
    create route returns one detail per issue, under the issue's field.
    For a count that is not an integer the non-negativity rule is not
    evaluated: it is reported as CountNotInteger only, no issue of the
    result is a CountNegative. *)
Theorem C8_violations_of_all_fields
        (h : Host) (loadedAt now t : TimeValue) (q : Q)
        (session : Api.Session) (uid s : string) (db : Store.Db)
        (Hload : loadedAt <= now) :
  let issues :=
    Zod.issues (serverValidate loadedAt (JS.VDate (Some t))
                               (JS.VNumber (JS.Finite q))) in
  (now < t -> In Validations.DateInFuture issues)
  /\ (~ Spec.isMathInteger q ->
      exists i, In i issues /\ Validations.isCountNotInteger i)
  /\ (Spec.isMathInteger q -> (q < 0)%Q ->
      exists i, In i issues /\ Validations.isCountNegative i)
  /\ (~ Spec.isMathInteger q \/ (q < 0)%Q ->
      exists i, In i issues /\ Zod.path i = ["count"])
  /\ (forall i, In i issues -> Zod.path i = ["date"] \/ Zod.path i = ["count"])
  /\ (Api.sessionUserId session = Some uid -> Date_parse h s = Some t ->
      issues <> [] ->
      Api.POST h loadedAt now session
               (Api.BodyFields (JS.VString s) (JS.VNumber (JS.Finite q))) db
      = (Api.json (Api.JError "Validation failed"
                     (Some (map Api.formatZodError issues))) 400, db)
      /\ map Api.field (map Api.formatZodError issues)
         = map (fun i => JS.join "." (Zod.path i)) issues)
  /\ (~ Spec.isMathInteger q ->
      forall i, In i issues -> ~ Validations.isCountNegative i).
Proof.
  intros issues.
  pose proof (notInteger_reported loadedAt t q) as NI.
  pose proof (negative_issue_iff loadedAt t q) as NEG.
  split; [ | split; [ | split; [ | split; [ | split; [ | split ] ] ] ] ].
  - intros L. apply date_after_now_rejected with (now := now); assumption.
  - exact NI.
  - intros I L. apply NEG. auto.
  - intros [N | L].
    + destruct (NI N) as (i & I & P & _). eauto.
    + destruct (JS.isInteger q) eqn:E.
      * apply isInteger_spec in E. destruct (proj2 NEG (conj E L)) as (i & I & P & _).
        eauto.
      * assert (N : ~ Spec.isMathInteger q)
          by (intros X; apply isInteger_spec in X; congruence).
        destruct (NI N) as (i & I & P & _). eauto.
  - intros i I. unfold issues in I. rewrite issues_typed in I.
    apply in_app_or in I. destruct I as [I | I].
    + apply dateIssues_spec in I. destruct I as [_ ->]. left. reflexivity.
    + apply In_prefixIssues in I. destruct I as (j & I & ->). right. cbn.
      rewrite (countIssues_paths q j I). reflexivity.
  - intros A P NE. split.
    + rewrite (POST_typed h loadedAt now session uid s t q db A P).
      unfold issues in NE.
      destruct (serverValidate loadedAt _ _) as [v | l]; [ | reflexivity].
      exfalso. apply NE. reflexivity.
    + rewrite map_map. apply map_ext. intros i. apply formatZodError_field.
  - intros N i I C. apply N.
    assert (X : exists i, In i issues /\ Validations.isCountNegative i) by eauto.
    apply NEG in X. destruct X as [X _]. exact X.
Qed.

(** C8, witness: tomorrow's date with the count -1. *)
Lemma C8_violations_of_all_fields_witness :
  let loadedAt := utcInstant 2025 11 1 8 0 in
  let now := utcInstant 2025 11 1 9 0 in
  let tomorrow := utcMidnight 2025 11 2 in
  loadedAt <= now /\ now < tomorrow
  /\ In Validations.DateInFuture
        (Zod.issues (serverValidate loadedAt (JS.VDate (Some tomorrow))
                                    (JS.VNumber (JS.Finite (-1 # 1)%Q)))).
Proof.
  assert (L1 : utcInstant 2025 11 1 8 0 <= utcInstant 2025 11 1 9 0)
    by (vm_compute; discriminate).
  assert (L2 : utcInstant 2025 11 1 9 0 < utcMidnight 2025 11 2)
    by (vm_compute; reflexivity).
  split; [exact L1 | split; [exact L2 | ] ].
  exact (proj1 (C8_violations_of_all_fields Sample.utcHost _ _
                  (utcMidnight 2025 11 2) (-1 # 1)%Q None "" "" Sample.emptyDb L1)
               L2).
Defined.

(** When the date is accepted, a zero count is accepted with it and is
    stored as a record whose count is 0; a list query whose range covers
    the stored date returns that record. *)
Lemma zero_count_is_recorded
      (h : Host) (loadedAt now : TimeValue) (session : Api.Session)
      (uid s sLo sHi : string) (t lo hi : TimeValue) (db : Store.Db) :
  Api.sessionUserId session = Some uid -> Date_parse h s = Some t ->
  t <= loadedAt -> ~ Spec.hasRecord db uid t ->
  sLo <> "" -> sHi <> "" ->
  Date_parse h sLo = Some lo -> Date_parse h sHi = Some hi ->
  lo <= Store.dateOnly t <= hi ->
  exists e db' l,
    Api.POST h loadedAt now session
             (Api.BodyFields (JS.VString s) (JS.VNumber (JS.ofZ 0))) db
    = (Api.json (Api.JEntry e) 201, db')
    /\ Store.userId e = uid /\ Store.date e = Store.dateOnly t
    /\ Store.count e = 0
    /\ Api.GET_list h session (Some sLo) (Some sHi) db'
       = Api.json (Api.JEntries l) 200
    /\ In e l.
Proof.
  intros A P L NR NLo NHi PLo PHi R.
  unfold JS.ofZ. rewrite (POST_typed h loadedAt now session uid s t _ db A P).
  pose proof (accepts_nonnegative_safe loadedAt t 0 ltac:(lia) L) as OK.
  unfold JS.ofZ in OK. rewrite OK. cbn [Zod.pdate Zod.pcount].
  rewrite toInt_inject_Z, (create_fresh db now uid t 0 NR).
  eexists. eexists. eexists.
  split; [reflexivity | ]. cbn [Store.userId Store.date Store.count].
  repeat split.
  - unfold Api.GET_list. rewrite A. unfold Api.queryBound.
    apply String.eqb_neq in NLo, NHi. rewrite NLo, NHi, PLo, PHi. reflexivity.
  - apply findMany_In. cbn [Store.rows]. split.
    + apply in_or_app. right. left. reflexivity.
    + unfold Store.matches. cbn. rewrite String.eqb_refl.
      destruct R as [R1 R2]. apply Z.leb_le in R1, R2. rewrite R1, R2. reflexivity.
Qed.

(** C9.  A zero count with a past-or-today date is to validate always.
    With the server's module evaluated on 2025-11-01 08:00Z, a create on
    2025-11-05 12:00Z for the past date 2025-11-03 with count 0 is
    rejected as a future date; nothing is stored, and the list query for
    that date is empty. *)
Theorem C9_zero_count_for_past_date_rejected :
  let loadedAt := utcInstant 2025 11 1 8 0 in
  let now := utcInstant 2025 11 5 12 0 in
  let session := Some "user1" in
  utcMidnight 2025 11 3 <= now
  /\ Api.POST Sample.utcHost loadedAt now session
              (Api.BodyFields (JS.VString "2025-11-03") (JS.VNumber (JS.ofZ 0)))
              Sample.emptyDb
     = (Api.json
          (Api.JError "Validation failed"
             (Some [ {| Api.field := "date";
                        Api.message := "You cannot log eggs for a future date. Please select today or an earlier date." |} ]))
          400,
        Sample.emptyDb)
  /\ Api.GET_list Sample.utcHost session (Some "2025-11-03") (Some "2025-11-03")
                  Sample.emptyDb
     = Api.json (Api.JEntries []) 200.
Proof.
  cbv zeta. split; [vm_compute; discriminate | ].
  split; vm_compute; reflexivity.
Qed.

(** C10 (as stated) fails: the totals are sums of Numbers.  For a record
    with the count 2^53 - 1 in October 2025 and one with the count 2 in
    November 2025 (both counts pass validation), the totals row over the
    two rows of the result shows 9007199254740992 eggs, and the sum of
    the counts of the records is 9007199254740993. *)
Lemma C10_totals_round_above_2_53 :
  let entries := [ (utcMidnight 2025 10 5, 9007199254740991);
                   (utcMidnight 2025 11 5, 2) ] in
  let result := Api.aggregate Sample.utcHost entries in
  Forall (fun e => serverValidate (utcInstant 2025 11 22 8 0)
                     (JS.VDate (Some (fst e))) (JS.VNumber (JS.ofZ (snd e)))
                   = Zod.Success {| Zod.pdate := fst e;
                                    Zod.pcount := inject_Z (snd e) |}) entries
  /\ result
     = [ {| Api.month := "2025-11"; Api.totalCount := 2; Api.daysRecorded := 1 |};
         {| Api.month := "2025-10"; Api.totalCount := 9007199254740991;
            Api.daysRecorded := 1 |} ]
  /\ Components.totalEggs result = 9007199254740992
  /\ Spec.sumCounts entries = 9007199254740993
  /\ Components.totalEggs result <> Spec.sumCounts entries.
Proof.
  cbv zeta. split; [ | split; [ | split; [ | split ] ] ].
  - repeat constructor; vm_compute; reflexivity.
  - vm_compute. reflexivity.
  - vm_compute. reflexivity.
  - vm_compute. reflexivity.
  - vm_compute. discriminate.
Qed.

(** C10 (amended).  For every list of fetched records whose counts are
    non-negative and add up, like the number of the records, to at most
    2^53, the monthly aggregation partitions it: every row of the result
    has daysRecorded >= 1, the sum of daysRecorded over the rows is the
    number of records, and the sum of totalCount over the rows is the sum
    of the counts of the records (the totals row of the table, computed
    over the rows, equals the totals over the raw records). *)
Theorem C10_aggregation_partitions_records
        (h : Host) (entries : list (TimeValue * Z))
        (Hexact : Spec.sumsExact entries) :
  let result := Api.aggregate h entries in
  Forall (fun row => 1 <= Api.daysRecorded row) result
  /\ Components.totalDaysRecorded result = Z.of_nat (List.length entries)
  /\ Components.totalEggs result = Spec.sumCounts entries.
Proof.
  intros result.
  remember (fold_left (Api.groupEntry h) entries []) as final eqn:Efinal.
  assert (P : Permutation result (map Api.toMonthlyData final))
    by (unfold result, Api.aggregate; rewrite <- Efinal; apply sort_perm).
  destruct Hexact as (NN & BS & BL).
  destruct (fold_groupEntry_exact h entries [] (Forall_nil _) NN BS BL)
    as (K & T & D & F).
  rewrite <- Efinal in K, T, D, F.
  assert (ST : fold_right Z.add 0 (map Api.totalCount result) = Spec.sumCounts entries).
  { rewrite (sum_perm _ _ (Permutation_map Api.totalCount P)), map_map.
    transitivity (Spec.mapTotal final); [ | rewrite T; reflexivity].
    unfold Spec.mapTotal. clear. induction final as [ | kv m IH]; cbn; [reflexivity | ].
    cbn in IH. lia. }
  assert (SD : fold_right Z.add 0 (map Api.daysRecorded result)
               = Z.of_nat (List.length entries)).
  { rewrite (sum_perm _ _ (Permutation_map Api.daysRecorded P)), map_map.
    transitivity (Spec.mapDays final); [ | rewrite D; reflexivity].
    unfold Spec.mapDays. clear. induction final as [ | kv m IH]; cbn; [reflexivity | ].
    cbn in IH. lia. }
  assert (FR : Forall (fun row => 0 <= Api.totalCount row
                                  /\ 0 <= Api.daysRecorded row) result).
  { apply (Permutation_Forall (Permutation_sym P)).
    apply Forall_map. exact F. }
  split; [ | split].
  - apply Forall_forall. intros row I. apply aggregate_row in I.
    rewrite <- Efinal in I. destruct I as (md & G & _ & Dr).
    destruct (K (Api.month row)) as [_ D'].
    pose proof (fold_groupEntry_none h entries [] (Api.month row)) as N.
    rewrite <- Efinal in N. rewrite G in D', N.
    cbn [JS.get Spec.daysOf] in D', N.
    destruct (Spec.keyedAs h (Api.month row) entries) eqn:E.
    + assert (X : Some md = None) by (apply N; auto). discriminate.
    + cbn [List.length] in D'. lia.
  - unfold Components.totalDaysRecorded.
    rewrite reduce_add_exact; [lia | lia | | lia].
    eapply Forall_impl; [ | exact FR]. intros row [_ R]. exact R.
  - unfold Components.totalEggs.
    rewrite reduce_add_exact; [lia | lia | | lia].
    eapply Forall_impl; [ | exact FR]. intros row [R _]. exact R.
Qed.

(** C10, witness: the four records of September and October 2025 on a
    server five hours west of UTC, where the rows are ("2025-10", 9, 1)
    and ("2025-09", 19, 3): the totals are 4 days and 28 eggs. *)
Lemma C10_aggregation_partitions_witness :
  let entries := [ (utcMidnight 2025 9 10, 5); (utcMidnight 2025 9 20, 6);
                   (utcMidnight 2025 10 1, 8); (utcMidnight 2025 10 15, 9) ] in
  Spec.sumsExact entries
  /\ Components.totalDaysRecorded (Api.aggregate Sample.westHost entries) = 4
  /\ Components.totalEggs (Api.aggregate Sample.westHost entries) = 28.
Proof.
  cbv zeta.
  assert (E : Spec.sumsExact
                [ (utcMidnight 2025 9 10, 5); (utcMidnight 2025 9 20, 6);
                  (utcMidnight 2025 10 1, 8); (utcMidnight 2025 10 15, 9) ]).
  { split; [repeat constructor; cbn; lia | ].
    split; vm_compute; discriminate. }
  split; [exact E | ].
  exact (proj2 (C10_aggregation_partitions_records Sample.westHost _ E)).
Defined.

(* ================================================================== *)
(** * Further properties of the routes                                 *)
(* ================================================================== *)

(** ** Lookups after a deletion *)

Lemma find_id_filter_same (l : list Store.EggProduction) (i : Store.Id) :
  find (fun r => Nat.eqb (Store.id r) i)
       (filter (fun r => negb (Nat.eqb (Store.id r) i)) l) = None.
Proof.
  induction l as [|a l IH]; cbn; [reflexivity|].
  destruct (Nat.eqb (Store.id a) i) eqn:E; cbn; [exact IH|].
  rewrite E. exact IH.
Qed.

Lemma find_id_filter_other (l : list Store.EggProduction) (i j : Store.Id) :
  j <> i ->
  find (fun r => Nat.eqb (Store.id r) j)
       (filter (fun r => negb (Nat.eqb (Store.id r) i)) l)
  = find (fun r => Nat.eqb (Store.id r) j) l.
Proof.
  intros NE. induction l as [|a l IH]; cbn; [reflexivity|].
  destruct (Nat.eqb (Store.id a) i) eqn:E; cbn.
  - apply Nat.eqb_eq in E.
    destruct (Nat.eqb (Store.id a) j) eqn:E'; [|exact IH].
    apply Nat.eqb_eq in E'. congruence.
  - destruct (Nat.eqb (Store.id a) j); [reflexivity|exact IH].
Qed.

Lemma deleteRow_found (db : Store.Db) (i : Store.Id) (r : Store.EggProduction) :
  Store.findUnique db i = Some r ->
  EntryRoute.deleteRow db i
  = inr {| Store.rows :=
             filter (fun r => negb (Nat.eqb (Store.id r) i)) (Store.rows db);
           Store.nextId := Store.nextId db |}.
Proof. intros F. unfold EntryRoute.deleteRow. rewrite F. reflexivity. Qed.

Lemma DELETE_owner (session : Api.Session) (uid : string) (i : Store.Id)
      (db : Store.Db) (r : Store.EggProduction) :
  Api.sessionUserId session = Some uid ->
  Store.findUnique db i = Some r -> Store.userId r = uid ->
  EntryRoute.DELETE session i db
  = (EntryRoute.NoContent,
     {| Store.rows :=
          filter (fun r => negb (Nat.eqb (Store.id r) i)) (Store.rows db);
        Store.nextId := Store.nextId db |}).
Proof.
  intros S F U. unfold EntryRoute.DELETE. rewrite S, F.
  rewrite U, String.eqb_refl. cbn [negb].
  rewrite (deleteRow_found db i r F). reflexivity.
Qed.

(** X1.  DELETE of an entry by a signed-in user: an unknown id is answered
    with 404 and a record of another owner with 403, both leaving the
    table as it is; a record of the user is answered with the empty 204
    response, after which the id is no longer found, every other id is
    found as before, the rows are those of before without the record, and
    the identifier counter is untouched.  The route's 500 answer is never
    reached: the lookup that precedes the deletion has found the row. *)
Theorem DELETE_outcomes (session : Api.Session) (uid : string) (i : Store.Id)
        (db : Store.Db) :
  Api.sessionUserId session = Some uid ->
  match Store.findUnique db i with
  | None =>
      EntryRoute.DELETE session i db = (EntryRoute.Reply Api.notFound, db)
  | Some r =>
      if String.eqb (Store.userId r) uid then
        exists db',
          EntryRoute.DELETE session i db = (EntryRoute.NoContent, db')
          /\ Store.findUnique db' i = None
          /\ (forall j, j <> i -> Store.findUnique db' j = Store.findUnique db j)
          /\ (forall r', In r' (Store.rows db')
                         <-> In r' (Store.rows db) /\ Store.id r' <> i)
          /\ Store.nextId db' = Store.nextId db
      else
        EntryRoute.DELETE session i db
        = (EntryRoute.Reply EntryRoute.forbidden, db)
  end.
Proof.
  intros S. destruct (Store.findUnique db i) as [r|] eqn:F.
  - destruct (String.eqb (Store.userId r) uid) eqn:U.
    + apply String.eqb_eq in U.
      eexists. split; [exact (DELETE_owner session uid i db r S F U)|].
      split; [apply find_id_filter_same|].
      split; [intros j NE; apply find_id_filter_other; exact NE|].
      split; [|reflexivity].
      intros r'. cbn [Store.rows]. rewrite filter_In.
      rewrite negb_true_iff, Nat.eqb_neq. reflexivity.
    + unfold EntryRoute.DELETE. rewrite S, F, U. reflexivity.
  - unfold EntryRoute.DELETE. rewrite S, F. reflexivity.
Qed.

(** X1, witness: user1 deletes the first of their two records. *)
Lemma DELETE_outcomes_witness :
  Api.sessionUserId (Some "user1") = Some "user1"
  /\ exists db',
       EntryRoute.DELETE (Some "user1") 0%nat Sample.springDb
       = (EntryRoute.NoContent, db')
       /\ Store.findUnique db' 0%nat = None
       /\ (forall j, j <> 0%nat ->
                     Store.findUnique db' j = Store.findUnique Sample.springDb j)
       /\ (forall r', In r' (Store.rows db')
                      <-> In r' (Store.rows Sample.springDb) /\ Store.id r' <> 0%nat)
       /\ Store.nextId db' = Store.nextId Sample.springDb.
Proof.
  split; [reflexivity|].
  exact (DELETE_outcomes (Some "user1") "user1" 0%nat Sample.springDb eq_refl).
Defined.

(** ** Status codes and the table *)

Lemma POST_catch_status (e : Api.Thrown) :
  Api.status (Api.POST_catch e) = 400 \/ Api.status (Api.POST_catch e) = 500.
Proof.
  destruct e as [l|msg]; cbn; [left; reflexivity|].
  destruct (Api.isUniqueViolation msg); [left|right]; reflexivity.
Qed.

Lemma PUT_catch_status (e : Api.Thrown) :
  Api.status (Api.PUT_catch e) = 400 \/ Api.status (Api.PUT_catch e) = 500.
Proof.
  destruct e as [l|msg]; cbn; [left; reflexivity|].
  destruct (Api.isUniqueViolation msg); [left|right]; reflexivity.
Qed.

Lemma create_inv (db db' : Store.Db) (now : TimeValue) (u : string) (d : TimeValue)
      (c : Z) (e : Store.EggProduction) :
  Store.create db now u d c = inr (e, db') ->
  e = {| Store.id := Store.nextId db; Store.userId := u;
         Store.date := Store.dateOnly d; Store.count := c;
         Store.createdAt := now; Store.updatedAt := now |}
  /\ db' = {| Store.rows := Store.rows db ++ [e];
              Store.nextId := S (Store.nextId db) |}
  /\ existsb (Store.sameKey u (Store.dateOnly d)) (Store.rows db) = false.
Proof.
  unfold Store.create.
  destruct (existsb _ _) eqn:E; [discriminate|].
  intros H. injection H as <- <-. auto.
Qed.

Lemma update_inv (db db' : Store.Db) (now : TimeValue) (i : Store.Id)
      (d : TimeValue) (c : Z) (e : Store.EggProduction) :
  Store.update db now i d c = inr (e, db') ->
  exists r,
    Store.findUnique db i = Some r
    /\ e = Store.setFields now (Store.dateOnly d) c r
    /\ db' = {| Store.rows :=
                  map (fun r' => if Nat.eqb (Store.id r') i
                                 then Store.setFields now (Store.dateOnly d) c r'
                                 else r')
                      (Store.rows db);
                Store.nextId := Store.nextId db |}
    /\ existsb (fun r' => negb (Nat.eqb (Store.id r') i)
                          && Store.sameKey (Store.userId r) (Store.dateOnly d) r')
               (Store.rows db) = false.
Proof.
  unfold Store.update.
  destruct (Store.findUnique db i) as [r|]; [|discriminate].
  destruct (existsb _ _) eqn:E; [discriminate|].
  intros H. injection H as <- <-. exists r. auto.
Qed.

(** The shape of every answer of POST. *)
Lemma POST_cases (h : Host) (loadedAt now : TimeValue) (session : Api.Session)
      (request : Api.RequestBody) (db : Store.Db) :
  (Api.sessionUserId session = None
   /\ Api.POST h loadedAt now session request db = (Api.unauthorized, db))
  \/ (exists uid e,
        Api.sessionUserId session = Some uid
        /\ Api.POST h loadedAt now session request db = (Api.POST_catch e, db))
  \/ (exists uid bdate bcount v e db',
        Api.sessionUserId session = Some uid
        /\ request = Api.BodyFields bdate bcount
        /\ serverValidate loadedAt (Api.parseBodyDate h bdate) bcount
           = Zod.Success v
        /\ Store.create db now uid (Zod.pdate v) (JS.toInt (Zod.pcount v))
           = inr (e, db')
        /\ Api.POST h loadedAt now session request db
           = (Api.json (Api.JEntry e) 201, db')).
Proof.
  unfold Api.POST, Api.schemaParse, serverValidate.
  destruct (Api.sessionUserId session) as [uid|]; [|left; auto].
  right. destruct request as [|bdate bcount]; [left; eauto|].
  destruct (Zod.safeParse _ _ _) as [v|l] eqn:V; [|left; eauto].
  destruct (Store.create _ _ _ _ _) as [msg|[e db']] eqn:C; [left; eauto|].
  right. exists uid, bdate, bcount, v, e, db'. auto.
Qed.

(** The shape of every answer of PUT. *)
Lemma PUT_cases (h : Host) (loadedAt now : TimeValue) (session : Api.Session)
      (i : Store.Id) (request : Api.RequestBody) (db : Store.Db) :
  (Api.sessionUserId session = None
   /\ Api.PUT h loadedAt now session i request db = (Api.unauthorized, db))
  \/ (exists uid,
        Api.sessionUserId session = Some uid
        /\ (Api.PUT h loadedAt now session i request db = (Api.notFound, db)
            \/ Api.PUT h loadedAt now session i request db = (Api.forbidden, db)
            \/ exists e,
                 Api.PUT h loadedAt now session i request db
                 = (Api.PUT_catch e, db)))
  \/ (exists uid r bdate bcount v e db',
        Api.sessionUserId session = Some uid
        /\ Store.findUnique db i = Some r /\ Store.userId r = uid
        /\ request = Api.BodyFields bdate bcount
        /\ serverValidate loadedAt (Api.parseBodyDate h bdate) bcount
           = Zod.Success v
        /\ Store.update db now i (Zod.pdate v) (JS.toInt (Zod.pcount v))
           = inr (e, db')
        /\ Api.PUT h loadedAt now session i request db
           = (Api.json (Api.JEntry e) 200, db')).
Proof.
  unfold Api.PUT, Api.schemaParse, serverValidate.
  destruct (Api.sessionUserId session) as [uid|]; [|left; auto].
  right. destruct (Store.findUnique db i) as [r|] eqn:F; [|left; eauto].
  destruct (String.eqb (Store.userId r) uid) eqn:U; cbn [negb]; [|left; eauto].
  apply String.eqb_eq in U.
  destruct request as [|bdate bcount]; [left; eauto 6|].
  destruct (Zod.safeParse _ _ _) as [v|l] eqn:V; [|left; eauto 6].
  destruct (Store.update _ _ _ _ _) as [msg|[e db']] eqn:C; [left; eauto 6|].
  right. exists uid, r, bdate, bcount, v, e, db'. auto 10.
Qed.

(** The shape of every answer of DELETE. *)
Lemma DELETE_cases (session : Api.Session) (i : Store.Id) (db : Store.Db) :
  (Api.sessionUserId session = None
   /\ EntryRoute.DELETE session i db = (EntryRoute.Reply Api.unauthorized, db))
  \/ (exists uid,
        Api.sessionUserId session = Some uid
        /\ (EntryRoute.DELETE session i db = (EntryRoute.Reply Api.notFound, db)
            \/ EntryRoute.DELETE session i db
               = (EntryRoute.Reply EntryRoute.forbidden, db)))
  \/ (exists uid r,
        Api.sessionUserId session = Some uid
        /\ Store.findUnique db i = Some r /\ Store.userId r = uid
        /\ EntryRoute.DELETE session i db
           = (EntryRoute.NoContent,
              {| Store.rows :=
                   filter (fun r => negb (Nat.eqb (Store.id r) i)) (Store.rows db);
                 Store.nextId := Store.nextId db |})).
Proof.
  destruct (Api.sessionUserId session) as [uid|] eqn:S.
  - right. destruct (Store.findUnique db i) as [r|] eqn:F.
    + destruct (String.eqb (Store.userId r) uid) eqn:U.
      * apply String.eqb_eq in U. right. exists uid, r.
        repeat split; auto. apply (DELETE_owner session uid i db r S F U).
      * left. exists uid. split; [reflexivity|]. right.
        unfold EntryRoute.DELETE. rewrite S, F, U. reflexivity.
    + left. exists uid. split; [reflexivity|]. left.
      unfold EntryRoute.DELETE. rewrite S, F. reflexivity.
  - left. split; [reflexivity|]. unfold EntryRoute.DELETE. rewrite S. reflexivity.
Qed.

(** X2.  The five handlers of the egg-production API answer 401 exactly
    when the session carries no user id (no session, or an empty id);
    no other failure is reported with that status. *)
Theorem unauthorized_iff_no_session
        (h : Host) (loadedAt now : TimeValue) (session : Api.Session)
        (i : Store.Id) (request : Api.RequestBody)
        (startDateStr endDateStr : option string) (db : Store.Db) :
  (Api.status (fst (Api.POST h loadedAt now session request db)) = 401
   <-> Api.sessionUserId session = None)
  /\ (Api.status (fst (Api.PUT h loadedAt now session i request db)) = 401
      <-> Api.sessionUserId session = None)
  /\ (EntryRoute.answerStatus (fst (EntryRoute.DELETE session i db)) = 401
      <-> Api.sessionUserId session = None)
  /\ (Api.status (Api.GET_list h session startDateStr endDateStr db) = 401
      <-> Api.sessionUserId session = None)
  /\ (Api.status (Api.GET_monthly h now session db) = 401
      <-> Api.sessionUserId session = None).
Proof.
  split; [|split; [|split; [|split]]].
  - destruct (POST_cases h loadedAt now session request db)
      as [[S ->] | [(uid & e & S & ->) | (uid & ? & ? & ? & e & db' & S & _ & _ & _ & ->)]];
      rewrite S; cbn [fst].
    + split; reflexivity.
    + split; [|discriminate].
      destruct (POST_catch_status e) as [-> | ->]; discriminate.
    + split; discriminate.
  - destruct (PUT_cases h loadedAt now session i request db)
      as [[S ->] | [(uid & S & [-> | [-> | [e ->]]])
                   | (uid & ? & ? & ? & ? & e & db' & S & _ & _ & _ & _ & _ & ->)]];
      rewrite S; cbn [fst]; try (split; [reflexivity|reflexivity]);
      try (split; discriminate).
    split; [|discriminate].
    destruct (PUT_catch_status e) as [-> | ->]; discriminate.
  - destruct (DELETE_cases session i db)
      as [[S ->] | [(uid & S & [-> | ->]) | (uid & r & S & _ & _ & ->)]];
      rewrite S; cbn [fst]; try (split; [reflexivity|reflexivity]);
      split; discriminate.
  - unfold Api.GET_list. destruct (Api.sessionUserId session) as [uid|].
    + destruct (Api.queryBound h startDateStr), (Api.queryBound h endDateStr);
        split; discriminate.
    + split; reflexivity.
  - unfold Api.GET_monthly. destruct (Api.sessionUserId session) as [uid|].
    + split; discriminate.
    + split; reflexivity.
Qed.

(** X3.  The three mutating handlers change the table only together with
    their success answer.  POST either answers 400, 401 or 500 and leaves
    the table as it is, or answers 201 with the created record, which is
    appended to the rows while every earlier row stays in place.  PUT
    either answers 400, 401, 403, 404 or 500 and leaves the table as it
    is, or answers 200 and keeps the number of rows, their identifiers
    and the identifier counter.  DELETE either answers 401, 403 or 404
    and leaves the table as it is, or answers 204. *)
Theorem table_changes_only_on_success
        (h : Host) (loadedAt now : TimeValue) (session : Api.Session)
        (i : Store.Id) (request : Api.RequestBody) (db : Store.Db) :
  (let '(resp, db') := Api.POST h loadedAt now session request db in
   (db' = db /\ In (Api.status resp) [400; 401; 500])
   \/ (exists e, resp = Api.json (Api.JEntry e) 201
                 /\ Store.rows db' = Store.rows db ++ [e]
                 /\ Store.id e = Store.nextId db
                 /\ Store.nextId db' = S (Store.nextId db)))
  /\ (let '(resp, db') := Api.PUT h loadedAt now session i request db in
      (db' = db /\ In (Api.status resp) [400; 401; 403; 404; 500])
      \/ (exists e, resp = Api.json (Api.JEntry e) 200
                    /\ map Store.id (Store.rows db') = map Store.id (Store.rows db)
                    /\ Store.nextId db' = Store.nextId db))
  /\ (let '(answer, db') := EntryRoute.DELETE session i db in
      (db' = db /\ In (EntryRoute.answerStatus answer) [401; 403; 404])
      \/ (answer = EntryRoute.NoContent
          /\ Store.nextId db' = Store.nextId db)).
Proof.
  split; [|split].
  - destruct (POST_cases h loadedAt now session request db)
      as [[S ->] | [(uid & e & S & ->) | (uid & ? & ? & v & e & db' & S & _ & _ & C & ->)]].
    + left. split; [reflexivity|]. cbn. auto.
    + left. split; [reflexivity|].
      destruct (POST_catch_status e) as [-> | ->]; cbn; auto.
    + right. exists e. apply create_inv in C. destruct C as (-> & -> & _).
      cbn. auto.
  - destruct (PUT_cases h loadedAt now session i request db)
      as [[S ->] | [(uid & S & [-> | [-> | [e ->]]])
                   | (uid & r & ? & ? & v & e & db' & S & _ & _ & _ & _ & C & ->)]].
    + left. split; [reflexivity|]. cbn. auto.
    + left. split; [reflexivity|]. cbn. auto 6.
    + left. split; [reflexivity|]. cbn. auto 6.
    + left. split; [reflexivity|].
      destruct (PUT_catch_status e) as [-> | ->]; cbn; auto 6.
    + right. exists e. apply update_inv in C.
      destruct C as (r0 & _ & _ & -> & _). cbn [Store.rows Store.nextId].
      split; [reflexivity|]. split; [|reflexivity].
      rewrite map_map. apply map_ext. intros a.
      destruct (Nat.eqb (Store.id a) i); reflexivity.
  - destruct (DELETE_cases session i db)
      as [[S ->] | [(uid & S & [-> | ->]) | (uid & r & S & _ & _ & ->)]].
    + left. split; [reflexivity|]. cbn. auto.
    + left. split; [reflexivity|]. cbn. auto.
    + left. split; [reflexivity|]. cbn. auto.
    + right. split; reflexivity.
Qed.

(** ** What a successful validation has checked *)

Lemma serverValidate_success_inv (loadedAt : TimeValue) (d c : JS.value)
      (v : Zod.Parsed) :
  serverValidate loadedAt d c = Zod.Success v ->
  d = JS.VDate (Some (Zod.pdate v))
  /\ c = JS.VNumber (JS.Finite (Zod.pcount v))
  /\ Zod.pdate v <= loadedAt
  /\ JS.isSafeInteger (Zod.pcount v) = true
  /\ JS.ltZ (Zod.pcount v) 0 = false.
Proof.
  intros H.
  assert (TY : exists t q, d = JS.VDate (Some t) /\ c = JS.VNumber (JS.Finite q)).
  { revert H. unfold serverValidate, Zod.safeParse.
    destruct d as [| | | | |[t|]|]; cbn [Zod.parseDate];
      try (destruct (Zod.parseNumber _ c); discriminate).
    destruct c as [| | |[| |q]| | |]; cbn [Zod.parseNumber];
      try (destruct (match Zod.finalize _ with [] => _ | _ => _ end); discriminate).
    intros _. eauto. }
  destruct TY as (t & q & -> & ->).
  unfold serverValidate in H. rewrite safeParse_typed in H.
  destruct (Zod.prefixIssues "date" (Spec.dateIssues loadedAt t)
            ++ Zod.prefixIssues "count" (Spec.countIssues q)) eqn:E;
    [|discriminate].
  injection H as <-. cbn [Zod.pdate Zod.pcount].
  apply app_eq_nil in E. destruct E as [ED EC].
  unfold Zod.prefixIssues in ED, EC.
  apply map_eq_nil in ED, EC.
  apply dateIssues_nil in ED. apply countIssues_nil in EC.
  destruct EC. auto.
Qed.

(** X4.  Validation of the two fields, for every pair of JavaScript values
    (whatever their types): the schema accepts exactly a valid Date that is
    not after the instant at which the module was evaluated, together with
    a finite number that is an integer between 0 and 2^53-1; the data it
    returns are the two inputs unchanged.  Strings, null, undefined,
    Invalid Date, NaN and the infinities are never accepted. *)
Theorem validation_accepts_exactly
        (loadedAt : TimeValue) (d c : JS.value) (v : Zod.Parsed) :
  serverValidate loadedAt d c = Zod.Success v
  <-> d = JS.VDate (Some (Zod.pdate v))
      /\ c = JS.VNumber (JS.Finite (Zod.pcount v))
      /\ Zod.pdate v <= loadedAt
      /\ exists z, (Zod.pcount v == inject_Z z)%Q /\ 0 <= z <= 2 ^ 53 - 1.
Proof.
  split.
  - intros H. apply serverValidate_success_inv in H.
    destruct H as (D & C & B & S & L).
    split; [exact D|]. split; [exact C|]. split; [exact B|].
    exists (JS.toInt (Zod.pcount v)).
    destruct (safe_nonnegative_toInt _ S L) as [E R].
    split; [exact E|]. unfold JS.MAX_SAFE_INTEGER in R. lia.
  - intros (D & C & B & z & E & R). rewrite D, C.
    unfold serverValidate. rewrite safeParse_typed.
    assert (ED : Spec.dateIssues loadedAt (Zod.pdate v) = [])
      by (apply dateIssues_nil; exact B).
    assert (EC : Spec.countIssues (Zod.pcount v) = []).
    { apply countIssues_nil. split.
      - apply isSafeInteger_spec. exists z. split; [exact E|lia].
      - destruct (JS.ltZ (Zod.pcount v) 0) eqn:L; [|reflexivity].
        apply ltZ_zero in L. rewrite E in L. change 0%Q with (inject_Z 0) in L.
        rewrite <- Zlt_Qlt in L. lia. }
    rewrite ED, EC. cbn. destruct v; reflexivity.
Qed.

(** ** The table invariant *)

Lemma dateOnly_idempotent (t : TimeValue) :
  Store.dateOnly (Store.dateOnly t) = Store.dateOnly t.
Proof.
  unfold Store.dateOnly. f_equal.
  unfold Day, msPerDay. zdiv.
Qed.

Lemma sessionUserId_nonempty (session : Api.Session) (uid : string) :
  Api.sessionUserId session = Some uid -> uid <> "".
Proof.
  unfold Api.sessionUserId. destruct session as [u|]; [|discriminate].
  destruct (String.eqb u "") eqn:E; [discriminate|].
  intros H. injection H as <-. apply String.eqb_neq. exact E.
Qed.

Lemma sameKey_spec (u : string) (d : TimeValue) (r : Store.EggProduction) :
  Store.sameKey u d r = true <-> Invariant.ownerDate r = (u, d).
Proof.
  unfold Store.sameKey, Invariant.ownerDate.
  rewrite andb_true_iff, String.eqb_eq, Z.eqb_eq. split.
  - intros [-> ->]. reflexivity.
  - intros H. injection H as -> ->. auto.
Qed.

Lemma NoDup_map_In_inj {A B : Type} (f : A -> B) (l : list A) (a b : A) :
  NoDup (map f l) -> In a l -> In b l -> f a = f b -> a = b.
Proof.
  induction l as [|x l IH]; cbn; [contradiction|].
  intros ND Ha Hb E. inversion ND as [|? ? NI ND']; subst.
  destruct Ha as [<-|Ha], Hb as [<-|Hb]; auto.
  - exfalso. apply NI. rewrite E. apply in_map. exact Hb.
  - exfalso. apply NI. rewrite <- E. apply in_map. exact Ha.
Qed.

Lemma NoDup_keys_filter {K : Type} (key : Store.EggProduction -> K)
      (keep : Store.EggProduction -> bool) (rows : list Store.EggProduction) :
  NoDup (map key rows) -> NoDup (map key (filter keep rows)).
Proof.
  induction rows as [|x rows IH]; cbn; [auto|].
  intros ND. inversion ND as [|? ? NI ND']; subst.
  destruct (keep x); cbn; [|auto].
  constructor; [|auto].
  intros IN. apply NI. apply in_map_iff in IN. destruct IN as (y & E & IN).
  apply filter_In in IN. rewrite <- E. apply in_map. tauto.
Qed.

Lemma wellFormed_create (db db' : Store.Db) (now : TimeValue) (u : string)
      (d : TimeValue) (c : Z) (e : Store.EggProduction) :
  Invariant.wellFormed db -> u <> "" -> 0 <= c <= JS.MAX_SAFE_INTEGER ->
  Store.create db now u d c = inr (e, db') ->
  Invariant.wellFormed db'.
Proof.
  intros (NI & LT & NK & OK) NE R C.
  apply create_inv in C. destruct C as (-> & -> & FRESH).
  unfold Invariant.wellFormed. cbn [Store.rows Store.nextId].
  split; [|split; [|split]].
  - rewrite map_app. cbn [map Store.id].
    apply NoDup_app; [exact NI|repeat constructor; intros []|].
    intros x IN [<-|[]]. apply in_map_iff in IN.
    destruct IN as (r & E & IN). specialize (LT r IN). lia.
  - intros r IN. apply in_app_or in IN. destruct IN as [IN|[<-|[]]].
    + specialize (LT r IN). lia.
    + cbn. lia.
  - rewrite map_app. cbn [map].
    apply NoDup_app; [exact NK|repeat constructor; intros []|].
    intros x IN [<-|[]]. apply in_map_iff in IN.
    destruct IN as (r & E & IN).
    assert (T : existsb (Store.sameKey u (Store.dateOnly d)) (Store.rows db) = true).
    { apply existsb_exists. exists r. split; [exact IN|].
      apply sameKey_spec. exact E. }
    congruence.
  - intros r IN. apply in_app_or in IN. destruct IN as [IN|[<-|[]]]; [auto|].
    unfold Invariant.rowOk. cbn.
    split; [symmetry; apply dateOnly_idempotent|]. split; [exact R|exact NE].
Qed.

Lemma wellFormed_update (db db' : Store.Db) (now : TimeValue) (i : Store.Id)
      (d : TimeValue) (c : Z) (e : Store.EggProduction) :
  Invariant.wellFormed db -> 0 <= c <= JS.MAX_SAFE_INTEGER ->
  Store.update db now i d c = inr (e, db') ->
  Invariant.wellFormed db'.
Proof.
  intros (NI & LT & NK & OK) R C.
  apply update_inv in C. destruct C as (r & F & -> & -> & FRESH).
  apply findUnique_id in F. destruct F as [ID INr].
  set (f := fun r' : Store.EggProduction =>
              if Nat.eqb (Store.id r') i
              then Store.setFields now (Store.dateOnly d) c r' else r').
  assert (FID : forall a, Store.id (f a) = Store.id a).
  { intros a. unfold f. destruct (Nat.eqb (Store.id a) i); reflexivity. }
  assert (OTHER : forall a, In a (Store.rows db) -> Store.id a <> i ->
                            Invariant.ownerDate a <> (Store.userId r, Store.dateOnly d)).
  { intros a IN NE K.
    assert (T : existsb (fun r' => negb (Nat.eqb (Store.id r') i)
                                   && Store.sameKey (Store.userId r) (Store.dateOnly d) r')
                        (Store.rows db) = true).
    { apply existsb_exists. exists a. split; [exact IN|].
      apply andb_true_iff. split.
      - apply negb_true_iff, Nat.eqb_neq. exact NE.
      - apply sameKey_spec. exact K. }
    congruence. }
  assert (SAME : forall a, In a (Store.rows db) -> Store.id a = i -> a = r).
  { intros a IN E. apply (NoDup_map_In_inj Store.id (Store.rows db)); auto.
    congruence. }
  assert (FKEY : forall a, In a (Store.rows db) ->
                           (Store.id a = i
                            /\ Invariant.ownerDate (f a)
                               = (Store.userId r, Store.dateOnly d))
                           \/ (Store.id a <> i /\ f a = a)).
  { intros a IN. unfold f. destruct (Nat.eqb (Store.id a) i) eqn:E.
    - apply Nat.eqb_eq in E. left. split; [exact E|].
      rewrite (SAME a IN E). reflexivity.
    - apply Nat.eqb_neq in E. right. auto. }
  unfold Invariant.wellFormed. cbn [Store.rows Store.nextId].
  split; [|split; [|split]].
  - rewrite map_map. rewrite (map_ext _ Store.id FID). exact NI.
  - intros a IN. apply in_map_iff in IN. destruct IN as (b & <- & IN).
    rewrite FID. auto.
  - clear OK LT INr. revert NI NK OTHER SAME FKEY.
    generalize (Store.rows db) as l.
    induction l as [|a l IH]; cbn [map]; [constructor|].
    intros NI NK OTHER SAME FKEY.
    inversion NI as [|? ? NIa NI']; subst.
    inversion NK as [|? ? NKa NK']; subst.
    constructor.
    + intros IN. apply in_map_iff in IN. destruct IN as (fb & E & IN).
      apply in_map_iff in IN. destruct IN as (b & <- & IN).
      destruct (FKEY a (or_introl eq_refl)) as [[Ea Ka]|[Ea Fa]];
        destruct (FKEY b (or_intror IN)) as [[Eb Kb]|[Eb Fb]].
      * apply NIa. rewrite Ea, <- Eb. apply in_map. exact IN.
      * rewrite Fb, Ka in E. apply (OTHER b (or_intror IN) Eb). exact E.
      * rewrite Fa, Kb in E. apply (OTHER a (or_introl eq_refl) Ea).
        symmetry. exact E.
      * rewrite Fa, Fb in E. apply NKa. rewrite <- E. apply in_map. exact IN.
    + apply IH; auto.
      * intros b IN. apply OTHER. right. exact IN.
      * intros b IN. apply SAME. right. exact IN.
      * intros b IN. apply FKEY. right. exact IN.
  - intros a IN. apply in_map_iff in IN. destruct IN as (b & <- & IN).
    specialize (OK b IN). unfold f.
    destruct (Nat.eqb (Store.id b) i); [|exact OK].
    destruct OK as (_ & _ & U). unfold Invariant.rowOk. cbn.
    split; [symmetry; apply dateOnly_idempotent|]. split; [exact R|exact U].
Qed.

Lemma wellFormed_filter (db : Store.Db) (p : Store.EggProduction -> bool) :
  Invariant.wellFormed db ->
  Invariant.wellFormed {| Store.rows := filter p (Store.rows db);
                          Store.nextId := Store.nextId db |}.
Proof.
  intros (NI & LT & NK & OK). unfold Invariant.wellFormed.
  cbn [Store.rows Store.nextId].
  split; [apply NoDup_keys_filter; exact NI|].
  split; [intros r IN; apply filter_In in IN; apply LT; tauto|].
  split; [apply NoDup_keys_filter; exact NK|].
  intros r IN. apply filter_In in IN. apply OK. tauto.
Qed.

Lemma validated_count_range (loadedAt : TimeValue) (d c : JS.value) (v : Zod.Parsed) :
  serverValidate loadedAt d c = Zod.Success v ->
  0 <= JS.toInt (Zod.pcount v) <= JS.MAX_SAFE_INTEGER.
Proof.
  intros H. apply serverValidate_success_inv in H.
  destruct H as (_ & _ & _ & S & L).
  apply (safe_nonnegative_toInt _ S L).
Qed.

Lemma springDb_wellFormed : Invariant.wellFormed Sample.springDb.
Proof.
  unfold Invariant.wellFormed. cbn [Sample.springDb Store.rows Store.nextId map].
  split; [|split; [|split]].
  - repeat constructor; cbn; intuition discriminate.
  - intros r [<-|[<-|[]]]; cbn; lia.
  - repeat constructor; cbn; intuition discriminate.
  - intros r [<-|[<-|[]]]; unfold Invariant.rowOk; cbn;
      (split; [vm_compute; reflexivity|]);
      (split; [vm_compute; split; discriminate|discriminate]).
Qed.

(** X5.  The table invariant is kept by every call of the three mutating
    handlers, whatever the session, the id and the request body: the
    identifiers stay pairwise distinct and below the identifier counter,
    no owner gets two records for one calendar date, every stored date is
    a midnight in UTC, every stored count is an integer between 0 and
    2^53-1, and every record has a non-empty owner. *)
Theorem handlers_keep_table_well_formed
        (h : Host) (loadedAt now : TimeValue) (session : Api.Session)
        (i : Store.Id) (request : Api.RequestBody) (db : Store.Db) :
  Invariant.wellFormed db ->
  Invariant.wellFormed (snd (Api.POST h loadedAt now session request db))
  /\ Invariant.wellFormed (snd (Api.PUT h loadedAt now session i request db))
  /\ Invariant.wellFormed (snd (EntryRoute.DELETE session i db)).
Proof.
  intros WF. split; [|split].
  - destruct (POST_cases h loadedAt now session request db)
      as [[S ->] | [(uid & e & S & ->)
                   | (uid & bd & bc & v & e & db' & S & _ & V & C & ->)]];
      cbn [snd]; try exact WF.
    apply (wellFormed_create db db' now uid (Zod.pdate v)
                             (JS.toInt (Zod.pcount v)) e WF).
    + apply (sessionUserId_nonempty session uid S).
    + apply (validated_count_range _ _ _ _ V).
    + exact C.
  - destruct (PUT_cases h loadedAt now session i request db)
      as [[S ->] | [(uid & S & [-> | [-> | [e ->]]])
                   | (uid & r & bd & bc & v & e & db' & S & _ & _ & _ & V & C & ->)]];
      cbn [snd]; try exact WF.
    apply (wellFormed_update db db' now i (Zod.pdate v)
                             (JS.toInt (Zod.pcount v)) e WF).
    + apply (validated_count_range _ _ _ _ V).
    + exact C.
  - destruct (DELETE_cases session i db)
      as [[S ->] | [(uid & S & [-> | ->]) | (uid & r & S & _ & _ & ->)]];
      cbn [snd]; try exact WF.
    apply wellFormed_filter. exact WF.
Qed.

(** X5, witness: user1 posts a count for 2025-06-01, moves record 1 to
    that date, and deletes record 1, each on the table of two records. *)
Lemma handlers_keep_table_well_formed_witness :
  Invariant.wellFormed Sample.springDb
  /\ Invariant.wellFormed
       (snd (Api.POST Sample.utcHost (utcInstant 2025 11 1 8 0)
                      (utcInstant 2025 11 5 12 0) (Some "user1")
                      (Api.BodyFields (JS.VString "2025-06-01")
                                      (JS.VNumber (JS.ofZ 7)))
                      Sample.springDb))
  /\ Invariant.wellFormed
       (snd (Api.PUT Sample.utcHost (utcInstant 2025 11 1 8 0)
                     (utcInstant 2025 11 5 12 0) (Some "user1") 1%nat
                     (Api.BodyFields (JS.VString "2025-06-01")
                                     (JS.VNumber (JS.ofZ 7)))
                     Sample.springDb))
  /\ Invariant.wellFormed (snd (EntryRoute.DELETE (Some "user1") 1%nat Sample.springDb)).
Proof.
  split; [exact springDb_wellFormed|].
  exact (handlers_keep_table_well_formed
           Sample.utcHost (utcInstant 2025 11 1 8 0) (utcInstant 2025 11 5 12 0)
           (Some "user1") 1%nat
           (Api.BodyFields (JS.VString "2025-06-01") (JS.VNumber (JS.ofZ 7)))
           Sample.springDb springDb_wellFormed).
Defined.

(** ** The list query *)

Lemma byDate_desc_total (a b : Store.EggProduction) :
  Store.byDate Store.desc a b = Gt -> Store.byDate Store.desc b a <> Gt.
Proof.
  cbn. intros H E. apply Z.compare_gt_iff in H. apply Z.compare_gt_iff in E. lia.
Qed.

Lemma byDate_desc_trans (a b c : Store.EggProduction) :
  JS.notAfter (Store.byDate Store.desc) a b ->
  JS.notAfter (Store.byDate Store.desc) b c ->
  JS.notAfter (Store.byDate Store.desc) a c.
Proof.
  unfold JS.notAfter. cbn. rewrite !Z.compare_gt_iff. lia.
Qed.

Lemma notAfter_desc (a b : Store.EggProduction) :
  JS.notAfter (Store.byDate Store.desc) a b <-> Store.date b <= Store.date a.
Proof.
  unfold JS.notAfter. cbn. rewrite Z.compare_gt_iff. lia.
Qed.

Lemma StronglySorted_impl {A : Type} (R R' : A -> A -> Prop) (l : list A) :
  (forall a b, R a b -> R' a b) -> StronglySorted R l -> StronglySorted R' l.
Proof.
  intros IMP. induction 1 as [|a l SS IH FA]; constructor; [exact IH|].
  eapply Forall_impl; [|exact FA]. intros b. apply IMP.
Qed.

Lemma wellFormed_NoDup_rows (db : Store.Db) :
  Invariant.wellFormed db -> NoDup (Store.rows db).
Proof. intros (NI & _). apply (NoDup_map_inv Store.id). exact NI. Qed.

Lemma sorted_strict_of_distinct (l : list Store.EggProduction) :
  NoDup l ->
  (forall a b, In a l -> In b l -> Store.date a = Store.date b -> a = b) ->
  StronglySorted (fun a b => Store.date b <= Store.date a) l ->
  StronglySorted (fun a b => Store.date b < Store.date a) l.
Proof.
  intros ND INJ SS. induction SS as [|a l SS IH FA]; constructor.
  - inversion ND; subst. apply IH; [assumption|].
    intros x y Hx Hy. apply INJ; right; assumption.
  - inversion ND as [|? ? NI ND']; subst.
    rewrite Forall_forall in *. intros b IN. specialize (FA b IN).
    destruct (Z.eq_dec (Store.date a) (Store.date b)) as [E|NE]; [|lia].
    exfalso. apply NI.
    rewrite (INJ a b (or_introl eq_refl) (or_intror IN) E). exact IN.
Qed.

Lemma matches_spec (uid : string) (lo hi : option TimeValue) (r : Store.EggProduction) :
  Store.matches {| Store.whereUserId := uid; Store.gte := lo; Store.lte := hi |} r
  = true
  <-> Store.userId r = uid
      /\ (forall t, lo = Some t -> t <= Store.date r)
      /\ (forall t, hi = Some t -> Store.date r <= t).
Proof.
  unfold Store.matches. cbn [Store.whereUserId Store.gte Store.lte].
  rewrite !andb_true_iff, String.eqb_eq. split.
  - intros [[U L] H]. split; [exact U|]. split.
    + intros t ->. apply Z.leb_le. exact L.
    + intros t ->. apply Z.leb_le. exact H.
  - intros (U & L & H). split; [split; [exact U|]|].
    + destruct lo as [t|]; [apply Z.leb_le; auto|reflexivity].
    + destruct hi as [t|]; [apply Z.leb_le; auto|reflexivity].
Qed.

Lemma GET_list_ok (h : Host) (session : Api.Session) (uid : string)
      (startDateStr endDateStr : option string) (lo hi : option TimeValue)
      (db : Store.Db) :
  Api.sessionUserId session = Some uid ->
  Api.queryBound h startDateStr = inr lo -> Api.queryBound h endDateStr = inr hi ->
  Api.GET_list h session startDateStr endDateStr db
  = Api.json (Api.JEntries
                (Store.findMany db {| Store.whereUserId := uid; Store.gte := lo;
                                      Store.lte := hi |} Store.desc)) 200.
Proof. intros S L H. unfold Api.GET_list. rewrite S, L, H. reflexivity. Qed.

(** X6.  The list query of a signed-in user on a well-formed table, with
    bounds that are absent, empty or parse as dates: the answer is 200
    with exactly the user's records whose date lies within the bounds
    (both inclusive), no record of another user among them, ordered by
    date strictly descending, hence at most one entry per calendar
    date. *)
Theorem GET_list_content
        (h : Host) (session : Api.Session) (uid : string)
        (startDateStr endDateStr : option string) (lo hi : option TimeValue)
        (db : Store.Db) :
  Invariant.wellFormed db ->
  Api.sessionUserId session = Some uid ->
  Api.queryBound h startDateStr = inr lo -> Api.queryBound h endDateStr = inr hi ->
  exists l,
    Api.GET_list h session startDateStr endDateStr db
    = Api.json (Api.JEntries l) 200
    /\ (forall r, In r l <->
                  In r (Store.rows db) /\ Store.userId r = uid
                  /\ (forall t, lo = Some t -> t <= Store.date r)
                  /\ (forall t, hi = Some t -> Store.date r <= t))
    /\ StronglySorted (fun a b => Store.date b < Store.date a) l.
Proof.
  intros WF S L H. eexists.
  split; [apply (GET_list_ok h session uid _ _ lo hi db S L H)|].
  assert (IN : forall r,
             In r (Store.findMany db {| Store.whereUserId := uid; Store.gte := lo;
                                        Store.lte := hi |} Store.desc) <->
             In r (Store.rows db) /\ Store.userId r = uid
             /\ (forall t, lo = Some t -> t <= Store.date r)
             /\ (forall t, hi = Some t -> Store.date r <= t)).
  { intros r. rewrite findMany_In, matches_spec. reflexivity. }
  split; [exact IN|].
  apply sorted_strict_of_distinct.
  - unfold Store.findMany.
    eapply Permutation_NoDup; [apply Permutation_sym, sort_perm|].
    apply NoDup_filter. apply wellFormed_NoDup_rows. exact WF.
  - intros a b Ha Hb E. apply IN in Ha, Hb.
    destruct Ha as (Ia & Ua & _), Hb as (Ib & Ub & _).
    destruct WF as (_ & _ & NK & _).
    apply (NoDup_map_In_inj Invariant.ownerDate (Store.rows db)); auto.
    unfold Invariant.ownerDate. congruence.
  - eapply StronglySorted_impl; [apply notAfter_desc|].
    apply sort_sorted; [apply byDate_desc_total|apply byDate_desc_trans].
Qed.

(** X6, witness: user1 lists the records from 2025-03-01 on. *)
Lemma GET_list_content_witness :
  Invariant.wellFormed Sample.springDb
  /\ Api.sessionUserId (Some "user1") = Some "user1"
  /\ Api.queryBound Sample.utcHost (Some "2025-03-01")
     = inr (Some (utcMidnight 2025 3 1))
  /\ Api.queryBound Sample.utcHost None = inr None
  /\ exists l,
       Api.GET_list Sample.utcHost (Some "user1") (Some "2025-03-01") None
                    Sample.springDb
       = Api.json (Api.JEntries l) 200
       /\ (forall r, In r l <->
                     In r (Store.rows Sample.springDb) /\ Store.userId r = "user1"
                     /\ (forall t, Some (utcMidnight 2025 3 1) = Some t
                                   -> t <= Store.date r)
                     /\ (forall t, @None TimeValue = Some t -> Store.date r <= t))
       /\ StronglySorted (fun a b => Store.date b < Store.date a) l.
Proof.
  split; [exact springDb_wellFormed|].
  split; [reflexivity|]. split; [vm_compute; reflexivity|]. split; [reflexivity|].
  apply (GET_list_content Sample.utcHost (Some "user1") "user1"
                          (Some "2025-03-01") None
                          (Some (utcMidnight 2025 3 1)) None Sample.springDb
                          springDb_wellFormed eq_refl);
    [vm_compute; reflexivity|reflexivity].
Defined.

(** ** Create, read back, delete *)

Lemma find_id_app_new (l : list Store.EggProduction) (e : Store.EggProduction) :
  (forall r, In r l -> Store.id r <> Store.id e) ->
  find (fun r => Nat.eqb (Store.id r) (Store.id e)) (l ++ [e]) = Some e.
Proof.
  induction l as [|a l IH]; cbn; intros NE.
  - rewrite Nat.eqb_refl. reflexivity.
  - destruct (Nat.eqb (Store.id a) (Store.id e)) eqn:E.
    + apply Nat.eqb_eq in E. exfalso. apply (NE a); auto.
    + apply IH. intros r IN. apply NE. auto.
Qed.

Lemma filter_id_app_new (l : list Store.EggProduction) (e : Store.EggProduction) :
  (forall r, In r l -> Store.id r <> Store.id e) ->
  filter (fun r => negb (Nat.eqb (Store.id r) (Store.id e))) (l ++ [e]) = l.
Proof.
  induction l as [|a l IH]; cbn; intros NE.
  - rewrite Nat.eqb_refl. reflexivity.
  - destruct (Nat.eqb (Store.id a) (Store.id e)) eqn:E; cbn.
    + apply Nat.eqb_eq in E. exfalso. apply (NE a); auto.
    + f_equal. apply IH. intros r IN. apply NE. auto.
Qed.

(** X7.  A POST answered with 201 on a well-formed table: the answer
    carries the created record, whose identifier is new; looking the
    identifier up finds the record, the unbounded list query of the same
    session contains it, and a DELETE of it by the same session is
    answered with 204 and restores the rows of before (the identifier
    counter stays advanced, so the identifier is not handed out again). *)
Theorem POST_then_read_and_delete
        (h : Host) (loadedAt now : TimeValue) (session : Api.Session)
        (request : Api.RequestBody) (db : Store.Db) :
  Invariant.wellFormed db ->
  Api.status (fst (Api.POST h loadedAt now session request db)) = 201 ->
  exists e,
    let db' := snd (Api.POST h loadedAt now session request db) in
    Api.body (fst (Api.POST h loadedAt now session request db)) = Api.JEntry e
    /\ Api.sessionUserId session = Some (Store.userId e)
    /\ Store.findUnique db (Store.id e) = None
    /\ Store.findUnique db' (Store.id e) = Some e
    /\ (exists l, Api.GET_list h session None None db' = Api.json (Api.JEntries l) 200
                  /\ In e l)
    /\ EntryRoute.DELETE session (Store.id e) db'
       = (EntryRoute.NoContent,
          {| Store.rows := Store.rows db; Store.nextId := S (Store.nextId db) |}).
Proof.
  intros WF ST.
  destruct (POST_cases h loadedAt now session request db)
    as [[SU E] | [(uid & e & SU & E)
                | (uid & bd & bc & v & e & db' & SU & _ & V & C & E)]];
    rewrite E in *; cbn [fst snd] in *.
  - discriminate.
  - destruct (POST_catch_status e) as [X | X]; rewrite X in ST; discriminate.
  - exists e. cbn zeta. apply create_inv in C. destruct C as (Ee & -> & _).
    assert (IDe : Store.id e = Store.nextId db) by (rewrite Ee; reflexivity).
    assert (Ue : Store.userId e = uid) by (rewrite Ee; reflexivity).
    assert (NEW : forall r, In r (Store.rows db) -> Store.id r <> Store.id e).
    { intros r IN. destruct WF as (_ & LT & _). specialize (LT r IN). lia. }
    assert (FIND : Store.findUnique
                     {| Store.rows := Store.rows db ++ [e];
                        Store.nextId := S (Store.nextId db) |} (Store.id e) = Some e).
    { unfold Store.findUnique. cbn [Store.rows]. apply find_id_app_new. exact NEW. }
    split; [reflexivity|]. split; [rewrite Ue; exact SU|].
    split.
    { unfold Store.findUnique.
      destruct (find _ (Store.rows db)) as [r|] eqn:F; [|reflexivity].
      apply find_some in F. destruct F as [IN EQ]. apply Nat.eqb_eq in EQ.
      exfalso. apply (NEW r IN EQ). }
    split; [exact FIND|]. split.
    + eexists. split.
      * apply (GET_list_ok h session uid None None None None _ SU); reflexivity.
      * apply findMany_In. cbn [Store.rows]. split.
        -- apply in_or_app. right. left. reflexivity.
        -- apply matches_spec. split; [exact Ue|]. split; intros t; discriminate.
    + rewrite (DELETE_owner session uid (Store.id e) _ e SU FIND Ue).
      cbn [Store.rows Store.nextId]. rewrite (filter_id_app_new _ e NEW).
      reflexivity.
Qed.

(** X7, witness: user1 records 7 eggs for 2025-06-01. *)
Lemma POST_then_read_and_delete_witness :
  Invariant.wellFormed Sample.springDb
  /\ Api.status
       (fst (Api.POST Sample.utcHost (utcInstant 2025 11 1 8 0)
                      (utcInstant 2025 11 5 12 0) (Some "user1")
                      (Api.BodyFields (JS.VString "2025-06-01")
                                      (JS.VNumber (JS.ofZ 7)))
                      Sample.springDb)) = 201
  /\ exists e,
       let db' :=
         snd (Api.POST Sample.utcHost (utcInstant 2025 11 1 8 0)
                       (utcInstant 2025 11 5 12 0) (Some "user1")
                       (Api.BodyFields (JS.VString "2025-06-01")
                                       (JS.VNumber (JS.ofZ 7)))
                       Sample.springDb) in
       Api.body
         (fst (Api.POST Sample.utcHost (utcInstant 2025 11 1 8 0)
                        (utcInstant 2025 11 5 12 0) (Some "user1")
                        (Api.BodyFields (JS.VString "2025-06-01")
                                        (JS.VNumber (JS.ofZ 7)))
                        Sample.springDb)) = Api.JEntry e
       /\ Api.sessionUserId (Some "user1") = Some (Store.userId e)
       /\ Store.findUnique Sample.springDb (Store.id e) = None
       /\ Store.findUnique db' (Store.id e) = Some e
       /\ (exists l, Api.GET_list Sample.utcHost (Some "user1") None None db'
                     = Api.json (Api.JEntries l) 200
                     /\ In e l)
       /\ EntryRoute.DELETE (Some "user1") (Store.id e) db'
          = (EntryRoute.NoContent,
             {| Store.rows := Store.rows Sample.springDb;
                Store.nextId := S (Store.nextId Sample.springDb) |}).
Proof.
  split; [exact springDb_wellFormed|].
  split; [vm_compute; reflexivity|].
  apply (POST_then_read_and_delete
           Sample.utcHost (utcInstant 2025 11 1 8 0) (utcInstant 2025 11 5 12 0)
           (Some "user1")
           (Api.BodyFields (JS.VString "2025-06-01") (JS.VNumber (JS.ofZ 7)))
           Sample.springDb springDb_wellFormed).
  vm_compute. reflexivity.
Defined.

(** ** The messages of a failed request, and what the dialog shows *)

Lemma parseDate_issues (loadedAt : TimeValue) (d : JS.value) (j : Zod.issue) :
  In j (Zod.issuesOf
          (Zod.parseDate (Zod.dateField (Validations.eggProductionSchema loadedAt)) d)) ->
  Zod.path j = []
  /\ (Zod.message j = Validations.msgDateInFuture
      \/ Zod.message j = Zod.invalidTypeMessage "date" d).
Proof.
  destruct d as [| | | | |[t|]|];
    try (cbn; intros [<-|[]]; cbn; auto).
  rewrite parseDate_date. unfold Spec.dateIssues.
  destruct (t <=? loadedAt); cbn; [intros []|].
  intros [<-|[]]; cbn; auto.
Qed.

Lemma parseNumber_issues (loadedAt : TimeValue) (c : JS.value) (j : Zod.issue) :
  In j (Zod.issuesOf
          (Zod.parseNumber (Zod.countField (Validations.eggProductionSchema loadedAt)) c)) ->
  Zod.path j = []
  /\ (Zod.message j = Validations.msgCountNotInteger
      \/ Zod.message j = Validations.msgCountNegative
      \/ Zod.message j = Zod.invalidTypeMessage "number" c).
Proof.
  destruct c as [| | |[| |q]| | |];
    try (cbn; intros [<-|[]]; cbn; auto).
  rewrite parseNumber_count. unfold Spec.countIssues.
  destruct (JS.isInteger q); cbn [negb].
  - destruct (JS.isSafeInteger q), (JS.ltZ q 0); cbn;
      intros H; intuition (subst; cbn; auto).
  - cbn. intros [<-|[]]; cbn; auto.
Qed.

Lemma serverValidate_issues (loadedAt : TimeValue) (d c : JS.value) (i : Zod.issue) :
  In i (Zod.issues (serverValidate loadedAt d c)) ->
  (Zod.path i = ["date"]
   /\ (Zod.message i = Validations.msgDateInFuture
       \/ Zod.message i = Zod.invalidTypeMessage "date" d))
  \/ (Zod.path i = ["count"]
      /\ (Zod.message i = Validations.msgCountNotInteger
          \/ Zod.message i = Validations.msgCountNegative
          \/ Zod.message i = Zod.invalidTypeMessage "number" c)).
Proof.
  unfold serverValidate, Zod.safeParse.
  set (rd := Zod.parseDate _ d). set (rc := Zod.parseNumber _ c).
  assert (G : In i (Zod.prefixIssues "date" (Zod.issuesOf rd)
                    ++ Zod.prefixIssues "count" (Zod.issuesOf rc)) ->
              (Zod.path i = ["date"]
               /\ (Zod.message i = Validations.msgDateInFuture
                   \/ Zod.message i = Zod.invalidTypeMessage "date" d))
              \/ (Zod.path i = ["count"]
                  /\ (Zod.message i = Validations.msgCountNotInteger
                      \/ Zod.message i = Validations.msgCountNegative
                      \/ Zod.message i = Zod.invalidTypeMessage "number" c))).
  { intros IN. apply in_app_or in IN. destruct IN as [IN|IN];
      apply In_prefixIssues in IN; destruct IN as (j & IN & ->); cbn.
    - left. destruct (parseDate_issues loadedAt d j IN) as [-> M]. auto.
    - right. destruct (parseNumber_issues loadedAt c j IN) as [-> M]. auto. }
  destruct rd as [ld|t], rc as [lc|q]; cbn [Zod.issues]; exact G.
Qed.

Lemma serverValidate_failure_nonempty (loadedAt : TimeValue) (d c : JS.value)
      (l : list Zod.issue) :
  serverValidate loadedAt d c = Zod.Failure l -> l <> [].
Proof.
  unfold serverValidate, Zod.safeParse.
  assert (PD : forall l', Zod.parseDate
                            (Zod.dateField (Validations.eggProductionSchema loadedAt)) d
                          = inl l' -> l' <> []).
  { intros l'. destruct d as [| | | | |[t|]|]; cbn [Zod.parseDate];
      try (intros H; injection H as <-; discriminate).
    destruct (Zod.finalize _); [discriminate|].
    intros H; injection H as <-; discriminate. }
  assert (PN : forall l', Zod.parseNumber
                            (Zod.countField (Validations.eggProductionSchema loadedAt)) c
                          = inl l' -> l' <> []).
  { intros l'. destruct c as [| | |[| |q]| | |]; cbn [Zod.parseNumber];
      try (intros H; injection H as <-; discriminate).
    destruct (Zod.finalize _); [discriminate|].
    intros H; injection H as <-; discriminate. }
  destruct (Zod.parseDate _ d) as [ld|t] eqn:ED;
    destruct (Zod.parseNumber _ c) as [lc|q] eqn:EC;
    try discriminate; intros H; injection H as <-; cbn [Zod.issuesOf];
    unfold Zod.prefixIssues; intros E.
  - apply app_eq_nil in E. destruct E as [E1 _]. apply map_eq_nil in E1.
    apply (PD ld eq_refl E1).
  - apply app_eq_nil in E. destruct E as [E1 _]. apply map_eq_nil in E1.
    apply (PD ld eq_refl E1).
  - cbn in E. apply map_eq_nil in E. apply (PN lc eq_refl E).
Qed.

(** The texts the routes put into their answers are left as they are by
    the dialog's [formatErrorMessage]. *)
Lemma formatErrorMessage_type_message (expected : string) (v : JS.value) :
  expected = "date" \/ expected = "number" ->
  Client.formatErrorMessage (Zod.invalidTypeMessage expected v)
  = Zod.invalidTypeMessage expected v
  /\ Zod.invalidTypeMessage expected v <> "".
Proof.
  intros [-> | ->]; destruct v as [| | |[| |q]| |tv|];
    split; try (vm_compute; reflexivity); discriminate.
Qed.

Lemma formatZodError_of_issue (loadedAt : TimeValue) (d c : JS.value) (i : Zod.issue) :
  In i (Zod.issues (serverValidate loadedAt d c)) ->
  (Api.field (Api.formatZodError i) = "date"
   \/ Api.field (Api.formatZodError i) = "count")
  /\ Client.formatErrorMessage (Api.message (Api.formatZodError i))
     = Api.message (Api.formatZodError i)
  /\ Api.message (Api.formatZodError i) <> "".
Proof.
  intros IN. apply serverValidate_issues in IN.
  destruct i as [code path msg]. cbn [Zod.path Zod.message] in IN.
  destruct IN as [[-> [-> | ->]] | [-> [-> | [-> | ->]]]].
  - split; [left; reflexivity|]. split; [vm_compute; reflexivity|discriminate].
  - split; [left; reflexivity|].
    destruct d as [| | |[| |q]| |tv|];
      (split; [vm_compute; reflexivity|discriminate]).
  - split; [right; reflexivity|]. split; [vm_compute; reflexivity|discriminate].
  - split; [right; reflexivity|]. split; [vm_compute; reflexivity|discriminate].
  - split; [right; reflexivity|].
    destruct c as [| | |[| |q]| |tv|];
      (split; [vm_compute; reflexivity|discriminate]).
Qed.

Lemma catch_shown (catch : Api.Thrown -> Api.Response) (dup other : Api.Response)
      (loadedAt : TimeValue) (d c : JS.value) (e : Api.Thrown) :
  (forall l, catch (Api.ZodError l) = Api.validationFailed l) ->
  (forall msg, catch (Api.Error msg) = dup \/ catch (Api.Error msg) = other) ->
  (e = Api.ZodError (Zod.issues (serverValidate loadedAt d c))
   /\ Zod.issues (serverValidate loadedAt d c) <> []
   \/ exists msg, e = Api.Error msg) ->
  forall shown : Api.Json -> Prop,
    shown (Api.body dup) -> shown (Api.body other) ->
    (forall l, l <> [] ->
               (forall i, In i l -> In i (Zod.issues (serverValidate loadedAt d c))) ->
               shown (Api.body (Api.validationFailed l))) ->
    shown (Api.body (catch e)).
Proof.
  intros HZ HE [[-> NE] | [msg ->]] shown SD SO SV.
  - rewrite HZ. apply SV; auto.
  - destruct (HE msg) as [-> | ->]; assumption.
Qed.

(** X8.  What the dialog shows after a submission.  An answer of POST or
    PUT that is not a success is an error body; if it carries field
    errors there is at least one, each names the field date or count,
    and the dialog shows the message of the first of them word for word;
    otherwise the dialog shows the error text word for word.  The
    dialog's own table of friendlier wordings never applies to an answer
    of these two routes (the routes have reworded the schema's messages
    already), and its fallback text is never shown for them. *)
Theorem dialog_shows_server_text
        (h : Host) (loadedAt now : TimeValue) (session : Api.Session)
        (i : Store.Id) (request : Api.RequestBody) (db : Store.Db)
        (response : Api.Response) :
  response = fst (Api.POST h loadedAt now session request db)
  \/ response = fst (Api.PUT h loadedAt now session i request db) ->
  if Dialog.ok response
  then exists e, Api.body response = Api.JEntry e
  else
    exists error details,
      Api.body response = Api.JError error details
      /\ match details with
         | Some l =>
             (exists first rest,
                l = first :: rest
                /\ Dialog.errorMessage (Api.body response) = Api.message first)
             /\ forall fe, In fe l -> Api.field fe = "date" \/ Api.field fe = "count"
         | None => Dialog.errorMessage (Api.body response) = error
         end.
Proof.
  set (shown := fun b : Api.Json =>
    exists error details,
      b = Api.JError error details
      /\ match details with
         | Some l =>
             (exists first rest,
                l = first :: rest /\ Dialog.errorMessage b = Api.message first)
             /\ forall fe, In fe l -> Api.field fe = "date" \/ Api.field fe = "count"
         | None => Dialog.errorMessage b = error
         end).
  assert (PLAIN : forall (msg : string) (st : Z),
             msg <> "" -> Client.formatErrorMessage msg = msg ->
             shown (Api.body (Api.json (Api.JError msg None) st))).
  { intros msg st NE FE. exists msg, None. split; [reflexivity|].
    cbn. destruct (String.eqb msg "") eqn:E; [|exact FE].
    apply String.eqb_eq in E. contradiction. }
  assert (VF : forall d c l,
             l <> [] ->
             (forall j, In j l -> In j (Zod.issues (serverValidate loadedAt d c))) ->
             shown (Api.body (Api.validationFailed l))).
  { intros d c l NE SUB. destruct l as [|j l]; [contradiction|].
    exists "Validation failed", (Some (map Api.formatZodError (j :: l))).
    split; [reflexivity|]. split.
    - exists (Api.formatZodError j), (map Api.formatZodError l).
      split; [reflexivity|].
      destruct (formatZodError_of_issue loadedAt d c j (SUB j (or_introl eq_refl)))
        as (_ & FE & NEm).
      cbn. destruct (String.eqb (Api.message (Api.formatZodError j)) "") eqn:E;
        [|exact FE].
      apply String.eqb_eq in E. contradiction.
    - intros fe IN. apply in_map_iff in IN. destruct IN as (k & <- & IN).
      apply (formatZodError_of_issue loadedAt d c k (SUB k IN)). }
  assert (DUPC : shown (Api.body Api.duplicateOnCreate)).
  { eexists _, (Some _). split; [reflexivity|]. split.
    - eexists _, _. split; reflexivity.
    - intros fe [<-|[]]. left. reflexivity. }
  assert (DUPU : shown (Api.body Api.duplicateOnUpdate)).
  { eexists _, (Some _). split; [reflexivity|]. split.
    - eexists _, _. split; reflexivity.
    - intros fe [<-|[]]. left. reflexivity. }
  assert (CATCHP : forall d c e,
             (e = Api.ZodError (Zod.issues (serverValidate loadedAt d c))
              /\ Zod.issues (serverValidate loadedAt d c) <> []
              \/ exists msg, e = Api.Error msg) ->
             shown (Api.body (Api.POST_catch e))).
  { intros d c e HE.
    apply (catch_shown Api.POST_catch Api.duplicateOnCreate
             (Api.json (Api.JError "Failed to create entry. Please try again." None) 500)
             loadedAt d c e); auto.
    - intros msg. cbn. destruct (Api.isUniqueViolation msg); auto.
    - apply PLAIN; [discriminate|reflexivity].
    - intros l NE SUB. apply (VF d c l NE SUB). }
  assert (CATCHU : forall d c e,
             (e = Api.ZodError (Zod.issues (serverValidate loadedAt d c))
              /\ Zod.issues (serverValidate loadedAt d c) <> []
              \/ exists msg, e = Api.Error msg) ->
             shown (Api.body (Api.PUT_catch e))).
  { intros d c e HE.
    apply (catch_shown Api.PUT_catch Api.duplicateOnUpdate
             (Api.json (Api.JError "Failed to update entry. Please try again." None) 500)
             loadedAt d c e); auto.
    - intros msg. cbn. destruct (Api.isUniqueViolation msg); auto.
    - apply PLAIN; [discriminate|reflexivity].
    - intros l NE SUB. apply (VF d c l NE SUB). }
  assert (OKF : forall e, Dialog.ok (Api.POST_catch e) = false
                          /\ Dialog.ok (Api.PUT_catch e) = false).
  { intros e. unfold Dialog.ok.
    destruct (POST_catch_status e) as [-> | ->],
             (PUT_catch_status e) as [-> | ->]; split; reflexivity. }
  intros [-> | ->].
  - unfold Api.POST, Api.schemaParse.
    destruct (Api.sessionUserId session) as [uid|]; cbn [fst];
      [|apply (PLAIN _ 401); [discriminate|reflexivity]].
    destruct request as [|bdate bcount]; cbn [fst].
    + rewrite (proj1 (OKF _)). apply (CATCHP JS.VNull JS.VNull). right. eauto.
    + fold (serverValidate loadedAt (Api.parseBodyDate h bdate) bcount).
      destruct (serverValidate loadedAt (Api.parseBodyDate h bdate) bcount)
        as [v|l] eqn:V; cbn [fst].
      * destruct (Store.create _ _ _ _ _) as [msg|[e db']]; cbn [fst].
        -- rewrite (proj1 (OKF _)). apply (CATCHP JS.VNull JS.VNull). right. eauto.
        -- cbn. eauto.
      * rewrite (proj1 (OKF _)).
        apply (CATCHP (Api.parseBodyDate h bdate) bcount). left.
        rewrite V. cbn [Zod.issues]. split; [reflexivity|].
        apply (serverValidate_failure_nonempty _ _ _ _ V).
  - unfold Api.PUT, Api.schemaParse.
    destruct (Api.sessionUserId session) as [uid|]; cbn [fst];
      [|apply (PLAIN _ 401); [discriminate|reflexivity]].
    destruct (Store.findUnique db i) as [r|]; cbn [fst];
      [|apply (PLAIN _ 404); [discriminate|reflexivity]].
    destruct (negb (String.eqb (Store.userId r) uid)); cbn [fst];
      [apply (PLAIN _ 403); [discriminate|reflexivity]|].
    destruct request as [|bdate bcount]; cbn [fst].
    + rewrite (proj2 (OKF _)). apply (CATCHU JS.VNull JS.VNull). right. eauto.
    + fold (serverValidate loadedAt (Api.parseBodyDate h bdate) bcount).
      destruct (serverValidate loadedAt (Api.parseBodyDate h bdate) bcount)
        as [v|l] eqn:V; cbn [fst].
      * destruct (Store.update _ _ _ _ _) as [msg|[e db']]; cbn [fst].
        -- rewrite (proj2 (OKF _)). apply (CATCHU JS.VNull JS.VNull). right. eauto.
        -- cbn. eauto.
      * rewrite (proj2 (OKF _)).
        apply (CATCHU (Api.parseBodyDate h bdate) bcount). left.
        rewrite V. cbn [Zod.issues]. split; [reflexivity|].
        apply (serverValidate_failure_nonempty _ _ _ _ V).
Qed.

(** X8, witness: the answer to a POST without a session. *)
Lemma dialog_shows_server_text_witness :
  (Api.unauthorized
   = fst (Api.POST Sample.utcHost 0 0 None Api.BodyThrows Sample.emptyDb)
   \/ Api.unauthorized
      = fst (Api.PUT Sample.utcHost 0 0 None 0%nat Api.BodyThrows Sample.emptyDb))
  /\ exists error details,
       Api.body Api.unauthorized = Api.JError error details
       /\ match details with
          | Some l =>
              (exists first rest,
                 l = first :: rest
                 /\ Dialog.errorMessage (Api.body Api.unauthorized)
                    = Api.message first)
              /\ forall fe, In fe l -> Api.field fe = "date" \/ Api.field fe = "count"
          | None => Dialog.errorMessage (Api.body Api.unauthorized) = error
          end.
Proof.
  split; [left; reflexivity|].
  exact (dialog_shows_server_text Sample.utcHost 0 0 None 0%nat Api.BodyThrows
                                  Sample.emptyDb Api.unauthorized
                                  (or_introl eq_refl)).
Defined.

(** ** Updating a record without moving it *)

Lemma rowOk_dateOnly (db : Store.Db) (r : Store.EggProduction) :
  Invariant.wellFormed db -> In r (Store.rows db) ->
  Store.dateOnly (Store.date r) = Store.date r.
Proof. intros (_ & _ & _ & OK) IN. symmetry. apply (OK r IN). Qed.

Lemma update_same_date (db : Store.Db) (now t : TimeValue) (z : Z) (i : Store.Id)
      (r : Store.EggProduction) :
  Invariant.wellFormed db ->
  Store.findUnique db i = Some r -> Store.dateOnly t = Store.date r ->
  Store.update db now i t z
  = inr (Store.setFields now (Store.date r) z r,
         {| Store.rows :=
              map (fun r' => if Nat.eqb (Store.id r') i
                             then Store.setFields now (Store.date r) z r'
                             else r')
                  (Store.rows db);
            Store.nextId := Store.nextId db |}).
Proof.
  intros WF F D.
  pose proof (findUnique_id db i r F) as [ID INr].
  assert (NOCOLL : existsb (fun r' => negb (Nat.eqb (Store.id r') i)
                                      && Store.sameKey (Store.userId r)
                                                       (Store.dateOnly t) r')
                           (Store.rows db) = false).
  { destruct (existsb _ _) eqn:E; [|reflexivity].
    apply update_collision_spec in E. destruct E as (r' & IN & NE & U' & D').
    exfalso. apply NE. rewrite <- ID. f_equal.
    destruct WF as (_ & _ & NK & _).
    apply (NoDup_map_In_inj Invariant.ownerDate (Store.rows db)); auto.
    unfold Invariant.ownerDate. congruence. }
  unfold Store.update. rewrite F. cbv zeta. rewrite NOCOLL, D. reflexivity.
Qed.

Lemma findUnique_after_update (db : Store.Db) (now d : TimeValue) (z : Z)
      (i : Store.Id) (r : Store.EggProduction) :
  Store.findUnique db i = Some r ->
  Store.findUnique
    {| Store.rows :=
         map (fun r' => if Nat.eqb (Store.id r') i
                        then Store.setFields now d z r' else r')
             (Store.rows db);
       Store.nextId := Store.nextId db |} i
  = Some (Store.setFields now d z r).
Proof.
  intros F. pose proof (findUnique_id db i r F) as [ID _].
  unfold Store.findUnique. cbn [Store.rows]. rewrite find_id_map.
  - fold (Store.findUnique db i). rewrite F. cbn.
    rewrite ID, Nat.eqb_refl. reflexivity.
  - intros a. destruct (Nat.eqb (Store.id a) i); reflexivity.
Qed.

Lemma PUT_same_date
        (h : Host) (loadedAt now : TimeValue) (session : Api.Session)
        (uid s : string) (t : TimeValue) (z : Z) (i : Store.Id)
        (r : Store.EggProduction) (db : Store.Db) :
  Invariant.wellFormed db ->
  Api.sessionUserId session = Some uid ->
  Store.findUnique db i = Some r -> Store.userId r = uid ->
  Date_parse h s = Some t -> Store.dateOnly t = Store.date r -> t <= loadedAt ->
  0 <= z <= 2 ^ 53 - 1 ->
  exists db',
    Api.PUT h loadedAt now session i
            (Api.BodyFields (JS.VString s) (JS.VNumber (JS.ofZ z))) db
    = (Api.json (Api.JEntry (Store.setFields now (Store.date r) z r)) 200, db')
    /\ Store.findUnique db' i = Some (Store.setFields now (Store.date r) z r)
    /\ Invariant.wellFormed db'.
Proof.
  intros WF SU F U P D B R.
  pose proof (update_same_date db now t z i r WF F D) as UPD.
  eexists. split; [|split].
  - rewrite (PUT_owner h loadedAt now session uid i _ _ db r SU F U).
    cbn [Api.parseBodyDate]. rewrite P.
    rewrite (accepts_nonnegative_safe loadedAt t z R B).
    cbn [Zod.pdate Zod.pcount]. rewrite toInt_inject_Z, UPD. reflexivity.
  - apply findUnique_after_update. exact F.
  - apply (wellFormed_update db _ now i t z
                             (Store.setFields now (Store.date r) z r) WF);
      [|exact UPD].
    unfold JS.MAX_SAFE_INTEGER. lia.
Qed.

(** X9.  On a well-formed table the owner of a record can always change
    its count while leaving it on its calendar date: a PUT whose date
    parses to any instant of the record's date that the schema accepts,
    with an integer count between 0 and 2^53-1, is answered with 200 and
    the record with the new count; the record never collides with itself
    on the (owner, date) index.  After it the id is found with the new
    count, and the table is still well formed. *)
Theorem PUT_same_date_succeeds
        (h : Host) (loadedAt now : TimeValue) (session : Api.Session)
        (uid s : string) (t : TimeValue) (z : Z) (i : Store.Id)
        (r : Store.EggProduction) (db : Store.Db) :
  Invariant.wellFormed db ->
  Api.sessionUserId session = Some uid ->
  Store.findUnique db i = Some r -> Store.userId r = uid ->
  Date_parse h s = Some t -> Store.dateOnly t = Store.date r -> t <= loadedAt ->
  0 <= z <= 2 ^ 53 - 1 ->
  exists db',
    Api.PUT h loadedAt now session i
            (Api.BodyFields (JS.VString s) (JS.VNumber (JS.ofZ z))) db
    = (Api.json (Api.JEntry (Store.setFields now (Store.date r) z r)) 200, db')
    /\ Store.findUnique db' i = Some (Store.setFields now (Store.date r) z r)
    /\ Invariant.wellFormed db'.
Proof.
  intros WF SU F U P D B R.
  exists {| Store.rows :=
              map (fun r' => if Nat.eqb (Store.id r') i
                             then Store.setFields now (Store.date r) z r'
                             else r')
                  (Store.rows db);
            Store.nextId := Store.nextId db |}.
  assert (VALID : serverValidate loadedAt (JS.VDate (Some t)) (JS.VNumber (JS.ofZ z))
                  = Zod.Success {| Zod.pdate := t; Zod.pcount := inject_Z z |})
    by (apply accepts_nonnegative_safe; assumption).
  assert (UPD := update_same_date db now t z i r WF F D).
  split; [|split].
  - rewrite (PUT_owner h loadedAt now session uid i
                       (JS.VString s) (JS.VNumber (JS.ofZ z)) db r SU F U).
    cbn [Api.parseBodyDate]. rewrite P, VALID.
    cbn [Zod.pdate Zod.pcount]. rewrite toInt_inject_Z, UPD. reflexivity.
  - exact (findUnique_after_update db now (Store.date r) z i r F).
  - assert (RC : 0 <= z <= JS.MAX_SAFE_INTEGER)
      by (unfold JS.MAX_SAFE_INTEGER; lia).
    exact (wellFormed_update db _ now i t z _ WF RC UPD).
Qed.

(** X9, witness: user1 changes the count of the record of 2025-05-10 to 6. *)
Lemma PUT_same_date_succeeds_witness :
  Invariant.wellFormed Sample.springDb
  /\ Api.sessionUserId (Some "user1") = Some "user1"
  /\ Store.findUnique Sample.springDb 1%nat
     = Some (Sample.row 1 "user1" (utcMidnight 2025 5 10) 3)
  /\ Date_parse Sample.utcHost "2025-05-10" = Some (utcMidnight 2025 5 10)
  /\ exists db',
       Api.PUT Sample.utcHost (utcInstant 2025 11 1 8 0) (utcInstant 2025 11 5 12 0)
               (Some "user1") 1%nat
               (Api.BodyFields (JS.VString "2025-05-10") (JS.VNumber (JS.ofZ 6)))
               Sample.springDb
       = (Api.json
            (Api.JEntry
               (Store.setFields (utcInstant 2025 11 5 12 0)
                  (Store.date (Sample.row 1 "user1" (utcMidnight 2025 5 10) 3)) 6
                  (Sample.row 1 "user1" (utcMidnight 2025 5 10) 3))) 200, db')
       /\ Store.findUnique db' 1%nat
          = Some (Store.setFields (utcInstant 2025 11 5 12 0)
                    (Store.date (Sample.row 1 "user1" (utcMidnight 2025 5 10) 3)) 6
                    (Sample.row 1 "user1" (utcMidnight 2025 5 10) 3))
       /\ Invariant.wellFormed db'.
Proof.
  split; [exact springDb_wellFormed|]. split; [reflexivity|].
  split; [reflexivity|]. split; [vm_compute; reflexivity|].
  apply (PUT_same_date_succeeds
           Sample.utcHost (utcInstant 2025 11 1 8 0) (utcInstant 2025 11 5 12 0)
           (Some "user1") "user1" "2025-05-10" (utcMidnight 2025 5 10) 6 1%nat
           (Sample.row 1 "user1" (utcMidnight 2025 5 10) 3) Sample.springDb
           springDb_wellFormed eq_refl eq_refl eq_refl);
    [vm_compute; reflexivity | vm_compute; reflexivity
     | vm_compute; discriminate | lia].
Defined.

(** ** Each user's records are their own *)

Lemma filter_owner_map_other (f : Store.EggProduction -> Store.EggProduction)
      (other : string) (l : list Store.EggProduction) :
  (forall a, In a l -> f a = a \/ (Store.userId a <> other /\ Store.userId (f a) <> other)) ->
  filter (fun r => String.eqb (Store.userId r) other) (map f l)
  = filter (fun r => String.eqb (Store.userId r) other) l.
Proof.
  induction l as [|a l IH]; cbn [map filter]; intros H; [reflexivity|].
  rewrite IH by (intros b IN; apply H; right; exact IN).
  destruct (H a (or_introl eq_refl)) as [-> | [N1 N2]]; [reflexivity|].
  apply String.eqb_neq in N1, N2. rewrite N1, N2. reflexivity.
Qed.

Lemma filter_owner_filter_id (other : string) (i : Store.Id)
      (l : list Store.EggProduction) :
  (forall a, In a l -> Store.id a = i -> Store.userId a <> other) ->
  filter (fun r => String.eqb (Store.userId r) other)
         (filter (fun r => negb (Nat.eqb (Store.id r) i)) l)
  = filter (fun r => String.eqb (Store.userId r) other) l.
Proof.
  induction l as [|a l IH]; cbn [filter]; intros H; [reflexivity|].
  specialize (IH (fun b IN => H b (or_intror IN))).
  destruct (Nat.eqb (Store.id a) i) eqn:E; cbn [negb filter].
  - apply Nat.eqb_eq in E. pose proof (H a (or_introl eq_refl) E) as N.
    apply String.eqb_neq in N. rewrite N. exact IH.
  - rewrite IH. reflexivity.
Qed.

(** X10.  A request never touches the records of anybody but its sender:
    on a well-formed table, whatever the request and whatever its
    outcome, the rows of every other user are the same, in the same
    order, after POST, PUT and DELETE as before. *)
Theorem handlers_touch_only_own_records
        (h : Host) (loadedAt now : TimeValue) (session : Api.Session)
        (i : Store.Id) (request : Api.RequestBody) (db : Store.Db)
        (other : string) :
  Invariant.wellFormed db ->
  Api.sessionUserId session <> Some other ->
  let others := filter (fun r => String.eqb (Store.userId r) other) in
  others (Store.rows (snd (Api.POST h loadedAt now session request db)))
  = others (Store.rows db)
  /\ others (Store.rows (snd (Api.PUT h loadedAt now session i request db)))
     = others (Store.rows db)
  /\ others (Store.rows (snd (EntryRoute.DELETE session i db)))
     = others (Store.rows db).
Proof.
  intros WF NS others. unfold others.
  assert (SAME : forall r a, Store.findUnique db i = Some r ->
                             In a (Store.rows db) -> Store.id a = i -> a = r).
  { intros r a F IN E. apply findUnique_id in F. destruct F as [ID INr].
    destruct WF as (NI & _).
    apply (NoDup_map_In_inj Store.id (Store.rows db)); auto. congruence. }
  split; [|split].
  - destruct (POST_cases h loadedAt now session request db)
      as [[SU ->] | [(uid & e & SU & ->)
                   | (uid & bd & bc & v & e & db' & SU & _ & V & C & ->)]];
      cbn [snd]; try reflexivity.
    apply create_inv in C. destruct C as (-> & -> & _). cbn [Store.rows].
    rewrite filter_app. cbn [filter Store.userId].
    destruct (String.eqb uid other) eqn:E; [|apply app_nil_r].
    apply String.eqb_eq in E. subst uid. contradiction.
  - destruct (PUT_cases h loadedAt now session i request db)
      as [[SU ->] | [(uid & SU & [-> | [-> | [e ->]]])
                   | (uid & r & bd & bc & v & e & db' & SU & F & U & _ & V & C & ->)]];
      cbn [snd]; try reflexivity.
    apply update_inv in C. destruct C as (r0 & F0 & _ & -> & _). cbn [Store.rows].
    apply filter_owner_map_other. intros a IN.
    destruct (Nat.eqb (Store.id a) i) eqn:E; [|left; reflexivity].
    apply Nat.eqb_eq in E. right. rewrite (SAME r a F IN E). cbn [Store.setFields Store.userId].
    rewrite U. split; intros ->; apply NS; exact SU.
  - destruct (DELETE_cases session i db)
      as [[SU ->] | [(uid & SU & [-> | ->]) | (uid & r & SU & F & U & ->)]];
      cbn [snd]; try reflexivity.
    cbn [Store.rows]. apply filter_owner_filter_id. intros a IN E.
    rewrite (SAME r a F IN E), U. intros ->. apply NS. exact SU.
Qed.

(** X10, witness: user1 writes to the table that also holds the records
    of user2. *)
Lemma handlers_touch_only_own_records_witness :
  Invariant.wellFormed Sample.springDb
  /\ Api.sessionUserId (Some "user2") <> Some "user1"
  /\ (let others := filter (fun r => String.eqb (Store.userId r) "user1") in
      others (Store.rows
                (snd (Api.POST Sample.utcHost (utcInstant 2025 11 1 8 0)
                               (utcInstant 2025 11 5 12 0) (Some "user2")
                               (Api.BodyFields (JS.VString "2025-05-10")
                                               (JS.VNumber (JS.ofZ 7)))
                               Sample.springDb)))
      = others (Store.rows Sample.springDb)
      /\ others (Store.rows
                   (snd (Api.PUT Sample.utcHost (utcInstant 2025 11 1 8 0)
                                 (utcInstant 2025 11 5 12 0) (Some "user2") 1%nat
                                 (Api.BodyFields (JS.VString "2025-05-10")
                                                 (JS.VNumber (JS.ofZ 7)))
                                 Sample.springDb)))
         = others (Store.rows Sample.springDb)
      /\ others (Store.rows (snd (EntryRoute.DELETE (Some "user2") 1%nat
                                                    Sample.springDb)))
         = others (Store.rows Sample.springDb)).
Proof.
  split; [exact springDb_wellFormed|]. split; [discriminate|].
  apply (handlers_touch_only_own_records
           Sample.utcHost (utcInstant 2025 11 1 8 0) (utcInstant 2025 11 5 12 0)
           (Some "user2") 1%nat
           (Api.BodyFields (JS.VString "2025-05-10") (JS.VNumber (JS.ofZ 7)))
           Sample.springDb "user1" springDb_wellFormed).
  discriminate.
Defined.

(** ** The start of the monthly window, in general *)

Lemma daysInMonth_le_31 (leap : bool) (m : Z) :
  0 <= m <= 11 -> daysInMonth leap m <= 31.
Proof.
  intros R.
  assert (C : m = 0 \/ m = 1 \/ m = 2 \/ m = 3 \/ m = 4 \/ m = 5 \/ m = 6
              \/ m = 7 \/ m = 8 \/ m = 9 \/ m = 10 \/ m = 11) by lia.
  destruct leap; repeat (destruct C as [-> | C]); try subst m; vm_compute;
    discriminate.
Qed.

Lemma daysInMonth_december (leap : bool) : daysInMonth leap 11 = 31.
Proof. destruct leap; reflexivity. Qed.

Lemma monthStart_succ (leap : bool) (m : Z) :
  monthStart leap (m + 1) = monthStart leap m + daysInMonth leap m.
Proof. unfold daysInMonth. lia. Qed.

(** X11.  The start of the monthly window for every instant and every
    zone offset: it is always the first day of a calendar month, at the
    local time of day of the request, and strictly before the request;
    its month lies six months before the current month when the current
    day of the month exists there, and five months before it otherwise
    (the 29th to 31st carried over a shorter month).  So the window always
    covers the current month and the five or six months before it. *)
Theorem sixMonthsAgo_in_general (h : Host) (now : TimeValue) :
  getDate h (Api.sixMonthsAgo h now) = 1
  /\ TimeWithinDay (LocalTime h (Api.sixMonthsAgo h now))
     = TimeWithinDay (LocalTime h now)
  /\ Api.sixMonthsAgo h now < now
  /\ ((Spec.dayExistsSixMonthsBack h now
       /\ Spec.monthIndex h (Api.sixMonthsAgo h now) = Spec.monthIndex h now - 6)
      \/ (~ Spec.dayExistsSixMonthsBack h now
          /\ Spec.monthIndex h (Api.sixMonthsAgo h now) = Spec.monthIndex h now - 5)).
Proof.
  assert (MAIN :
    getDate h (Api.sixMonthsAgo h now) = 1
    /\ TimeWithinDay (LocalTime h (Api.sixMonthsAgo h now))
       = TimeWithinDay (LocalTime h now)
    /\ ((Spec.dayExistsSixMonthsBack h now
         /\ Spec.monthIndex h (Api.sixMonthsAgo h now) = Spec.monthIndex h now - 6)
        \/ (~ Spec.dayExistsSixMonthsBack h now
            /\ Spec.monthIndex h (Api.sixMonthsAgo h now)
               = Spec.monthIndex h now - 5))).
  { unfold Spec.dayExistsSixMonthsBack, Spec.monthIndex, Api.sixMonthsAgo.
    unfold getDate, getMonth, getFullYear.
    set (lt := LocalTime h now).
    set (y := YearFromTime lt). set (m := MonthFromTime lt).
    set (d := DateFromTime lt). set (tod := TimeWithinDay lt).
    set (ym := y + (m - 6) / 12). set (mn := (m - 6) mod 12).
    cbv zeta.
    assert (Hm : 0 <= m <= 11) by apply MonthFromTime_range.
    assert (Hmn : 0 <= mn <= 11) by (unfold mn; zdiv).
    assert (Hd : 1 <= d <= 31).
    { pose proof (DateFromTime_range lt) as R. fold d y m in R.
      pose proof (daysInMonth_le_31 (InLeapYear y) m Hm). lia. }
    assert (Htod : 0 <= tod < msPerDay) by (apply TimeWithinDay_range).
    assert (H1 : LocalTime h (setMonth h now (m - 6))
                 = MakeDate (DayFromYear ym + monthStart (InLeapYear ym) mn + d - 1) tod).
    { unfold setMonth. rewrite LocalTime_UTC. reflexivity. }
    pose proof (monthStart_bounds (InLeapYear ym) mn Hmn) as (_ & B28 & _).
    (* the civil date after setMonth: month mn, or the month after it *)
    assert (CIV : exists M D,
               0 <= M <= 11 /\ 1 <= D <= daysInMonth (InLeapYear ym) M
               /\ DayFromYear ym + monthStart (InLeapYear ym) mn + d - 1
                  = DayFromYear ym + monthStart (InLeapYear ym) M + D - 1
               /\ ((d <= daysInMonth (InLeapYear ym) mn /\ M = mn)
                   \/ (~ d <= daysInMonth (InLeapYear ym) mn /\ M = mn + 1))).
    { destruct (Z_le_gt_dec d (daysInMonth (InLeapYear ym) mn)) as [LE|GT].
      - exists mn, d. repeat split; auto; try lia.
      - assert (mn <> 11).
        { intros E. rewrite E, daysInMonth_december in GT. lia. }
        assert (Hmn1 : 0 <= mn + 1 <= 11) by lia.
        pose proof (monthStart_bounds (InLeapYear ym) (mn + 1) Hmn1) as (_ & B & _).
        exists (mn + 1), (d - daysInMonth (InLeapYear ym) mn).
        split; [exact Hmn1|]. split; [lia|]. split.
        + rewrite monthStart_succ. lia.
        + right. split; [lia|reflexivity]. }
    destruct CIV as (M & D & HM & HD & EQ & CASE).
    rewrite EQ in H1.
    destruct (civil_of_MakeDate ym M D tod HM HD Htod) as (Y1 & M1 & _ & T1).
    assert (H2 : LocalTime h (setDate h (setMonth h now (m - 6)) 1)
                 = MakeDate (DayFromYear ym + monthStart (InLeapYear ym) M + 1 - 1) tod).
    { unfold setDate. rewrite LocalTime_UTC, H1, Y1, M1, T1.
      rewrite MakeDay_normal by assumption. reflexivity. }
    pose proof (monthStart_bounds (InLeapYear ym) M HM) as (_ & B1 & _).
    destruct (civil_of_MakeDate ym M 1 tod HM ltac:(lia) Htod)
      as (Y2 & M2 & D2 & T2).
    rewrite H2, Y2, M2, D2, T2.
    split; [reflexivity|]. split; [reflexivity|].
    destruct CASE as [[LE ->] | [GT ->]]; [left|right];
      (split; [first [exact LE | exact GT]|]); unfold ym, mn; zdiv. }
  destruct MAIN as (D1 & T & CASE).
  split; [exact D1|]. split; [exact T|]. split; [|exact CASE].
  destruct (Z_lt_ge_dec (Api.sixMonthsAgo h now) now) as [LT|GE]; [exact LT|].
  exfalso.
  assert (MI : Spec.monthIndex h now <= Spec.monthIndex h (Api.sixMonthsAgo h now))
    by (apply monthIndex_mono; lia).
  destruct CASE as [[_ E] | [_ E]]; lia.
Qed.

(** ** Strictly sorted lists are determined by their elements *)

Lemma strict_sorted_unique {A : Type} (R : A -> A -> Prop) (l1 l2 : list A) :
  (forall a, ~ R a a) -> (forall a b, R a b -> R b a -> False) ->
  StronglySorted R l1 -> StronglySorted R l2 ->
  (forall x, In x l1 <-> In x l2) -> l1 = l2.
Proof.
  intros IRR ASYM. revert l2.
  induction l1 as [|a l1 IH]; intros l2 S1 S2 EQ.
  - destruct l2 as [|b l2]; [reflexivity|].
    exfalso. apply (proj2 (EQ b)). left. reflexivity.
  - destruct l2 as [|b l2].
    + exfalso. apply (proj1 (EQ a)). left. reflexivity.
    + inversion S1 as [|? ? S1' F1]; subst. inversion S2 as [|? ? S2' F2]; subst.
      rewrite Forall_forall in F1, F2.
      assert (E : a = b).
      { destruct (proj1 (EQ a) (or_introl eq_refl)) as [E|INa]; [auto|].
        destruct (proj2 (EQ b) (or_introl eq_refl)) as [E|INb]; [auto|].
        exfalso. apply (ASYM a b); auto. }
      subst b. f_equal. apply IH; auto.
      intros x. split; intros IN.
      * destruct (proj1 (EQ x) (or_intror IN)) as [E|IN']; [|exact IN'].
        subst x. exfalso. apply (IRR a). apply F1. exact IN.
      * destruct (proj2 (EQ x) (or_intror IN)) as [E|IN']; [|exact IN'].
        subst x. exfalso. apply (IRR a). apply F2. exact IN.
Qed.

(** ** The records a query fetches, in ascending order *)

Lemma byDate_asc_total (a b : Store.EggProduction) :
  Store.byDate Store.asc a b = Gt -> Store.byDate Store.asc b a <> Gt.
Proof.
  cbn. intros H E. apply Z.compare_gt_iff in H. apply Z.compare_gt_iff in E. lia.
Qed.

Lemma byDate_asc_trans (a b c : Store.EggProduction) :
  JS.notAfter (Store.byDate Store.asc) a b ->
  JS.notAfter (Store.byDate Store.asc) b c ->
  JS.notAfter (Store.byDate Store.asc) a c.
Proof.
  unfold JS.notAfter. cbn. rewrite !Z.compare_gt_iff. lia.
Qed.

Lemma notAfter_asc (a b : Store.EggProduction) :
  JS.notAfter (Store.byDate Store.asc) a b <-> Store.date a <= Store.date b.
Proof.
  unfold JS.notAfter. cbn. rewrite Z.compare_gt_iff. lia.
Qed.

Lemma ascending_strict_of_distinct (l : list Store.EggProduction) :
  NoDup l ->
  (forall a b, In a l -> In b l -> Store.date a = Store.date b -> a = b) ->
  StronglySorted (fun a b => Store.date a <= Store.date b) l ->
  StronglySorted (fun a b => Store.date a < Store.date b) l.
Proof.
  intros ND INJ SS. induction SS as [|a l SS IH FA]; constructor.
  - inversion ND; subst. apply IH; [assumption|].
    intros x y Hx Hy. apply INJ; right; assumption.
  - inversion ND as [|? ? NI ND']; subst.
    rewrite Forall_forall in *. intros b IN. specialize (FA b IN).
    destruct (Z.eq_dec (Store.date a) (Store.date b)) as [E|NE]; [|lia].
    exfalso. apply NI.
    rewrite (INJ a b (or_introl eq_refl) (or_intror IN) E). exact IN.
Qed.

Lemma filter_matches_owner (w : Store.Where) (l : list Store.EggProduction) :
  filter (Store.matches w) l
  = filter (Store.matches w)
           (filter (fun r => String.eqb (Store.userId r) (Store.whereUserId w)) l).
Proof.
  induction l as [|a l IH]; cbn [filter]; [reflexivity|].
  destruct (String.eqb (Store.userId a) (Store.whereUserId w)) eqn:E.
  - cbn [filter]. rewrite IH. reflexivity.
  - unfold Store.matches at 1. rewrite E. cbn [andb]. exact IH.
Qed.

Lemma findMany_owner_dates (db : Store.Db) (w : Store.Where) (o : Store.Order)
      (a b : Store.EggProduction) :
  Invariant.wellFormed db ->
  In a (Store.findMany db w o) -> In b (Store.findMany db w o) ->
  Store.date a = Store.date b -> a = b.
Proof.
  intros WF Ha Hb E. apply findMany_In in Ha, Hb.
  destruct Ha as (Ia & Ma), Hb as (Ib & Mb).
  unfold Store.matches in Ma, Mb.
  apply andb_true_iff in Ma, Mb. destruct Ma as [Ma _], Mb as [Mb _].
  apply andb_true_iff in Ma, Mb. destruct Ma as [Ma _], Mb as [Mb _].
  apply String.eqb_eq in Ma, Mb.
  destruct WF as (_ & _ & NK & _).
  apply (NoDup_map_In_inj Invariant.ownerDate (Store.rows db)); auto.
  unfold Invariant.ownerDate. congruence.
Qed.

Lemma findMany_asc_strict (db : Store.Db) (w : Store.Where) :
  Invariant.wellFormed db ->
  StronglySorted (fun a b => Store.date a < Store.date b)
                 (Store.findMany db w Store.asc).
Proof.
  intros WF. apply ascending_strict_of_distinct.
  - unfold Store.findMany.
    eapply Permutation_NoDup; [apply Permutation_sym, sort_perm|].
    apply NoDup_filter. apply wellFormed_NoDup_rows. exact WF.
  - intros a b. apply findMany_owner_dates. exact WF.
  - eapply StronglySorted_impl; [apply notAfter_asc|].
    apply sort_sorted; [apply byDate_asc_total|apply byDate_asc_trans].
Qed.

Lemma findMany_desc_strict (db : Store.Db) (w : Store.Where) :
  Invariant.wellFormed db ->
  StronglySorted (fun a b => Store.date b < Store.date a)
                 (Store.findMany db w Store.desc).
Proof.
  intros WF. apply sorted_strict_of_distinct.
  - unfold Store.findMany.
    eapply Permutation_NoDup; [apply Permutation_sym, sort_perm|].
    apply NoDup_filter. apply wellFormed_NoDup_rows. exact WF.
  - intros a b Ha Hb E. apply findMany_In in Ha, Hb.
    destruct Ha as (Ia & Ma), Hb as (Ib & Mb).
    unfold Store.matches in Ma, Mb.
    apply andb_true_iff in Ma, Mb. destruct Ma as [Ma _], Mb as [Mb _].
    apply andb_true_iff in Ma, Mb. destruct Ma as [Ma _], Mb as [Mb _].
    apply String.eqb_eq in Ma, Mb.
    destruct WF as (_ & _ & NK & _).
    apply (NoDup_map_In_inj Invariant.ownerDate (Store.rows db)); auto.
    unfold Invariant.ownerDate. congruence.
  - eapply StronglySorted_impl; [apply notAfter_desc|].
    apply sort_sorted; [apply byDate_desc_total|apply byDate_desc_trans].
Qed.

(** X12.  What the two read routes answer depends on nothing but the set
    of the records of the signed-in user: on two well-formed tables that
    hold the same records of that user (in whatever order, next to
    whatever records of other users) the list query answers the same for
    every pair of bounds, and the monthly aggregation answers the same at
    every instant. *)
Theorem reads_depend_on_own_records_only
        (h : Host) (now : TimeValue) (session : Api.Session) (uid : string)
        (startDateStr endDateStr : option string) (db1 db2 : Store.Db) :
  Invariant.wellFormed db1 -> Invariant.wellFormed db2 ->
  Api.sessionUserId session = Some uid ->
  (forall r, Store.userId r = uid ->
             (In r (Store.rows db1) <-> In r (Store.rows db2))) ->
  Api.GET_list h session startDateStr endDateStr db1
  = Api.GET_list h session startDateStr endDateStr db2
  /\ Api.GET_monthly h now session db1 = Api.GET_monthly h now session db2.
Proof.
  intros WF1 WF2 SU SAME.
  assert (INM : forall w r, Store.whereUserId w = uid ->
                            (In r (filter (Store.matches w) (Store.rows db1))
                             <-> In r (filter (Store.matches w) (Store.rows db2)))).
  { intros w r W. rewrite !filter_In. split; intros [IN M]; (split; [|exact M]);
      apply SAME; auto; unfold Store.matches in M;
      apply andb_true_iff in M; destruct M as [M _];
      apply andb_true_iff in M; destruct M as [M _];
      apply String.eqb_eq in M; congruence. }
  split.
  - unfold Api.GET_list. rewrite SU.
    destruct (Api.queryBound h startDateStr) as [e1|lo]; [reflexivity|].
    destruct (Api.queryBound h endDateStr) as [e2|hi]; [reflexivity|].
    f_equal. f_equal.
    apply (strict_sorted_unique (fun a b => Store.date b < Store.date a)).
    + intros a. lia.
    + intros a b. lia.
    + apply findMany_desc_strict. exact WF1.
    + apply findMany_desc_strict. exact WF2.
    + intros r. rewrite !findMany_In, <- !filter_In. apply INM. reflexivity.
  - unfold Api.GET_monthly. rewrite SU. f_equal. f_equal. f_equal.
    unfold Api.fetchSince. f_equal.
    apply (strict_sorted_unique (fun a b => Store.date a < Store.date b)).
    + intros a. lia.
    + intros a b. lia.
    + apply findMany_asc_strict. exact WF1.
    + apply findMany_asc_strict. exact WF2.
    + intros r. rewrite !findMany_In, <- !filter_In. apply INM. reflexivity.
Qed.

(** X12, witness: the table of nine records and the same table with the
    rows in reverse order and without the record of user1. *)
Lemma reads_depend_on_own_records_only_witness :
  Invariant.wellFormed Sample.windowDb
  /\ Invariant.wellFormed
       {| Store.rows :=
            rev (filter (fun r => String.eqb (Store.userId r) "user2")
                        (Store.rows Sample.windowDb));
          Store.nextId := 9%nat |}
  /\ Api.GET_list Sample.utcHost (Some "user2") (Some "2024-03-01") None
                  Sample.windowDb
     = Api.GET_list Sample.utcHost (Some "user2") (Some "2024-03-01") None
                    {| Store.rows :=
                         rev (filter (fun r => String.eqb (Store.userId r) "user2")
                                     (Store.rows Sample.windowDb));
                       Store.nextId := 9%nat |}
  /\ Api.GET_monthly Sample.utcHost (utcInstant 2024 9 15 0 0) (Some "user2")
                     Sample.windowDb
     = Api.GET_monthly Sample.utcHost (utcInstant 2024 9 15 0 0) (Some "user2")
                       {| Store.rows :=
                            rev (filter (fun r => String.eqb (Store.userId r) "user2")
                                        (Store.rows Sample.windowDb));
                          Store.nextId := 9%nat |}.
Proof.
  assert (WF1 : Invariant.wellFormed Sample.windowDb).
  { unfold Invariant.wellFormed.
    cbn [Sample.windowDb Store.rows Store.nextId map].
    split; [|split; [|split]].
    - repeat constructor; cbn; intuition discriminate.
    - intros r IN. repeat (destruct IN as [<-|IN]; [cbn; lia|]). destruct IN.
    - repeat constructor; cbn; intuition discriminate.
    - intros r IN.
      repeat (destruct IN as [<-|IN];
              [unfold Invariant.rowOk; cbn;
               (split; [vm_compute; reflexivity|]);
               (split; [vm_compute; split; discriminate|discriminate])|]).
      destruct IN. }
  assert (WF2 : Invariant.wellFormed
                  {| Store.rows :=
                       rev (filter (fun r => String.eqb (Store.userId r) "user2")
                                   (Store.rows Sample.windowDb));
                     Store.nextId := 9%nat |}).
  { unfold Invariant.wellFormed.
    cbn [Sample.windowDb Store.rows Store.nextId map filter rev app Sample.row
         Store.userId String.eqb Ascii.eqb Bool.eqb andb].
    cbn.
    split; [|split; [|split]].
    - repeat constructor; cbn; intuition discriminate.
    - intros r IN. repeat (destruct IN as [<-|IN]; [cbn; lia|]). destruct IN.
    - repeat constructor; cbn; intuition discriminate.
    - intros r IN.
      repeat (destruct IN as [<-|IN];
              [unfold Invariant.rowOk; cbn;
               (split; [vm_compute; reflexivity|]);
               (split; [vm_compute; split; discriminate|discriminate])|]).
      destruct IN. }
  split; [exact WF1|]. split; [exact WF2|].
  apply (reads_depend_on_own_records_only
           Sample.utcHost (utcInstant 2024 9 15 0 0) (Some "user2") "user2"
           (Some "2024-03-01") None Sample.windowDb _ WF1 WF2 eq_refl).
  intros r U. cbn [Store.rows]. rewrite <- in_rev, filter_In.
  split; [intros IN; split; [exact IN|apply String.eqb_eq; exact U]|tauto].
Defined.

Lemma aggregate_nil_iff (h : Host) (entries : list (TimeValue * Z)) :
  Api.aggregate h entries = [] <-> entries = [].
Proof.
  split.
  - intros E. destruct entries as [|e es]; [reflexivity|]. exfalso.
    pose proof (fold_groupEntry_none h (e :: es) [] (Api.monthKey h (fst e))) as N.
    destruct (JS.get (fold_left (Api.groupEntry h) (e :: es) [])
                     (Api.monthKey h (fst e))) as [md|] eqn:G.
    + assert (IN : In {| Api.month := Api.monthKey h (fst e);
                         Api.totalCount := Api.mTotalCount md;
                         Api.daysRecorded := Api.mDaysRecorded md |}
                      (Api.aggregate h (e :: es))).
      { apply aggregate_row. exists md. cbn [Api.month]. split; [exact G|].
        split; reflexivity. }
      rewrite E in IN. destruct IN.
    + destruct (proj1 N eq_refl) as [_ K].
      rewrite keyedAs_cons, String.eqb_refl in K. discriminate.
  - intros ->. reflexivity.
Qed.


(* ================================================================== *)
(** * Properties of the calendar component                             *)
(* ================================================================== *)

Lemma newDate_local (h : Host) (y m d : Z) :
  LocalTime h (DateObject.newDate h y m d)
  = MakeDate (MakeDay (DateObject.MakeFullYear y) m d) 0.
Proof. unfold DateObject.newDate. apply LocalTime_UTC. Qed.

Lemma MakeFullYear_id (y : Z) : ~ 0 <= y <= 99 -> DateObject.MakeFullYear y = y.
Proof.
  intros N. unfold DateObject.MakeFullYear.
  destruct (Z.leb_spec 0 y), (Z.leb_spec y 99); cbn; try reflexivity. lia.
Qed.

Lemma MakeDay_shift (y m d : Z) : MakeDay y m d = MakeDay y m 1 + (d - 1).
Proof. unfold MakeDay. lia. Qed.

Lemma msPerDay_pos : 0 < msPerDay.
Proof. reflexivity. Qed.

Lemma MakeDate_midnight_civil (y m d : Z) :
  0 <= m <= 11 -> 1 <= d <= daysInMonth (InLeapYear y) m ->
  let t := MakeDate (MakeDay y m d) 0 in
  YearFromTime t = y /\ MonthFromTime t = m /\ DateFromTime t = d.
Proof.
  intros Hm Hd. cbv zeta. rewrite (MakeDay_normal y m d Hm).
  destruct (civil_of_MakeDate y m d 0 Hm Hd) as (Y & M & D & _).
  - unfold msPerDay. lia.
  - auto.
Qed.

(** The day before the first of the next month is the last of the month. *)
Lemma MakeDay_last (y m : Z) :
  0 <= m <= 11 ->
  MakeDay y (m + 1) 0 = MakeDay y m (daysInMonth (InLeapYear y) m).
Proof.
  intros Hm. rewrite (MakeDay_normal y m _ Hm).
  destruct (Z.eq_dec m 11) as [->|NE].
  - unfold MakeDay. change ((11 + 1) / 12) with 1. change ((11 + 1) mod 12) with 0.
    rewrite DayFromYear_succ. unfold DaysInYear.
    destruct (InLeapYear y), (InLeapYear (y + 1)); cbn; lia.
  - rewrite (MakeDay_normal y (m + 1) 0) by lia.
    rewrite monthStart_succ. lia.
Qed.

Lemma lastDay_date (h : Host) (viewMonth : TimeValue) :
  ~ 0 <= getFullYear h viewMonth <= 99 ->
  Calendar.daysInMonth h viewMonth
  = daysInMonth (InLeapYear (getFullYear h viewMonth)) (getMonth h viewMonth).
Proof.
  intros NY. unfold Calendar.daysInMonth, Calendar.lastDay, Calendar.year,
    Calendar.month, getDate.
  assert (Hm : 0 <= getMonth h viewMonth <= 11) by apply MonthFromTime_range.
  pose proof (monthStart_bounds (InLeapYear (getFullYear h viewMonth))
                                (getMonth h viewMonth) Hm) as (_ & B28 & _).
  rewrite newDate_local, (MakeFullYear_id _ NY), (MakeDay_last _ _ Hm).
  apply (MakeDate_midnight_civil _ _ _ Hm). lia.
Qed.

Lemma lastDay_cell (h : Host) (viewMonth : TimeValue) :
  ~ 0 <= getFullYear h viewMonth <= 99 ->
  Calendar.lastDay h viewMonth
  = Calendar.handleDayClick h viewMonth (Calendar.daysInMonth h viewMonth).
Proof.
  intros NY. rewrite (lastDay_date h viewMonth NY).
  unfold Calendar.lastDay, Calendar.handleDayClick, Calendar.year, Calendar.month,
    DateObject.newDate.
  assert (Hm : 0 <= getMonth h viewMonth <= 11) by apply MonthFromTime_range.
  rewrite (MakeFullYear_id _ NY), (MakeDay_last _ _ Hm). reflexivity.
Qed.

Lemma daysInMonth_facts (h : Host) (viewMonth : TimeValue) :
  ~ 0 <= getFullYear h viewMonth <= 99 ->
  Calendar.daysInMonth h viewMonth
  = daysInMonth (InLeapYear (getFullYear h viewMonth)) (getMonth h viewMonth)
  /\ 28 <= Calendar.daysInMonth h viewMonth <= 31
  /\ Calendar.lastDay h viewMonth
     = Calendar.handleDayClick h viewMonth (Calendar.daysInMonth h viewMonth).
Proof.
  intros NY.
  assert (Hm : 0 <= getMonth h viewMonth <= 11) by apply MonthFromTime_range.
  pose proof (monthStart_bounds (InLeapYear (getFullYear h viewMonth))
                                (getMonth h viewMonth) Hm) as (_ & B28 & _).
  pose proof (daysInMonth_le_31 (InLeapYear (getFullYear h viewMonth))
                                (getMonth h viewMonth) Hm) as B31.
  split; [apply lastDay_date; exact NY|].
  split; [rewrite (lastDay_date h viewMonth NY); lia|].
  apply lastDay_cell. exact NY.
Qed.

(** X13.  The number of day cells of the month view.  For a view month
    whose year does not lie between 0 and 99, [daysInMonth] is the number
    of days of that calendar month (28 to 31, 29 for February exactly in
    leap years), and the last day computed for it is the cell of that
    day. *)
Theorem calendar_daysInMonth (h : Host) (viewMonth : TimeValue) :
  ~ 0 <= getFullYear h viewMonth <= 99 ->
  Calendar.daysInMonth h viewMonth
  = daysInMonth (InLeapYear (getFullYear h viewMonth)) (getMonth h viewMonth)
  /\ 28 <= Calendar.daysInMonth h viewMonth <= 31
  /\ Calendar.lastDay h viewMonth
     = Calendar.handleDayClick h viewMonth (Calendar.daysInMonth h viewMonth).
Proof.
  intros NY.
  assert (Hm : 0 <= getMonth h viewMonth <= 11) by apply MonthFromTime_range.
  pose proof (lastDay_date h viewMonth NY) as E.
  split; [exact E|]. split.
  - rewrite E.
    pose proof (monthStart_bounds (InLeapYear (getFullYear h viewMonth))
                                  (getMonth h viewMonth) Hm) as (_ & B28 & _).
    pose proof (daysInMonth_le_31 (InLeapYear (getFullYear h viewMonth))
                                  (getMonth h viewMonth) Hm) as B31.
    lia.
  - exact (lastDay_cell h viewMonth NY).
Qed.

(** X13, witness: February 2024, seen five hours west of UTC. *)
Lemma calendar_daysInMonth_witness :
  ~ 0 <= getFullYear Sample.westHost (utcInstant 2024 2 10 12 0) <= 99
  /\ Calendar.daysInMonth Sample.westHost (utcInstant 2024 2 10 12 0)
     = daysInMonth (InLeapYear (getFullYear Sample.westHost (utcInstant 2024 2 10 12 0)))
                   (getMonth Sample.westHost (utcInstant 2024 2 10 12 0))
  /\ 28 <= Calendar.daysInMonth Sample.westHost (utcInstant 2024 2 10 12 0) <= 31
  /\ Calendar.lastDay Sample.westHost (utcInstant 2024 2 10 12 0)
     = Calendar.handleDayClick Sample.westHost (utcInstant 2024 2 10 12 0)
         (Calendar.daysInMonth Sample.westHost (utcInstant 2024 2 10 12 0)).
Proof.
  assert (N : ~ 0 <= getFullYear Sample.westHost (utcInstant 2024 2 10 12 0) <= 99)
    by (vm_compute; intros [_ H]; apply H; reflexivity).
  split; [exact N|].
  exact (calendar_daysInMonth Sample.westHost (utcInstant 2024 2 10 12 0) N).
Defined.

(** ** The grid of weeks *)

Lemma fillWeeks_spec (days : list Z) :
  forall (weeks : list (list Calendar.Cell)) (week : list Calendar.Cell),
    (List.length week < 7)%nat ->
    Forall (fun w => List.length w = 7%nat) weeks ->
    Forall (fun w => List.length w = 7%nat) (fst (Calendar.fillWeeks days weeks week))
    /\ (List.length (snd (Calendar.fillWeeks days weeks week)) < 7)%nat
    /\ List.concat (fst (Calendar.fillWeeks days weeks week))
         ++ snd (Calendar.fillWeeks days weeks week)
       = List.concat weeks ++ week ++ map Some days.
Proof.
  induction days as [|day rest IH]; intros weeks week L F.
  - cbn. rewrite app_nil_r. auto.
  - cbn [Calendar.fillWeeks map].
    destruct (Nat.eqb (List.length (week ++ [Some day])) 7) eqn:E.
    + apply Nat.eqb_eq in E.
      destruct (IH (weeks ++ [week ++ [Some day]]) []) as (A & B & C).
      * cbn. lia.
      * apply Forall_app. split; [exact F|]. constructor; [exact E|constructor].
      * split; [exact A|]. split; [exact B|].
        rewrite C, concat_app. cbn [List.concat]. rewrite !app_nil_r, <- !app_assoc.
        reflexivity.
    + apply Nat.eqb_neq in E.
      assert (L' : (List.length (week ++ [Some day]) < 7)%nat).
      { rewrite length_app in *. cbn [List.length] in *. lia. }
      destruct (IH weeks (week ++ [Some day]) L' F) as (A & B & C).
      split; [exact A|]. split; [exact B|].
      rewrite C, <- !app_assoc. reflexivity.
Qed.

Lemma weeksOf_spec (s n : Z) :
  0 <= s < 7 ->
  Forall (fun w => List.length w = 7%nat) (Calendar.weeksOf s n)
  /\ exists pad,
       (pad < 7)%nat
       /\ List.concat (Calendar.weeksOf s n)
          = repeat None (Z.to_nat s) ++ map Some (Calendar.daysUpTo n)
              ++ repeat None pad.
Proof.
  intros Hs. unfold Calendar.weeksOf.
  assert (L : (List.length (repeat (@None Z) (Z.to_nat s)) < 7)%nat)
    by (rewrite repeat_length; lia).
  destruct (fillWeeks_spec (Calendar.daysUpTo n) [] _ L (Forall_nil _)) as (A & B & C).
  destruct (Calendar.fillWeeks (Calendar.daysUpTo n) [] (repeat None (Z.to_nat s)))
    as [weeks week].
  cbn [fst snd List.concat app] in A, B, C.
  destruct (Nat.ltb 0 (List.length week)) eqn:E.
  - apply Nat.ltb_lt in E. split.
    + apply Forall_app. split; [exact A|]. constructor; [|constructor].
      rewrite length_app, repeat_length. lia.
    + exists (7 - List.length week)%nat. split; [lia|].
      rewrite concat_app. cbn [List.concat]. rewrite app_nil_r, app_assoc, C.
      rewrite <- !app_assoc. reflexivity.
  - apply Nat.ltb_ge in E. split; [exact A|].
    exists 0%nat. split; [lia|].
    assert (W : week = []) by (destruct week; [reflexivity|cbn in E; lia]).
    subst week. rewrite app_nil_r in C. rewrite C. cbn [repeat].
    rewrite !app_nil_r. reflexivity.
Qed.

Lemma nth_error_concat7 {A : Type} (ws : list (list A)) :
  Forall (fun w => List.length w = 7%nat) ws ->
  forall (w c : nat) (week : list A),
    nth_error ws w = Some week -> (c < 7)%nat ->
    nth_error (List.concat ws) (7 * w + c) = nth_error week c.
Proof.
  induction 1 as [|x ws Hx F IH]; intros w c week N C.
  - destruct w; discriminate.
  - destruct w as [|w]; cbn [nth_error List.concat] in *.
    + injection N as <-. rewrite Nat.mul_0_r, Nat.add_0_l.
      apply nth_error_app1. lia.
    + rewrite nth_error_app2 by lia. rewrite Hx.
      replace (7 * S w + c - 7)%nat with (7 * w + c)%nat by lia.
      apply IH; assumption.
Qed.

Lemma nth_error_repeat_None {A : Type} (n k : nat) (x : A) :
  nth_error (repeat (@None A) n) k <> Some (Some x).
Proof.
  revert k. induction n as [|n IH]; intros [|k]; cbn; try discriminate. apply IH.
Qed.

Lemma nth_error_daysUpTo (n : Z) (k : nat) (d : Z) :
  nth_error (Calendar.daysUpTo n) k = Some d -> d = Z.of_nat k + 1 /\ d <= n.
Proof.
  unfold Calendar.daysUpTo. intros H.
  rewrite nth_error_map in H.
  destruct (nth_error (seq 1 (Z.to_nat n)) k) as [v|] eqn:E; [|discriminate].
  cbn [option_map] in H.
  injection H as <-.
  assert (K : (k < List.length (seq 1 (Z.to_nat n)))%nat)
    by (apply nth_error_Some; rewrite E; discriminate).
  rewrite length_seq in K.
  pose proof (nth_error_nth _ _ 0%nat E) as V.
  rewrite seq_nth in V by exact K.
  subst v. lia.
Qed.

Lemma grid_position (s : nat) (n : Z) (pad k : nat) (d : Z) :
  nth_error (repeat None s ++ map Some (Calendar.daysUpTo n) ++ repeat None pad) k
  = Some (Some d) ->
  1 <= d <= n /\ Z.of_nat k = Z.of_nat s + d - 1.
Proof.
  intros H.
  destruct (Nat.lt_ge_cases k s) as [LT|GE].
  - rewrite nth_error_app1 in H by (rewrite repeat_length; exact LT).
    exfalso. apply (nth_error_repeat_None _ _ _ H).
  - rewrite nth_error_app2 in H by (rewrite repeat_length; exact GE).
    rewrite repeat_length in H.
    destruct (Nat.lt_ge_cases (k - s) (List.length (map Some (Calendar.daysUpTo n))))
      as [LT|GE'].
    + rewrite nth_error_app1 in H by exact LT.
      rewrite nth_error_map in H.
      destruct (nth_error (Calendar.daysUpTo n) (k - s)) as [v|] eqn:E; [|discriminate].
      injection H as <-. apply nth_error_daysUpTo in E. lia.
    + rewrite nth_error_app2 in H by exact GE'.
      exfalso. apply (nth_error_repeat_None _ _ _ H).
Qed.

Lemma getDay_of_cell (h : Host) (y m d : Z) :
  DateObject.getDay h (DateObject.newDate h y m d)
  = (DateObject.getDay h (DateObject.newDate h y m 1) + (d - 1)) mod 7.
Proof.
  unfold DateObject.getDay, DateObject.WeekDay. rewrite !newDate_local.
  rewrite !Day_MakeDate by (unfold msPerDay; lia).
  rewrite (MakeDay_shift _ m d). rewrite Zplus_mod_idemp_l. f_equal. lia.
Qed.

Lemma startingDayOfWeek_unfold (h : Host) (viewMonth : TimeValue) :
  Calendar.startingDayOfWeek h viewMonth
  = DateObject.getDay h
      (DateObject.newDate h (Calendar.year h viewMonth) (Calendar.month h viewMonth) 1).
Proof. unfold Calendar.startingDayOfWeek, Calendar.firstDay. reflexivity. Qed.

(** X14.  The grid of the month view, for every view month and zone
    offset: every week has seven cells; read row by row the cells are the
    empty cells before the first day, the days 1 to [daysInMonth] in
    order, each once, and fewer than seven empty cells after the last;
    and every day stands in the column of its own day of the week (column
    0 under 'Sun'), that is of the Date the click on it hands on. *)
Theorem calendar_grid (h : Host) (viewMonth : TimeValue) :
  Forall (fun week => List.length week = 7%nat) (Calendar.weeks h viewMonth)
  /\ (exists pad,
        (pad < 7)%nat
        /\ List.concat (Calendar.weeks h viewMonth)
           = repeat None (Z.to_nat (Calendar.startingDayOfWeek h viewMonth))
               ++ map Some (Calendar.daysUpTo (Calendar.daysInMonth h viewMonth))
               ++ repeat None pad)
  /\ (forall (w c : nat) (week : list Calendar.Cell) (d : Z),
        nth_error (Calendar.weeks h viewMonth) w = Some week ->
        nth_error week c = Some (Some d) ->
        1 <= d <= Calendar.daysInMonth h viewMonth
        /\ DateObject.getDay h (Calendar.handleDayClick h viewMonth d) = Z.of_nat c).
Proof.
  assert (Hs : 0 <= Calendar.startingDayOfWeek h viewMonth < 7).
  { unfold Calendar.startingDayOfWeek, DateObject.getDay, DateObject.WeekDay.
    apply Z.mod_pos_bound. lia. }
  destruct (weeksOf_spec (Calendar.startingDayOfWeek h viewMonth)
                         (Calendar.daysInMonth h viewMonth) Hs) as (F & pad & P & C).
  unfold Calendar.weeks.
  split; [exact F|]. split; [exists pad; auto|].
  intros w c week d NW NC.
  assert (Lw : List.length week = 7%nat).
  { rewrite Forall_forall in F. apply F. eapply nth_error_In. exact NW. }
  assert (Hc : (c < 7)%nat).
  { rewrite <- Lw. apply nth_error_Some. rewrite NC. discriminate. }
  pose proof (nth_error_concat7 _ F w c week NW Hc) as K.
  rewrite NC, C in K. apply grid_position in K. destruct K as [R POS].
  split; [exact R|].
  unfold Calendar.handleDayClick. rewrite getDay_of_cell.
  rewrite <- (startingDayOfWeek_unfold h viewMonth).
  rewrite Z2Nat.id in POS by lia.
  replace (Calendar.startingDayOfWeek h viewMonth + (d - 1))
    with (Z.of_nat c + Z.of_nat w * 7) by lia.
  rewrite Z_mod_plus_full. apply Z.mod_small. lia.
Qed.

(** ** Month navigation *)

Lemma newDate_first_civil (h : Host) (y m : Z) :
  ~ 0 <= y <= 99 ->
  getFullYear h (DateObject.newDate h y m 1) = y + m / 12
  /\ getMonth h (DateObject.newDate h y m 1) = m mod 12
  /\ getDate h (DateObject.newDate h y m 1) = 1.
Proof.
  intros NY. unfold getFullYear, getMonth, getDate.
  rewrite newDate_local, (MakeFullYear_id y NY).
  assert (Hmn : 0 <= m mod 12 <= 11) by zdiv.
  pose proof (monthStart_bounds (InLeapYear (y + m / 12)) (m mod 12) Hmn) as (_ & B & _).
  assert (E : MakeDay y m 1 = MakeDay (y + m / 12) (m mod 12) 1).
  { unfold MakeDay. rewrite Z.mod_mod by lia.
    replace (m mod 12 / 12) with 0 by zdiv. rewrite Z.add_0_r. reflexivity. }
  rewrite E. apply MakeDate_midnight_civil; [exact Hmn|lia].
Qed.

(** X15.  The two navigation buttons, for a view month of a year after
    100: each leads to the first day of the neighbouring calendar month
    at local midnight (also across the turn of the year), and one after
    the other they lead back to the first day of the month they started
    from. *)
Theorem calendar_navigation (h : Host) (viewMonth : TimeValue) :
  100 < getFullYear h viewMonth ->
  Spec.monthIndex h (Calendar.handlePrevMonth h viewMonth)
  = Spec.monthIndex h viewMonth - 1
  /\ Spec.monthIndex h (Calendar.handleNextMonth h viewMonth)
     = Spec.monthIndex h viewMonth + 1
  /\ getDate h (Calendar.handlePrevMonth h viewMonth) = 1
  /\ getDate h (Calendar.handleNextMonth h viewMonth) = 1
  /\ Calendar.handleNextMonth h (Calendar.handlePrevMonth h viewMonth)
     = Calendar.firstDay h viewMonth
  /\ Calendar.handlePrevMonth h (Calendar.handleNextMonth h viewMonth)
     = Calendar.firstDay h viewMonth.
Proof.
  intros HY. unfold Calendar.handlePrevMonth, Calendar.handleNextMonth,
    Calendar.firstDay, Calendar.year, Calendar.month, Spec.monthIndex.
  set (y := getFullYear h viewMonth) in *. set (m := getMonth h viewMonth).
  assert (Hm : 0 <= m <= 11) by apply MonthFromTime_range.
  assert (NY : ~ 0 <= y <= 99) by lia.
  destruct (newDate_first_civil h y (m - 1) NY) as (YP & MP & DP).
  destruct (newDate_first_civil h y (m + 1) NY) as (YN & MN & DN).
  rewrite YP, MP, YN, MN, DP, DN.
  split; [zdiv|]. split; [zdiv|]. split; [reflexivity|]. split; [reflexivity|].
  unfold DateObject.newDate.
  rewrite !MakeFullYear_id by (try exact NY; zdiv).
  split; f_equal; f_equal; unfold MakeDay.
  - assert (E1 : y + (m - 1) / 12 + ((m - 1) mod 12 + 1) / 12 = y + m / 12) by zdiv.
    assert (E2 : ((m - 1) mod 12 + 1) mod 12 = m mod 12) by zdiv.
    rewrite E1, E2. reflexivity.
  - assert (E1 : y + (m + 1) / 12 + ((m + 1) mod 12 - 1) / 12 = y + m / 12) by zdiv.
    assert (E2 : ((m + 1) mod 12 - 1) mod 12 = m mod 12) by zdiv.
    rewrite E1, E2. reflexivity.
Qed.

(** X15, witness: January 2025, seen five hours west of UTC. *)
Lemma calendar_navigation_witness :
  100 < getFullYear Sample.westHost (utcInstant 2025 1 10 12 0)
  /\ Spec.monthIndex Sample.westHost
       (Calendar.handlePrevMonth Sample.westHost (utcInstant 2025 1 10 12 0))
     = Spec.monthIndex Sample.westHost (utcInstant 2025 1 10 12 0) - 1
  /\ Spec.monthIndex Sample.westHost
       (Calendar.handleNextMonth Sample.westHost (utcInstant 2025 1 10 12 0))
     = Spec.monthIndex Sample.westHost (utcInstant 2025 1 10 12 0) + 1
  /\ getDate Sample.westHost
       (Calendar.handlePrevMonth Sample.westHost (utcInstant 2025 1 10 12 0)) = 1
  /\ getDate Sample.westHost
       (Calendar.handleNextMonth Sample.westHost (utcInstant 2025 1 10 12 0)) = 1
  /\ Calendar.handleNextMonth Sample.westHost
       (Calendar.handlePrevMonth Sample.westHost (utcInstant 2025 1 10 12 0))
     = Calendar.firstDay Sample.westHost (utcInstant 2025 1 10 12 0)
  /\ Calendar.handlePrevMonth Sample.westHost
       (Calendar.handleNextMonth Sample.westHost (utcInstant 2025 1 10 12 0))
     = Calendar.firstDay Sample.westHost (utcInstant 2025 1 10 12 0).
Proof.
  assert (HY : 100 < getFullYear Sample.westHost (utcInstant 2025 1 10 12 0))
    by (vm_compute; reflexivity).
  split; [exact HY|].
  exact (calendar_navigation Sample.westHost (utcInstant 2025 1 10 12 0) HY).
Defined.

(* ================================================================== *)
(** * Date keys, and what a day cell shows                             *)
(* ================================================================== *)

Lemma forallb_below (P : Z -> bool) (n : nat) :
  forallb P (View.below n) = true ->
  forall z, 0 <= z < Z.of_nat n -> P z = true.
Proof.
  intros F z R. rewrite forallb_forall in F. apply F.
  unfold View.below. apply in_map_iff. exists (Z.to_nat z).
  split; [lia|]. apply in_seq. lia.
Qed.

Lemma pad4_reads_back (y : Z) :
  0 <= y <= 9999 -> View.padReadsBack 4 y = true.
Proof.
  intros R.
  apply (forallb_below (View.padReadsBack 4) (Z.to_nat 10000));
    [vm_compute; reflexivity|lia].
Qed.

Lemma pad2_reads_back (z : Z) :
  0 <= z <= 99 -> View.padReadsBack 2 z = true.
Proof.
  intros R.
  apply (forallb_below (View.padReadsBack 2) (Z.to_nat 100));
    [vm_compute; reflexivity|lia].
Qed.

Lemma padReadsBack_spec (n : nat) (z : Z) :
  View.padReadsBack n z = true ->
  String.length (DateObject.pad n z) = n
  /\ View.noT (DateObject.pad n z) = true
  /\ Sample.digitsValue (list_ascii_of_string (DateObject.pad n z)) 0 = Some z.
Proof.
  unfold View.padReadsBack. intros H.
  apply andb_true_iff in H. destruct H as [H V].
  apply andb_true_iff in H. destruct H as [L T].
  apply Nat.eqb_eq in L. split; [exact L|]. split; [exact T|].
  destruct (Sample.digitsValue _ 0) as [v|]; [|discriminate].
  apply Z.eqb_eq in V. congruence.
Qed.

Lemma pad_inj (n : nat) (a b : Z) :
  View.padReadsBack n a = true -> View.padReadsBack n b = true ->
  DateObject.pad n a = DateObject.pad n b -> a = b.
Proof.
  intros A B E. apply padReadsBack_spec in A, B.
  destruct A as (_ & _ & VA), B as (_ & _ & VB).
  rewrite E in VA. congruence.
Qed.

Lemma beforeFirst_noT (a s : string) :
  View.noT a = true ->
  DateObject.beforeFirst "T" (a ++ s) = (a ++ DateObject.beforeFirst "T" s)%string.
Proof.
  induction a as [|c a IH]; cbn; intros H; [reflexivity|].
  apply andb_true_iff in H. destruct H as [C T].
  apply negb_true_iff in C. rewrite C. f_equal. apply IH. exact T.
Qed.

Lemma string_app_assoc (a b c : string) :
  ((a ++ b) ++ c = a ++ (b ++ c))%string.
Proof. induction a as [|x a IH]; cbn; [reflexivity|]. rewrite IH. reflexivity. Qed.

Lemma string_app_nil_r (a : string) : (a ++ "")%string = a.
Proof. induction a as [|x a IH]; cbn; [reflexivity|]. rewrite IH. reflexivity. Qed.

Lemma string_length_app (a b : string) :
  String.length (a ++ b) = (String.length a + String.length b)%nat.
Proof. induction a as [|x a IH]; cbn; [reflexivity|]. rewrite IH. reflexivity. Qed.

Lemma string_app_inj (a a' b b' : string) :
  String.length a = String.length a' ->
  (a ++ b = a' ++ b')%string -> a = a' /\ b = b'.
Proof.
  revert a'. induction a as [|x a IH]; intros [|x' a'] L E; cbn in *;
    try discriminate.
  - auto.
  - injection E as -> E. injection L as L.
    destruct (IH a' L E) as [-> ->]. auto.
Qed.

(** The key of an instant whose UTC year has four digits. *)
Lemma isoDate_form (t : TimeValue) :
  0 <= YearFromTime t <= 9999 ->
  DateObject.isoDate t
  = (DateObject.pad 4 (YearFromTime t) ++ "-"
       ++ DateObject.pad 2 (MonthFromTime t + 1) ++ "-"
       ++ DateObject.pad 2 (DateFromTime t))%string.
Proof.
  intros RY. unfold DateObject.isoDate, DateObject.toISOString, DateObject.isoYear.
  replace ((0 <=? YearFromTime t) && (YearFromTime t <=? 9999)) with true
    by (symmetry; apply andb_true_iff; split; apply Z.leb_le; lia).
  pose proof (MonthFromTime_range t) as RM.
  pose proof (DateFromTime_range t) as RD.
  pose proof (daysInMonth_le_31 (InLeapYear (YearFromTime t)) (MonthFromTime t) RM) as R31.
  assert (RM' : 0 <= MonthFromTime t + 1 <= 99) by lia.
  assert (RD' : 0 <= DateFromTime t <= 99) by lia.
  destruct (padReadsBack_spec 4 _ (pad4_reads_back _ RY)) as (_ & TY & _).
  destruct (padReadsBack_spec 2 _ (pad2_reads_back _ RM')) as (_ & TM & _).
  destruct (padReadsBack_spec 2 _ (pad2_reads_back _ RD')) as (_ & TD & _).
  rewrite (beforeFirst_noT _ _ TY). f_equal. cbn [append DateObject.beforeFirst].
  change (Ascii.eqb "-" "T") with false. cbv iota. f_equal.
  rewrite (beforeFirst_noT _ _ TM). f_equal. cbn [append DateObject.beforeFirst].
  change (Ascii.eqb "-" "T") with false. cbv iota. f_equal.
  rewrite (beforeFirst_noT _ _ TD). cbn [DateObject.beforeFirst].
  change (Ascii.eqb "T" "T") with true. cbv iota. apply string_app_nil_r.
Qed.

Lemma Day_of_civil (t : TimeValue) :
  Day t = DayFromYear (YearFromTime t)
          + monthStart (InLeapYear (YearFromTime t)) (MonthFromTime t)
          + DateFromTime t - 1.
Proof. unfold DateFromTime, DayWithinYear. lia. Qed.

Lemma civil_of_Day (t1 t2 : TimeValue) :
  Day t1 = Day t2 ->
  YearFromTime t1 = YearFromTime t2 /\ MonthFromTime t1 = MonthFromTime t2
  /\ DateFromTime t1 = DateFromTime t2.
Proof.
  intros E. unfold DateFromTime, MonthFromTime, DayWithinYear, YearFromTime.
  rewrite E. auto.
Qed.

Lemma isoDate_same_day (t1 t2 : TimeValue) :
  0 <= YearFromTime t1 <= 9999 -> 0 <= YearFromTime t2 <= 9999 ->
  (DateObject.isoDate t1 = DateObject.isoDate t2 <-> Day t1 = Day t2).
Proof.
  intros R1 R2. split.
  - rewrite (isoDate_form t1 R1), (isoDate_form t2 R2). intros E.
    pose proof (MonthFromTime_range t1) as RM1.
    pose proof (MonthFromTime_range t2) as RM2.
    pose proof (DateFromTime_range t1) as RD1.
    pose proof (DateFromTime_range t2) as RD2.
    pose proof (daysInMonth_le_31 (InLeapYear (YearFromTime t1)) _ RM1) as B1.
    pose proof (daysInMonth_le_31 (InLeapYear (YearFromTime t2)) _ RM2) as B2.
    pose proof (pad4_reads_back _ R1) as PY1. pose proof (pad4_reads_back _ R2) as PY2.
    assert (PM1 : View.padReadsBack 2 (MonthFromTime t1 + 1) = true)
      by (apply pad2_reads_back; lia).
    assert (PM2 : View.padReadsBack 2 (MonthFromTime t2 + 1) = true)
      by (apply pad2_reads_back; lia).
    assert (PD1 : View.padReadsBack 2 (DateFromTime t1) = true)
      by (apply pad2_reads_back; lia).
    assert (PD2 : View.padReadsBack 2 (DateFromTime t2) = true)
      by (apply pad2_reads_back; lia).
    destruct (padReadsBack_spec _ _ PY1) as (LY1 & _).
    destruct (padReadsBack_spec _ _ PY2) as (LY2 & _).
    destruct (padReadsBack_spec _ _ PM1) as (LM1 & _).
    destruct (padReadsBack_spec _ _ PM2) as (LM2 & _).
    apply string_app_inj in E; [|congruence]. destruct E as [EY E].
    cbn [append] in E. injection E as E.
    apply string_app_inj in E; [|congruence]. destruct E as [EM E].
    cbn [append] in E. injection E as ED.
    apply (pad_inj 4 _ _ PY1 PY2) in EY.
    apply (pad_inj 2 _ _ PM1 PM2) in EM.
    apply (pad_inj 2 _ _ PD1 PD2) in ED.
    rewrite (Day_of_civil t1), (Day_of_civil t2), EY, ED.
    replace (MonthFromTime t1) with (MonthFromTime t2) by lia. reflexivity.
  - intros E. rewrite (isoDate_form t1 R1), (isoDate_form t2 R2).
    destruct (civil_of_Day t1 t2 E) as (-> & -> & ->). reflexivity.
Qed.

Lemma isoDate_length (t : TimeValue) :
  0 <= YearFromTime t <= 9999 -> String.length (DateObject.isoDate t) = 10%nat.
Proof.
  intros R. rewrite (isoDate_form t R).
  pose proof (MonthFromTime_range t) as RM.
  pose proof (DateFromTime_range t) as RD.
  pose proof (daysInMonth_le_31 (InLeapYear (YearFromTime t)) _ RM) as B.
  assert (RM' : 0 <= MonthFromTime t + 1 <= 99) by lia.
  assert (RD' : 0 <= DateFromTime t <= 99) by lia.
  destruct (padReadsBack_spec _ _ (pad4_reads_back _ R)) as (LY & _).
  destruct (padReadsBack_spec _ _ (pad2_reads_back _ RM')) as (LM & _).
  destruct (padReadsBack_spec _ _ (pad2_reads_back _ RD')) as (LD & _).
  rewrite !string_length_app, LY, LM, LD. reflexivity.
Qed.

Lemma searchParam_length (s : string) :
  String.length (EggProductionClient.searchParam s) = String.length s.
Proof. induction s as [|c s IH]; cbn; [reflexivity|]. rewrite IH. reflexivity. Qed.

(** ** The entry map *)

Lemma entryMap_snoc (es : list Store.EggProduction) (e : Store.EggProduction) :
  Calendar.entryMap (es ++ [e])
  = JS.set (Calendar.entryMap es) (DateObject.isoDate (Store.date e)) e.
Proof. unfold Calendar.entryMap. rewrite fold_left_app. reflexivity. Qed.

(** The map holds, under a key, the last entry of that key. *)
Lemma entryMap_get (es : list Store.EggProduction) (k : string) :
  JS.get (Calendar.entryMap es) k
  = find (fun e => String.eqb (DateObject.isoDate (Store.date e)) k) (rev es).
Proof.
  induction es as [|e es IH] using rev_ind; [reflexivity|].
  rewrite entryMap_snoc, rev_app_distr. cbn [rev app find].
  destruct (String.eqb (DateObject.isoDate (Store.date e)) k) eqn:E.
  - apply String.eqb_eq in E. subst k. apply get_set_same.
  - apply String.eqb_neq in E. rewrite get_set_other by congruence. exact IH.
Qed.

Lemma find_key_unique {A : Type} (f : A -> string) (l : list A) (r : A) :
  NoDup (map f l) -> In r l ->
  find (fun e => String.eqb (f e) (f r)) l = Some r.
Proof.
  induction l as [|a l IH]; cbn; intros ND IN; [contradiction|].
  inversion ND as [|? ? NI ND']; subst.
  destruct IN as [->|IN].
  - rewrite String.eqb_refl. reflexivity.
  - destruct (String.eqb (f a) (f r)) eqn:E; [|apply IH; assumption].
    apply String.eqb_eq in E. exfalso. apply NI. rewrite E. apply in_map. exact IN.
Qed.

Lemma find_key_rev {A : Type} (f : A -> string) (l : list A) (k : string) :
  NoDup (map f l) ->
  find (fun e => String.eqb (f e) k) (rev l) = find (fun e => String.eqb (f e) k) l.
Proof.
  intros ND.
  destruct (find (fun e => String.eqb (f e) k) l) as [r|] eqn:F.
  - apply find_some in F. destruct F as [IN E]. apply String.eqb_eq in E. subst k.
    apply find_key_unique.
    + rewrite map_rev. apply NoDup_rev. exact ND.
    + apply in_rev. rewrite rev_involutive. exact IN.
  - destruct (find (fun e => String.eqb (f e) k) (rev l)) as [r|] eqn:F';
      [|reflexivity].
    apply find_some in F'. destruct F' as [IN E]. apply in_rev in IN.
    pose proof (find_none _ _ F r IN) as N. cbn in N. congruence.
Qed.

(** ** From the table to the cells of the month view *)

Lemma year_between (a b D : Z) :
  DayFromYear a <= D < DayFromYear (b + 1) -> a <= YearFromDay D <= b.
Proof.
  intros [L U]. pose proof (YearFromDay_spec D) as [SL SU]. split.
  - destruct (Z_lt_ge_dec (YearFromDay D) a) as [LT|]; [|lia].
    pose proof (DayFromYear_mono (YearFromDay D + 1) a ltac:(lia)). lia.
  - destruct (Z_lt_ge_dec b (YearFromDay D)) as [LT|]; [|lia].
    pose proof (DayFromYear_mono (b + 1) (YearFromDay D) ltac:(lia)). lia.
Qed.

Lemma eastShift_range (h : Host) : 0 <= View.eastShift h <= 1.
Proof. unfold View.eastShift. destruct (0 <? LocalTZA h); lia. Qed.

Lemma Day_of_cell (h : Host) (viewMonth : TimeValue) (d : Z) :
  Spec.realisticZone h -> ~ 0 <= getFullYear h viewMonth <= 99 ->
  Day (Calendar.handleDayClick h viewMonth d)
  = View.cellDay h viewMonth d - View.eastShift h.
Proof.
  intros RZ NY. unfold Calendar.handleDayClick, DateObject.newDate, View.cellDay.
  unfold Calendar.year at 1. rewrite (MakeFullYear_id _ NY).
  fold (Calendar.year h viewMonth).
  generalize (MakeDay (Calendar.year h viewMonth) (Calendar.month h viewMonth) d).
  intros D. unfold View.eastShift, UTC, MakeDate, Day, Spec.realisticZone in *.
  unfold msPerDay. destruct (Z.ltb_spec 0 (LocalTZA h)); zdiv.
Qed.

Lemma dateOnly_of_cell (h : Host) (viewMonth : TimeValue) (d : Z) :
  Spec.realisticZone h -> ~ 0 <= getFullYear h viewMonth <= 99 ->
  Store.dateOnly (Calendar.handleDayClick h viewMonth d)
  = View.storedDateOfCell h viewMonth d.
Proof.
  intros RZ NY. unfold Store.dateOnly, View.storedDateOfCell, MakeDate.
  rewrite (Day_of_cell h viewMonth d RZ NY). lia.
Qed.

Lemma Day_storedDateOfCell (h : Host) (viewMonth : TimeValue) (d : Z) :
  Day (View.storedDateOfCell h viewMonth d)
  = View.cellDay h viewMonth d - View.eastShift h.
Proof.
  unfold View.storedDateOfCell. apply Day_MakeDate. unfold msPerDay. lia.
Qed.

Lemma cellDay_shift (h : Host) (viewMonth : TimeValue) (d : Z) :
  View.cellDay h viewMonth d = View.cellDay h viewMonth 1 + (d - 1).
Proof. unfold View.cellDay. apply MakeDay_shift. Qed.

(** The UTC year of the stored date of a day cell. *)
Lemma cell_year (h : Host) (viewMonth : TimeValue) (D : Z) :
  100 <= getFullYear h viewMonth <= 9999 ->
  View.cellDay h viewMonth 1 - View.eastShift h <= D
  <= View.cellDay h viewMonth (Calendar.daysInMonth h viewMonth) - View.eastShift h ->
  0 <= YearFromDay D <= 9999.
Proof.
  intros RY RD.
  assert (NY : ~ 0 <= getFullYear h viewMonth <= 99) by lia.
  destruct (daysInMonth_facts h viewMonth NY) as (EN & _ & _).
  assert (RM : 0 <= getMonth h viewMonth <= 11) by apply MonthFromTime_range.
  pose proof (monthStart_bounds (InLeapYear (getFullYear h viewMonth))
                                (getMonth h viewMonth) RM) as (B0 & _ & B1).
  pose proof (eastShift_range h) as RS.
  assert (C1 : View.cellDay h viewMonth 1
               = DayFromYear (getFullYear h viewMonth)
                 + monthStart (InLeapYear (getFullYear h viewMonth)) (getMonth h viewMonth)).
  { unfold View.cellDay, Calendar.year, Calendar.month.
    rewrite (MakeDay_normal _ _ 1 RM). lia. }
  rewrite (cellDay_shift h viewMonth (Calendar.daysInMonth h viewMonth)) in RD.
  rewrite C1, EN in RD.
  pose proof (DayFromYear_lt (getFullYear h viewMonth - 1) (getFullYear h viewMonth)
                             ltac:(lia)) as L1.
  pose proof (DayFromYear_succ (getFullYear h viewMonth)) as S1.
  assert (B : getFullYear h viewMonth - 1 <= YearFromDay D <= getFullYear h viewMonth).
  { apply year_between. rewrite S1.
    destruct (InLeapYear (getFullYear h viewMonth)) eqn:LY;
      unfold DaysInYear; rewrite LY; lia. }
  lia.
Qed.

Lemma NoDup_map_inj_on {A B : Type} (f : A -> B) (l : list A) :
  NoDup l -> (forall a b, In a l -> In b l -> f a = f b -> a = b) ->
  NoDup (map f l).
Proof.
  induction 1 as [|x l NI ND IH]; intros INJ; cbn; constructor.
  - intros IN. apply in_map_iff in IN. destruct IN as (y & E & IN).
    apply NI. rewrite (INJ x y (or_introl eq_refl) (or_intror IN) (eq_sym E)).
    exact IN.
  - apply IH. intros a b Ha Hb. apply INJ; right; assumption.
Qed.

Lemma queryBound_date (h : Host) (s : string) (t : TimeValue) :
  String.length s = 10%nat -> Date_parse h s = Some t ->
  Api.queryBound h (Some s) = inr (Some t).
Proof.
  intros L P. unfold Api.queryBound.
  destruct (String.eqb s "") eqn:E.
  - apply String.eqb_eq in E. subst s. discriminate.
  - rewrite P. reflexivity.
Qed.

Lemma firstDay_is_cell (h : Host) (viewMonth : TimeValue) :
  Calendar.firstDay h viewMonth = Calendar.handleDayClick h viewMonth 1.
Proof. unfold Calendar.firstDay, Calendar.handleDayClick. reflexivity. Qed.

Lemma storedDateOfCell_value (h : Host) (viewMonth : TimeValue) (d : Z) :
  View.storedDateOfCell h viewMonth d
  = (View.cellDay h viewMonth d - View.eastShift h) * msPerDay.
Proof. unfold View.storedDateOfCell, MakeDate. lia. Qed.

Lemma entry_of_day (h : Host) (viewMonth : TimeValue)
      (entries : list Store.EggProduction) (d : Z) :
  d <> 0 ->
  Calendar.entry h viewMonth entries (Some d)
  = JS.get (Calendar.entryMap entries)
           (DateObject.isoDate (Calendar.handleDayClick h viewMonth d)).
Proof.
  intros N. unfold Calendar.entry, Calendar.dateStr, Calendar.handleDayClick.
  apply Z.eqb_neq in N. rewrite N. reflexivity.
Qed.

Lemma fetchEntries_cells
      (browser server : Host) (session : Api.Session) (uid : string)
      (viewMonth : TimeValue) (db : Store.Db) :
  Spec.realisticZone browser ->
  100 <= getFullYear browser viewMonth <= 9999 ->
  Invariant.wellFormed db ->
  Api.sessionUserId session = Some uid ->
  Date_parse server
    (EggProductionClient.searchParam (EggProductionClient.startDate browser viewMonth))
  = Some (Store.dateOnly (Calendar.firstDay browser viewMonth)) ->
  Date_parse server
    (EggProductionClient.searchParam (EggProductionClient.endDate browser viewMonth))
  = Some (Store.dateOnly (Calendar.lastDay browser viewMonth)) ->
  exists entries,
    EggProductionClient.fetchEntries browser server session viewMonth db = inr entries
    /\ (forall r, In r entries <->
                  In r (Store.rows db) /\ Store.userId r = uid
                  /\ View.storedDateOfCell browser viewMonth 1 <= Store.date r
                     <= View.storedDateOfCell browser viewMonth
                          (Calendar.daysInMonth browser viewMonth))
    /\ NoDup (map (fun e => DateObject.isoDate (Store.date e)) entries)
    /\ (forall d r,
          1 <= d <= Calendar.daysInMonth browser viewMonth ->
          (Calendar.entry browser viewMonth entries (Some d) = Some r
           <-> In r (Store.rows db) /\ Store.userId r = uid
               /\ Store.date r = View.storedDateOfCell browser viewMonth d)).
Proof.
  intros RZ RY WF SU PS PE.
  assert (NY : ~ 0 <= getFullYear browser viewMonth <= 99) by lia.
  destruct (daysInMonth_facts browser viewMonth NY) as (EN & RN & LAST).
  pose proof (firstDay_is_cell browser viewMonth) as FIRST.
  rewrite FIRST, (dateOnly_of_cell browser viewMonth 1 RZ NY) in PS.
  rewrite LAST, (dateOnly_of_cell browser viewMonth _ RZ NY) in PE.
  (* years of the instants involved *)
  assert (YCELL : forall d,
             1 <= d <= Calendar.daysInMonth browser viewMonth ->
             0 <= YearFromTime (Calendar.handleDayClick browser viewMonth d) <= 9999).
  { intros d Rd. unfold YearFromTime. apply (cell_year browser viewMonth); auto.
    rewrite (Day_of_cell browser viewMonth d RZ NY).
    rewrite (cellDay_shift browser viewMonth d).
    rewrite (cellDay_shift browser viewMonth (Calendar.daysInMonth browser viewMonth)).
    lia. }
  pose proof (Day_storedDateOfCell browser viewMonth) as DAYST.
  pose proof (storedDateOfCell_value browser viewMonth) as STVAL.
  assert (YROW : forall r,
             View.storedDateOfCell browser viewMonth 1 <= Store.date r
             <= View.storedDateOfCell browser viewMonth
                  (Calendar.daysInMonth browser viewMonth) ->
             0 <= YearFromTime (Store.date r) <= 9999).
  { intros r [L U]. unfold YearFromTime.
    apply (cell_year browser viewMonth); [exact RY|].
    rewrite <- !DAYST. split; apply Day_mono; assumption. }
  assert (ROWDAY : forall r, In r (Store.rows db) ->
                     Store.date r = Day (Store.date r) * msPerDay).
  { intros r IN. exact (eq_sym (rowOk_dateOnly db r WF IN)). }
  (* the two bounds of the query *)
  assert (LS : String.length
                 (EggProductionClient.searchParam
                    (EggProductionClient.startDate browser viewMonth)) = 10%nat).
  { rewrite searchParam_length. unfold EggProductionClient.startDate.
    rewrite FIRST. apply isoDate_length. apply YCELL. lia. }
  assert (LE : String.length
                 (EggProductionClient.searchParam
                    (EggProductionClient.endDate browser viewMonth)) = 10%nat).
  { rewrite searchParam_length. unfold EggProductionClient.endDate.
    rewrite LAST. apply isoDate_length. apply YCELL. lia. }
  pose proof (GET_list_ok server session uid _ _ _ _ db SU
                          (queryBound_date server _ _ LS PS)
                          (queryBound_date server _ _ LE PE)) as RESP.
  remember (Store.findMany db
              {| Store.whereUserId := uid;
                 Store.gte := Some (View.storedDateOfCell browser viewMonth 1);
                 Store.lte := Some (View.storedDateOfCell browser viewMonth
                                      (Calendar.daysInMonth browser viewMonth)) |}
              Store.desc) as entries eqn:EE.
  assert (INE : forall r, In r entries <->
                          In r (Store.rows db) /\ Store.userId r = uid
                          /\ View.storedDateOfCell browser viewMonth 1 <= Store.date r
                             <= View.storedDateOfCell browser viewMonth
                                  (Calendar.daysInMonth browser viewMonth)).
  { intros r. rewrite EE, findMany_In, matches_spec. split.
    - intros (IN & U & L & H). repeat split; auto.
    - intros (IN & U & L & H). repeat split; auto.
      + intros t E. injection E as <-. exact L.
      + intros t E. injection E as <-. exact H. }
  assert (KEYINJ : forall a b, In a entries -> In b entries ->
                     DateObject.isoDate (Store.date a) = DateObject.isoDate (Store.date b) ->
                     a = b).
  { intros a b Ha Hb E. apply INE in Ha, Hb.
    destruct Ha as (Ia & Ua & Ra), Hb as (Ib & Ub & Rb).
    apply (isoDate_same_day _ _ (YROW a Ra) (YROW b Rb)) in E.
    destruct WF as (_ & _ & NK & _).
    apply (NoDup_map_In_inj Invariant.ownerDate (Store.rows db)); auto.
    unfold Invariant.ownerDate. rewrite Ua, Ub. f_equal.
    rewrite (ROWDAY a Ia), (ROWDAY b Ib), E. reflexivity. }
  assert (NDE : NoDup entries).
  { rewrite EE. unfold Store.findMany.
    eapply Permutation_NoDup; [apply Permutation_sym, sort_perm|].
    apply NoDup_filter. apply wellFormed_NoDup_rows. exact WF. }
  assert (NDK : NoDup (map (fun e => DateObject.isoDate (Store.date e)) entries))
    by (apply NoDup_map_inj_on; assumption).
  exists entries. split; [|split; [exact INE|split; [exact NDK|]]].
  - unfold EggProductionClient.fetchEntries. rewrite RESP. reflexivity.
  - intros d r Rd.
    rewrite (entry_of_day browser viewMonth entries d) by lia.
    rewrite entryMap_get.
    assert (RANGE : View.storedDateOfCell browser viewMonth 1
                    <= View.storedDateOfCell browser viewMonth d
                    <= View.storedDateOfCell browser viewMonth
                         (Calendar.daysInMonth browser viewMonth)).
    { rewrite (STVAL 1), (STVAL d), (STVAL (Calendar.daysInMonth browser viewMonth)).
      rewrite (cellDay_shift browser viewMonth d),
        (cellDay_shift browser viewMonth (Calendar.daysInMonth browser viewMonth)).
      unfold msPerDay. lia. }
    split.
    + intros F. apply find_some in F. destruct F as [IN K].
      apply in_rev in IN. apply String.eqb_eq in K.
      apply INE in IN. destruct IN as (IN & U & R).
      split; [exact IN|]. split; [exact U|].
      apply (isoDate_same_day _ _ (YROW r R) (YCELL d Rd)) in K.
      rewrite (ROWDAY r IN), K, (STVAL d).
      rewrite (Day_of_cell browser viewMonth d RZ NY). reflexivity.
    + intros (IN & U & E).
      assert (INr : In r entries) by (apply INE; rewrite E; auto).
      assert (K : DateObject.isoDate (Store.date r)
                  = DateObject.isoDate (Calendar.handleDayClick browser viewMonth d)).
      { apply isoDate_same_day.
        - apply YROW. rewrite E. exact RANGE.
        - apply YCELL. exact Rd.
        - rewrite E, DAYST. symmetry. apply Day_of_cell; assumption. }
      rewrite <- K.
      apply (find_key_unique (fun e => DateObject.isoDate (Store.date e))).
      * rewrite map_rev. apply NoDup_rev. exact NDK.
      * apply in_rev. rewrite rev_involutive. exact INr.
Qed.

Lemma storedDateOfCell_utcMidnight (h : Host) (viewMonth : TimeValue) (d : Z) :
  View.storedDateOfCell h viewMonth d
  = utcMidnight (getFullYear h viewMonth) (getMonth h viewMonth + 1)
                (d - (if 0 <? LocalTZA h then 1 else 0)).
Proof.
  unfold View.storedDateOfCell, View.cellDay, View.eastShift, utcMidnight,
    Calendar.year, Calendar.month.
  rewrite Z.add_simpl_r. f_equal. unfold MakeDay. lia.
Qed.

Lemma click_opens_shown_entry (h : Host) (viewMonth : TimeValue)
      (entries : list Store.EggProduction) (d : Z) :
  d <> 0 ->
  NoDup (map (fun e => DateObject.isoDate (Store.date e)) entries) ->
  EggProductionClient.handleDayClick entries (Calendar.handleDayClick h viewMonth d)
  = Calendar.entry h viewMonth entries (Some d).
Proof.
  intros N ND. rewrite (entry_of_day h viewMonth entries d N), entryMap_get.
  unfold EggProductionClient.handleDayClick.
  symmetry. apply (find_key_rev (fun e => DateObject.isoDate (Store.date e))).
  exact ND.
Qed.

(** X16.  From the table to the month view, in any time zone.  Let the
    browser's zone offset lie between UTC-12 and UTC+14, the year of the
    view month between 100 and 9999, the table be well formed, and the
    server read the two date strings of the query as midnights UTC (as
    ECMAScript prescribes for the date-only form).  Then [fetchEntries]
    succeeds, and the cell of day d shows a record exactly when it is the
    signed-in user's record stored for the calendar date d of the view
    month when the browser is at or west of UTC, and for the date before
    it when the browser is east of UTC; a click on the cell opens the
    dialog with the entry the cell shows. *)
Theorem month_view_shows_stored_records
        (browser server : Host) (session : Api.Session) (uid : string)
        (viewMonth : TimeValue) (db : Store.Db) :
  Spec.realisticZone browser ->
  100 <= getFullYear browser viewMonth <= 9999 ->
  Invariant.wellFormed db ->
  Api.sessionUserId session = Some uid ->
  Date_parse server
    (EggProductionClient.searchParam (EggProductionClient.startDate browser viewMonth))
  = Some (Store.dateOnly (Calendar.firstDay browser viewMonth)) ->
  Date_parse server
    (EggProductionClient.searchParam (EggProductionClient.endDate browser viewMonth))
  = Some (Store.dateOnly (Calendar.lastDay browser viewMonth)) ->
  exists entries,
    EggProductionClient.fetchEntries browser server session viewMonth db = inr entries
    /\ forall d,
         1 <= d <= Calendar.daysInMonth browser viewMonth ->
         (forall r,
            Calendar.entry browser viewMonth entries (Some d) = Some r
            <-> In r (Store.rows db) /\ Store.userId r = uid
                /\ Store.date r
                   = utcMidnight (getFullYear browser viewMonth)
                                 (getMonth browser viewMonth + 1)
                                 (d - (if 0 <? LocalTZA browser then 1 else 0)))
         /\ EggProductionClient.handleDayClick
              entries (Calendar.handleDayClick browser viewMonth d)
            = Calendar.entry browser viewMonth entries (Some d).
Proof.
  intros RZ RY WF SU PS PE.
  destruct (fetchEntries_cells browser server session uid viewMonth db
                               RZ RY WF SU PS PE) as (entries & FE & _ & NDK & CELL).
  exists entries. split; [exact FE|].
  intros d Rd. split.
  - intros r. rewrite <- storedDateOfCell_utcMidnight. apply CELL. exact Rd.
  - apply click_opens_shown_entry; [lia|exact NDK].
Qed.

(** X16, witness: May 2025 seen two hours east of UTC, on the table that
    holds user1's record of 2025-05-10. *)
Lemma month_view_shows_stored_records_witness :
  Spec.realisticZone Sample2.eastHost
  /\ 100 <= getFullYear Sample2.eastHost (utcInstant 2025 5 20 12 0) <= 9999
  /\ Invariant.wellFormed Sample.springDb
  /\ exists entries,
       EggProductionClient.fetchEntries Sample2.eastHost Sample.utcHost (Some "user1")
                                        (utcInstant 2025 5 20 12 0) Sample.springDb
       = inr entries
       /\ forall d,
            1 <= d <= Calendar.daysInMonth Sample2.eastHost (utcInstant 2025 5 20 12 0) ->
            (forall r,
               Calendar.entry Sample2.eastHost (utcInstant 2025 5 20 12 0) entries (Some d)
               = Some r
               <-> In r (Store.rows Sample.springDb) /\ Store.userId r = "user1"
                   /\ Store.date r
                      = utcMidnight
                          (getFullYear Sample2.eastHost (utcInstant 2025 5 20 12 0))
                          (getMonth Sample2.eastHost (utcInstant 2025 5 20 12 0) + 1)
                          (d - (if 0 <? LocalTZA Sample2.eastHost then 1 else 0)))
            /\ EggProductionClient.handleDayClick
                 entries
                 (Calendar.handleDayClick Sample2.eastHost (utcInstant 2025 5 20 12 0) d)
               = Calendar.entry Sample2.eastHost (utcInstant 2025 5 20 12 0) entries
                                (Some d).
Proof.
  assert (RZ : Spec.realisticZone Sample2.eastHost)
    by (unfold Spec.realisticZone; cbn; lia).
  assert (RY : 100 <= getFullYear Sample2.eastHost (utcInstant 2025 5 20 12 0) <= 9999)
    by (vm_compute; split; discriminate).
  split; [exact RZ|]. split; [exact RY|]. split; [exact springDb_wellFormed|].
  apply (month_view_shows_stored_records
           Sample2.eastHost Sample.utcHost (Some "user1") "user1"
           (utcInstant 2025 5 20 12 0) Sample.springDb RZ RY springDb_wellFormed eq_refl);
    vm_compute; reflexivity.
Defined.

(** The same month on the same table, seen from both sides of UTC: five
    hours west of UTC the record stored for 2025-05-10 stands in the cell
    of day 10, two hours east of UTC it stands in the cell of day 11 and
    the cell of day 10 is empty. *)
Example record_of_May_10_in_two_zones :
  (exists entries,
     EggProductionClient.fetchEntries Sample.westHost Sample.utcHost (Some "user1")
                                      (utcInstant 2025 5 20 12 0) Sample.springDb
     = inr entries
     /\ Calendar.entry Sample.westHost (utcInstant 2025 5 20 12 0) entries (Some 10)
        = Some (Sample.row 1 "user1" (utcMidnight 2025 5 10) 3))
  /\ (exists entries,
        EggProductionClient.fetchEntries Sample2.eastHost Sample.utcHost (Some "user1")
                                         (utcInstant 2025 5 20 12 0) Sample.springDb
        = inr entries
        /\ Calendar.entry Sample2.eastHost (utcInstant 2025 5 20 12 0) entries (Some 10)
           = None
        /\ Calendar.entry Sample2.eastHost (utcInstant 2025 5 20 12 0) entries (Some 11)
           = Some (Sample.row 1 "user1" (utcMidnight 2025 5 10) 3)).
Proof.
  split; eexists; (split; [vm_compute; reflexivity|]);
    [|split]; vm_compute; reflexivity.
Qed.

(** ** From the dialog to the month view *)

Lemma onSubmit_add_success
      (server : Host) (loadedAt now : TimeValue) (session : Api.Session)
      (data : Zod.Parsed) (db : Store.Db) :
  fst (Dialog.onSubmit server loadedAt now session None data db) = None ->
  exists uid v e db',
    Api.sessionUserId session = Some uid
    /\ serverValidate loadedAt
         (Api.parseBodyDate server
            (JS.VString (DateObject.toISOString (Zod.pdate data))))
         (JS.VNumber (JS.Finite (Zod.pcount data))) = Zod.Success v
    /\ Store.create db now uid (Zod.pdate v) (JS.toInt (Zod.pcount v)) = inr (e, db')
    /\ snd (Dialog.onSubmit server loadedAt now session None data db) = db'.
Proof.
  unfold Dialog.onSubmit.
  destruct (POST_cases server loadedAt now session (Dialog.requestBody data) db)
    as [[SU E] | [(uid & e & SU & E)
                | (uid & bd & bc & v & e & db' & SU & B & V & C & E)]];
    rewrite E.
  - cbn. discriminate.
  - unfold Dialog.ok.
    destruct (POST_catch_status e) as [-> | ->]; cbn; discriminate.
  - intros _. unfold Dialog.requestBody in B. injection B as <- <-.
    exists uid, v, e, db'. cbn. auto.
Qed.

(** X17.  An entry added through the dialog appears in the month view.
    Under the assumptions of X16, and if the server reads the ISO string
    of the submitted date back as the same instant: when [onSubmit] for a
    new entry ends without an error, the table holds one more record, of
    the signed-in user, stored for the UTC calendar date of the submitted
    Date with the submitted count (the integer that the submitted number
    is); after the refetch the cell of day d
    shows that record exactly when the UTC date of the submitted Date is
    the date the cell looks up, and it does so in particular when the
    submitted Date is the one the click on the cell handed to the
    dialog. *)
Theorem added_entry_appears_in_month_view
        (browser server : Host) (loadedAt now : TimeValue) (session : Api.Session)
        (uid : string) (viewMonth : TimeValue) (data : Zod.Parsed) (db : Store.Db) :
  Spec.realisticZone browser ->
  100 <= getFullYear browser viewMonth <= 9999 ->
  Invariant.wellFormed db ->
  Api.sessionUserId session = Some uid ->
  Date_parse server
    (EggProductionClient.searchParam (EggProductionClient.startDate browser viewMonth))
  = Some (Store.dateOnly (Calendar.firstDay browser viewMonth)) ->
  Date_parse server
    (EggProductionClient.searchParam (EggProductionClient.endDate browser viewMonth))
  = Some (Store.dateOnly (Calendar.lastDay browser viewMonth)) ->
  Date_parse server (DateObject.toISOString (Zod.pdate data)) = Some (Zod.pdate data) ->
  fst (Dialog.onSubmit server loadedAt now session None data db) = None ->
  exists e entries,
    Store.rows (snd (Dialog.onSubmit server loadedAt now session None data db))
    = Store.rows db ++ [e]
    /\ Store.userId e = uid
    /\ Store.date e = Store.dateOnly (Zod.pdate data)
    /\ Store.count e = JS.toInt (Zod.pcount data)
    /\ (Zod.pcount data == inject_Z (Store.count e))%Q
    /\ EggProductionClient.fetchEntries
         browser server session viewMonth
         (snd (Dialog.onSubmit server loadedAt now session None data db))
       = inr entries
    /\ forall d,
         1 <= d <= Calendar.daysInMonth browser viewMonth ->
         (Calendar.entry browser viewMonth entries (Some d) = Some e
          <-> Store.dateOnly (Zod.pdate data)
              = utcMidnight (getFullYear browser viewMonth)
                            (getMonth browser viewMonth + 1)
                            (d - (if 0 <? LocalTZA browser then 1 else 0)))
         /\ (Zod.pdate data = Calendar.handleDayClick browser viewMonth d ->
             Calendar.entry browser viewMonth entries (Some d) = Some e).
Proof.
  intros RZ RY WF SU PS PE PI OK.
  assert (NY : ~ 0 <= getFullYear browser viewMonth <= 99) by lia.
  destruct (onSubmit_add_success server loadedAt now session data db OK)
    as (uid' & v & e & db' & SU' & V & C & ->).
  assert (uid' = uid) by congruence. subst uid'.
  pose proof (validated_count_range _ _ _ _ V) as RC.
  apply serverValidate_success_inv in V. destruct V as (VD & VC & _ & SAFE & NNEG).
  cbn [Api.parseBodyDate] in VD. rewrite PI in VD.
  injection VD as VD. injection VC as VC.
  pose proof (wellFormed_create db db' now uid (Zod.pdate v) (JS.toInt (Zod.pcount v)) e
                                WF (sessionUserId_nonempty session uid SU) RC C) as WF'.
  apply create_inv in C. destruct C as (Ee & Edb & _).
  assert (ROWS : Store.rows db' = Store.rows db ++ [e]) by (rewrite Edb; reflexivity).
  assert (Ue : Store.userId e = uid) by (rewrite Ee; reflexivity).
  assert (De : Store.date e = Store.dateOnly (Zod.pdate data))
    by (rewrite Ee, VD; reflexivity).
  assert (Ce : Store.count e = JS.toInt (Zod.pcount data)).
  { rewrite Ee. cbn [Store.count]. unfold JS.toInt. rewrite VC. reflexivity. }
  assert (Qe : (Zod.pcount data == inject_Z (Store.count e))%Q).
  { rewrite Ce, VC. apply (safe_nonnegative_toInt _ SAFE NNEG). }
  destruct (fetchEntries_cells browser server session uid viewMonth db'
                               RZ RY WF' SU PS PE) as (entries & FE & _ & _ & CELL).
  exists e, entries.
  split; [exact ROWS|]. split; [exact Ue|]. split; [exact De|]. split; [exact Ce|].
  split; [exact Qe|]. split; [exact FE|].
  intros d Rd.
  assert (INe : In e (Store.rows db'))
    by (rewrite ROWS; apply in_or_app; right; left; reflexivity).
  assert (IFF : Calendar.entry browser viewMonth entries (Some d) = Some e
                <-> Store.dateOnly (Zod.pdate data)
                    = View.storedDateOfCell browser viewMonth d).
  { rewrite (CELL d e Rd), De. tauto. }
  split.
  - rewrite <- storedDateOfCell_utcMidnight. exact IFF.
  - intros CL. apply IFF. rewrite CL. apply dateOnly_of_cell; assumption.
Qed.

(** X17, witness: five hours west of UTC, user1 adds 7 eggs for the
    clicked cell of 2025-05-12. *)
Lemma added_entry_appears_in_month_view_witness :
  Spec.realisticZone Sample.westHost
  /\ 100 <= getFullYear Sample.westHost (utcInstant 2025 5 20 12 0) <= 9999
  /\ Invariant.wellFormed Sample.springDb
  /\ fst (Dialog.onSubmit
            Sample2.isoHost (utcInstant 2025 11 1 8 0) (utcInstant 2025 11 5 12 0)
            (Some "user1") None
            {| Zod.pdate :=
                 Calendar.handleDayClick Sample.westHost (utcInstant 2025 5 20 12 0) 12;
               Zod.pcount := inject_Z 7 |}
            Sample.springDb) = None
  /\ exists e entries,
       Store.rows
         (snd (Dialog.onSubmit
                 Sample2.isoHost (utcInstant 2025 11 1 8 0) (utcInstant 2025 11 5 12 0)
                 (Some "user1") None
                 {| Zod.pdate :=
                      Calendar.handleDayClick Sample.westHost
                                              (utcInstant 2025 5 20 12 0) 12;
                    Zod.pcount := inject_Z 7 |}
                 Sample.springDb))
       = Store.rows Sample.springDb ++ [e]
       /\ Calendar.entry Sample.westHost (utcInstant 2025 5 20 12 0) entries (Some 12)
          = Some e.
Proof.
  assert (RZ : Spec.realisticZone Sample.westHost)
    by (unfold Spec.realisticZone; cbn; lia).
  assert (RY : 100 <= getFullYear Sample.westHost (utcInstant 2025 5 20 12 0) <= 9999)
    by (vm_compute; split; discriminate).
  assert (OK : fst (Dialog.onSubmit
                      Sample2.isoHost (utcInstant 2025 11 1 8 0)
                      (utcInstant 2025 11 5 12 0) (Some "user1") None
                      {| Zod.pdate :=
                           Calendar.handleDayClick Sample.westHost
                                                   (utcInstant 2025 5 20 12 0) 12;
                         Zod.pcount := inject_Z 7 |}
                      Sample.springDb) = None)
    by (vm_compute; reflexivity).
  split; [exact RZ|]. split; [exact RY|]. split; [exact springDb_wellFormed|].
  split; [exact OK|].
  destruct (added_entry_appears_in_month_view
              Sample.westHost Sample2.isoHost (utcInstant 2025 11 1 8 0)
              (utcInstant 2025 11 5 12 0) (Some "user1") "user1"
              (utcInstant 2025 5 20 12 0)
              {| Zod.pdate :=
                   Calendar.handleDayClick Sample.westHost (utcInstant 2025 5 20 12 0) 12;
                 Zod.pcount := inject_Z 7 |}
              Sample.springDb RZ RY springDb_wellFormed eq_refl)
    as (e & entries & ROWS & _ & _ & _ & _ & _ & CELL);
    [vm_compute; reflexivity | vm_compute; reflexivity | vm_compute; reflexivity
     | exact OK |].
  exists e, entries. split; [exact ROWS|].
  apply (CELL 12); [vm_compute; split; discriminate|reflexivity].
Defined.

(** ** The empty state of the monthly table *)

(** X18.  The monthly route of a signed-in user answers 200 with the
    rows of the aggregation, and the table component shows its empty
    state for that answer when the user has no record dated on the day of
    the window start or later, and shows rows when the user has a record
    dated after that day; a record of another user, or an older record,
    never fills the table.  (For a user whose only records in reach are
    dated on the day of the window start itself, the outcome is the
    table's comparison of that date with an instant within the day, and
    is not stated.) *)
Theorem monthly_empty_state
        (h : Host) (now : TimeValue) (session : Api.Session) (uid : string)
        (db : Store.Db) :
  Api.sessionUserId session = Some uid ->
  exists monthlyData,
    Api.GET_monthly h now session db = Api.json (Api.JMonthly monthlyData) 200
    /\ ((forall r, In r (Store.rows db) -> Store.userId r = uid ->
                   Day (Store.date r) < Day (Api.sixMonthsAgo h now)) ->
        MonthlyAggregateTable.showsEmptyState (Some monthlyData) = true)
    /\ ((exists r, In r (Store.rows db) /\ Store.userId r = uid
                   /\ Day (Api.sixMonthsAgo h now) < Day (Store.date r)) ->
        MonthlyAggregateTable.showsEmptyState (Some monthlyData) = false).
Proof.
  intros SU. eexists. split; [ | split].
  - unfold Api.GET_monthly. rewrite SU. reflexivity.
  - intros NONE. cbn [MonthlyAggregateTable.showsEmptyState].
    rewrite Nat.eqb_eq, length_zero_iff_nil, aggregate_nil_iff.
    destruct (Api.fetchSince db uid (Api.sixMonthsAgo h now)) as [|[d c] l] eqn:F;
      [reflexivity|].
    exfalso.
    assert (X : In (d, c) (Api.fetchSince db uid (Api.sixMonthsAgo h now)))
      by (rewrite F; left; reflexivity).
    pose proof (fetchSince_from_day _ _ _ _ _ X) as LE.
    apply fetchSince_In in X. destruct X as (r & IN & U & _ & E & _).
    specialize (NONE r IN U). rewrite E in NONE. lia.
  - intros (r & IN & U & G). cbn [MonthlyAggregateTable.showsEmptyState].
    apply Nat.eqb_neq. intros E.
    apply length_zero_iff_nil, aggregate_nil_iff in E.
    pose proof (fetchSince_after_day db uid _ r IN U G) as X.
    rewrite E in X. destruct X.
Qed.

(** X18, witness: at noon of 2025-11-15 the table of user1, whose record
    of 2025-05-10 lies after the first of May, shows rows. *)
Lemma monthly_empty_state_witness :
  Api.sessionUserId (Some "user1") = Some "user1"
  /\ exists monthlyData,
       Api.GET_monthly Sample.utcHost (utcInstant 2025 11 15 12 0) (Some "user1")
                       Sample.springDb
       = Api.json (Api.JMonthly monthlyData) 200
       /\ MonthlyAggregateTable.showsEmptyState (Some monthlyData) = false.
Proof.
  split; [reflexivity|].
  destruct (monthly_empty_state Sample.utcHost (utcInstant 2025 11 15 12 0)
                                (Some "user1") "user1" Sample.springDb eq_refl)
    as (monthlyData & E & _ & ROWS).
  exists monthlyData. split; [exact E|]. apply ROWS.
  exists (Sample.row 1 "user1" (utcMidnight 2025 5 10) 3).
  split; [cbn; auto|]. split; [reflexivity|]. vm_compute. reflexivity.
Defined.

(* ================================================================== *)
(** * Marking a chicken as deceased                                    *)
(* ================================================================== *)

Lemma bad_not_update (error : string) (status : Z) (t : TimeValue) :
  MarkDeceased.bad error status <> MarkDeceased.Update t.
Proof. discriminate. Qed.

(** X19.  The mark-deceased route issues an update only for the owner of
    the chicken and only with a death date that is not after the instant
    of the request and not before the birth date, if there is one; and
    for the owner it does issue the update for every non-empty date
    string that the host reads as such an instant.  A death date equal to
    the birth date, or equal to the instant of the request, is accepted.
    Every answer that is not an update carries one of the statuses 400,
    401, 403, 404 and 500. *)
Theorem mark_deceased_updates_exactly
        (h : Host) (now : TimeValue) (session : Api.Session)
        (chicken : MarkDeceased.Selected) :
  (forall request t,
     MarkDeceased.POST h now session (Some chicken) request = MarkDeceased.Update t ->
     Api.sessionUserId session = Some (MarkDeceased.userId chicken)
     /\ t <= now
     /\ (forall birth, MarkDeceased.birthDate chicken = Some birth -> birth <= t))
  /\ (forall s t,
        Api.sessionUserId session = Some (MarkDeceased.userId chicken) ->
        s <> "" -> Date_parse h s = Some t -> t <= now ->
        (forall birth, MarkDeceased.birthDate chicken = Some birth -> birth <= t) ->
        MarkDeceased.POST h now session (Some chicken)
                          (MarkDeceased.Body (MarkDeceased.JString s))
        = MarkDeceased.Update t)
  /\ (forall found request r,
        MarkDeceased.POST h now session found request = MarkDeceased.Respond r ->
        In (Api.status r) [400; 401; 403; 404; 500]).
Proof.
  split; [|split].
  - intros request t. unfold MarkDeceased.POST.
    destruct (Api.sessionUserId session) as [uid|]; [|discriminate].
    destruct (String.eqb (MarkDeceased.userId chicken) uid) eqn:U; cbn [negb];
      [|intros H; destruct (bad_not_update _ _ _ H)].
    apply String.eqb_eq in U. subst uid.
    destruct request as [|v]; [intros H; destruct (bad_not_update _ _ _ H)|].
    destruct (MarkDeceased.truthy v); cbn [negb];
      [|intros H; destruct (bad_not_update _ _ _ H)].
    destruct (MarkDeceased.newDate h v) as [d|];
      [|intros H; destruct (bad_not_update _ _ _ H)].
    destruct (Z.ltb_spec now d) as [LT|GE];
      [intros H; destruct (bad_not_update _ _ _ H)|].
    destruct (MarkDeceased.birthDate chicken) as [b|].
    + destruct (Z.ltb_spec d b) as [LB|GB];
        [intros H; destruct (bad_not_update _ _ _ H)|].
      intros H. injection H as <-. split; [reflexivity|]. split; [exact GE|].
      intros birth E. injection E as <-. exact GB.
    + intros H. injection H as <-. split; [reflexivity|]. split; [exact GE|].
      intros birth E. discriminate.
  - intros s t SU NE P LE B. unfold MarkDeceased.POST.
    rewrite SU, String.eqb_refl. cbn [negb MarkDeceased.truthy MarkDeceased.newDate].
    apply String.eqb_neq in NE. rewrite NE, P. cbn [negb].
    destruct (Z.ltb_spec now t) as [LT|GE]; [lia|].
    destruct (MarkDeceased.birthDate chicken) as [b|]; [|reflexivity].
    specialize (B b eq_refl). destruct (Z.ltb_spec t b) as [LB|GB]; [lia|reflexivity].
  - intros found request r. unfold MarkDeceased.POST, MarkDeceased.bad.
    destruct (Api.sessionUserId session) as [uid|];
      [|intros H; injection H as <-; cbn; auto].
    destruct found as [c|]; [|intros H; injection H as <-; cbn; auto 6].
    destruct (negb (String.eqb (MarkDeceased.userId c) uid));
      [intros H; injection H as <-; cbn; auto 6|].
    destruct request as [|v]; [intros H; injection H as <-; cbn; auto 6|].
    destruct (negb (MarkDeceased.truthy v)); [intros H; injection H as <-; cbn; auto|].
    destruct (MarkDeceased.newDate h v) as [d|];
      [|intros H; injection H as <-; cbn; auto].
    destruct (now <? d); [intros H; injection H as <-; cbn; auto|].
    destruct (MarkDeceased.birthDate c) as [b|]; [|discriminate].
    destruct (d <? b); [intros H; injection H as <-; cbn; auto|discriminate].
Qed.

(** X19, witness: the owner reports the death of a hen hatched on
    2024-03-01 as of 2025-01-01. *)
Lemma mark_deceased_updates_exactly_witness :
  MarkDeceased.POST Sample.utcHost (utcInstant 2025 11 5 12 0) (Some "user1")
    (Some {| MarkDeceased.id := "c1"; MarkDeceased.userId := "user1";
             MarkDeceased.birthDate := Some (utcMidnight 2024 3 1);
             MarkDeceased.name := "Hen" |})
    (MarkDeceased.Body (MarkDeceased.JString "2025-01-01"))
  = MarkDeceased.Update (utcMidnight 2025 1 1).
Proof.
  apply (proj1 (proj2 (mark_deceased_updates_exactly
                         Sample.utcHost (utcInstant 2025 11 5 12 0) (Some "user1")
                         {| MarkDeceased.id := "c1"; MarkDeceased.userId := "user1";
                            MarkDeceased.birthDate := Some (utcMidnight 2024 3 1);
                            MarkDeceased.name := "Hen" |}))).
  - reflexivity.
  - discriminate.
  - vm_compute. reflexivity.
  - vm_compute. discriminate.
  - intros birth E. injection E as <-. vm_compute. discriminate.
Defined.

(** The value of [body.deathDate] need not be a string: the number
    86400000 is taken as 1970-01-02, [true] as one millisecond after the
    epoch; 0, [false] and the empty string count as missing. *)
Example mark_deceased_other_values :
  let hen := {| MarkDeceased.id := "c1"; MarkDeceased.userId := "user1";
                MarkDeceased.birthDate := None; MarkDeceased.name := "Hen" |} in
  let post v := MarkDeceased.POST Sample.utcHost (utcInstant 2025 11 5 12 0)
                                  (Some "user1") (Some hen) (MarkDeceased.Body v) in
  post (MarkDeceased.JNumber (inject_Z 86400000))
  = MarkDeceased.Update (utcMidnight 1970 1 2)
  /\ post (MarkDeceased.JBool true) = MarkDeceased.Update 1
  /\ post (MarkDeceased.JNumber 0) = MarkDeceased.bad "Death date is required." 400
  /\ post (MarkDeceased.JBool false) = MarkDeceased.bad "Death date is required." 400
  /\ post (MarkDeceased.JString "") = MarkDeceased.bad "Death date is required." 400
  /\ post (MarkDeceased.JString "tomorrow")
     = MarkDeceased.bad "Invalid death date format." 400.
Proof. cbv zeta. repeat split; vm_compute; reflexivity. Qed.

(** ** Editing through the dialog *)

Lemma onSubmit_edit (server : Host) (loadedAt now : TimeValue)
      (session : Api.Session) (entry : Store.EggProduction) (data : Zod.Parsed)
      (db db' : Store.Db) (updated : Store.EggProduction) :
  Api.PUT server loadedAt now session (Store.id entry) (Dialog.requestBody data) db
  = (Api.json (Api.JEntry updated) 200, db') ->
  Dialog.onSubmit server loadedAt now session (Some entry) data db = (None, db').
Proof. intros E. unfold Dialog.onSubmit. rewrite E. reflexivity. Qed.

(** X20.  An entry edited through the dialog stays in its cell.  Under
    the assumptions of X16, let the signed-in user own the record
    [entry], and let the submitted Date be an instant of the record's
    calendar date that the server reads back from its ISO string and that
    the schema accepts, with an integer count between 0 and 2^53-1.  Then
    [onSubmit] ends without an error, and after the refetch a cell of the
    month view shows the record with the new count exactly when it showed
    the record before. *)
Theorem edited_entry_stays_in_its_cell
        (browser server : Host) (loadedAt now : TimeValue) (session : Api.Session)
        (uid : string) (viewMonth : TimeValue) (entry : Store.EggProduction)
        (data : Zod.Parsed) (z : Z) (db : Store.Db) :
  Spec.realisticZone browser ->
  100 <= getFullYear browser viewMonth <= 9999 ->
  Invariant.wellFormed db ->
  Api.sessionUserId session = Some uid ->
  Date_parse server
    (EggProductionClient.searchParam (EggProductionClient.startDate browser viewMonth))
  = Some (Store.dateOnly (Calendar.firstDay browser viewMonth)) ->
  Date_parse server
    (EggProductionClient.searchParam (EggProductionClient.endDate browser viewMonth))
  = Some (Store.dateOnly (Calendar.lastDay browser viewMonth)) ->
  Store.findUnique db (Store.id entry) = Some entry ->
  Store.userId entry = uid ->
  Date_parse server (DateObject.toISOString (Zod.pdate data)) = Some (Zod.pdate data) ->
  Store.dateOnly (Zod.pdate data) = Store.date entry ->
  Zod.pdate data <= loadedAt ->
  Zod.pcount data = inject_Z z -> 0 <= z <= 2 ^ 53 - 1 ->
  exists before after,
    EggProductionClient.fetchEntries browser server session viewMonth db = inr before
    /\ fst (Dialog.onSubmit server loadedAt now session (Some entry) data db) = None
    /\ EggProductionClient.fetchEntries
         browser server session viewMonth
         (snd (Dialog.onSubmit server loadedAt now session (Some entry) data db))
       = inr after
    /\ forall d,
         1 <= d <= Calendar.daysInMonth browser viewMonth ->
         (Calendar.entry browser viewMonth before (Some d) = Some entry
          <-> Calendar.entry browser viewMonth after (Some d)
              = Some (Store.setFields now (Store.date entry) z entry)).
Proof.
  intros RZ RY WF SU PS PE F U PI D B C R.
  destruct (PUT_same_date server loadedAt now session uid
                          (DateObject.toISOString (Zod.pdate data)) (Zod.pdate data) z
                          (Store.id entry) entry db WF SU F U PI D B R)
    as (db' & PUT & F' & WF').
  assert (REQ : Dialog.requestBody data
                = Api.BodyFields (JS.VString (DateObject.toISOString (Zod.pdate data)))
                                 (JS.VNumber (JS.ofZ z))).
  { unfold Dialog.requestBody, JS.ofZ. rewrite C. reflexivity. }
  rewrite <- REQ in PUT.
  rewrite (onSubmit_edit server loadedAt now session entry data db db' _ PUT).
  cbn [fst snd].
  destruct (fetchEntries_cells browser server session uid viewMonth db
                               RZ RY WF SU PS PE) as (before & FB & _ & _ & CB).
  destruct (fetchEntries_cells browser server session uid viewMonth db'
                               RZ RY WF' SU PS PE) as (after & FA & _ & _ & CA).
  exists before, after.
  split; [exact FB|]. split; [reflexivity|]. split; [exact FA|].
  intros d Rd. rewrite (CB d entry Rd), (CA d _ Rd).
  apply findUnique_id in F. destruct F as [_ IN].
  apply findUnique_id in F'. destruct F' as [_ IN'].
  cbn [Store.setFields Store.userId Store.date]. tauto.
Qed.

(** X20, witness: five hours west of UTC, user1 changes the count of the
    record of 2025-05-10 to 6. *)
Lemma edited_entry_stays_in_its_cell_witness :
  Spec.realisticZone Sample.westHost
  /\ Invariant.wellFormed Sample.springDb
  /\ exists before after,
       EggProductionClient.fetchEntries Sample.westHost Sample2.isoHost (Some "user1")
                                        (utcInstant 2025 5 20 12 0) Sample.springDb
       = inr before
       /\ fst (Dialog.onSubmit
                 Sample2.isoHost (utcInstant 2025 11 1 8 0) (utcInstant 2025 11 5 12 0)
                 (Some "user1")
                 (Some (Sample.row 1 "user1" (utcMidnight 2025 5 10) 3))
                 {| Zod.pdate := utcMidnight 2025 5 10; Zod.pcount := inject_Z 6 |}
                 Sample.springDb) = None
       /\ EggProductionClient.fetchEntries
            Sample.westHost Sample2.isoHost (Some "user1") (utcInstant 2025 5 20 12 0)
            (snd (Dialog.onSubmit
                    Sample2.isoHost (utcInstant 2025 11 1 8 0)
                    (utcInstant 2025 11 5 12 0) (Some "user1")
                    (Some (Sample.row 1 "user1" (utcMidnight 2025 5 10) 3))
                    {| Zod.pdate := utcMidnight 2025 5 10; Zod.pcount := inject_Z 6 |}
                    Sample.springDb))
          = inr after
       /\ forall d,
            1 <= d <= Calendar.daysInMonth Sample.westHost (utcInstant 2025 5 20 12 0) ->
            (Calendar.entry Sample.westHost (utcInstant 2025 5 20 12 0) before (Some d)
             = Some (Sample.row 1 "user1" (utcMidnight 2025 5 10) 3)
             <-> Calendar.entry Sample.westHost (utcInstant 2025 5 20 12 0) after (Some d)
                 = Some (Store.setFields
                           (utcInstant 2025 11 5 12 0)
                           (Store.date (Sample.row 1 "user1" (utcMidnight 2025 5 10) 3))
                           6 (Sample.row 1 "user1" (utcMidnight 2025 5 10) 3))).
Proof.
  assert (RZ : Spec.realisticZone Sample.westHost)
    by (unfold Spec.realisticZone; cbn; lia).
  split; [exact RZ|]. split; [exact springDb_wellFormed|].
  apply (edited_entry_stays_in_its_cell
           Sample.westHost Sample2.isoHost (utcInstant 2025 11 1 8 0)
           (utcInstant 2025 11 5 12 0) (Some "user1") "user1"
           (utcInstant 2025 5 20 12 0)
           (Sample.row 1 "user1" (utcMidnight 2025 5 10) 3)
           {| Zod.pdate := utcMidnight 2025 5 10; Zod.pcount := inject_Z 6 |} 6
           Sample.springDb RZ);
    try exact springDb_wellFormed; try reflexivity;
    try (vm_compute; reflexivity); try (vm_compute; split; discriminate);
    try (vm_compute; discriminate).
Defined.

(** ** The highlighted cell *)

(** X21.  When the view month is the current month (of a year not
    between 0 and 99), exactly one day of the grid's range is highlighted,
    the day of the month of today; the Date a click on it hands on is
    the local midnight of today. *)
Theorem highlighted_cell_is_today (h : Host) (today viewMonth : TimeValue) :
  ~ 0 <= getFullYear h viewMonth <= 99 ->
  Calendar.isCurrentMonth h today viewMonth = true ->
  1 <= getDate h today <= Calendar.daysInMonth h viewMonth
  /\ (forall day, Calendar.isCurrentDay h today viewMonth day = true
                  <-> day = getDate h today)
  /\ LocalTime h (Calendar.handleDayClick h viewMonth (getDate h today))
     = MakeDate (Day (LocalTime h today)) 0.
Proof.
  intros NY CM. unfold Calendar.isCurrentMonth in CM.
  apply andb_true_iff in CM. destruct CM as [EY EM].
  apply Z.eqb_eq in EY, EM. unfold Calendar.year in EY. unfold Calendar.month in EM.
  destruct (daysInMonth_facts h viewMonth NY) as (EN & _ & _).
  pose proof (DateFromTime_range (LocalTime h today)) as RD.
  assert (RD' : 1 <= getDate h today
                <= daysInMonth (InLeapYear (getFullYear h today)) (getMonth h today))
    by exact RD.
  rewrite EY, EM, <- EN in RD'.
  split; [exact RD'|]. split.
  - intros day. unfold Calendar.isCurrentDay, Calendar.isCurrentMonth,
      Calendar.year, Calendar.month.
    rewrite EY, EM, !Z.eqb_refl. cbn [andb]. apply Z.eqb_eq.
  - unfold Calendar.handleDayClick, Calendar.year, Calendar.month.
    rewrite newDate_local, (MakeFullYear_id _ NY). f_equal.
    assert (RM : 0 <= getMonth h viewMonth <= 11) by apply MonthFromTime_range.
    rewrite (MakeDay_normal _ _ _ RM), <- EY, <- EM.
    symmetry. apply (Day_of_civil (LocalTime h today)).
Qed.

(** X21, witness: 2025-11-05 in the view of November 2025, five hours
    west of UTC. *)
Lemma highlighted_cell_is_today_witness :
  ~ 0 <= getFullYear Sample.westHost (utcInstant 2025 11 20 12 0) <= 99
  /\ Calendar.isCurrentMonth Sample.westHost (utcInstant 2025 11 5 12 0)
                             (utcInstant 2025 11 20 12 0) = true
  /\ 1 <= getDate Sample.westHost (utcInstant 2025 11 5 12 0)
     <= Calendar.daysInMonth Sample.westHost (utcInstant 2025 11 20 12 0)
  /\ (forall day,
        Calendar.isCurrentDay Sample.westHost (utcInstant 2025 11 5 12 0)
                              (utcInstant 2025 11 20 12 0) day = true
        <-> day = getDate Sample.westHost (utcInstant 2025 11 5 12 0))
  /\ LocalTime Sample.westHost
       (Calendar.handleDayClick Sample.westHost (utcInstant 2025 11 20 12 0)
          (getDate Sample.westHost (utcInstant 2025 11 5 12 0)))
     = MakeDate (Day (LocalTime Sample.westHost (utcInstant 2025 11 5 12 0))) 0.
Proof.
  assert (NY : ~ 0 <= getFullYear Sample.westHost (utcInstant 2025 11 20 12 0) <= 99)
    by (vm_compute; intros [_ H]; apply H; reflexivity).
  assert (CM : Calendar.isCurrentMonth Sample.westHost (utcInstant 2025 11 5 12 0)
                                       (utcInstant 2025 11 20 12 0) = true)
    by (vm_compute; reflexivity).
  split; [exact NY|]. split; [exact CM|].
  exact (highlighted_cell_is_today Sample.westHost (utcInstant 2025 11 5 12 0)
                                   (utcInstant 2025 11 20 12 0) NY CM).
Defined.
